(** * DDR report generator: the generate-validate-repair pipeline

    A shallow embedding of [backend/llm_engine.py] and [backend/schemas.py]
    (with the configuration reader of [backend/config.py]), and the
    properties of the payload extractor, the value normalizer, the schema
    coercer, the strict validator and the retry orchestrator. The text
    helpers of [backend/merger.py] and [backend/parser.py] and the endpoint
    of [backend/main.py] follow, with their properties in the last part.

    Conventions of the embedding:
    - Python text is a [string] whose characters are the code points below
      256; [str.strip], [str.lower] and [str.isspace] are written out for
      that range.
    - A parsed JSON document is a [value]; a Python [dict] with string keys
      is a [gmap string value] (dict equality in Python ignores insertion
      order, as map equality does here).
    - A Python exception is an [exn] (class, message, cause); a function
      that may raise returns a [result].
    - The remote service and the process environment are parameters of the
      [Engine] section; the file system, the PDF and OCR libraries and the
      document writer are parameters of the [Endpoint] section. *)

From Stdlib Require Import Ascii.
From stdpp Require Import gmap strings list fin_maps pretty.

Set Warnings "-register-all".
Set Default Proof Using "Type".

Local Open Scope string_scope.

(** ** Python text operations *)

Module PyStr.

(** [c.isspace()] for a code point below 256. *)
Definition isspace (c : ascii) : bool :=
  let n := nat_of_ascii c in
  (((9 <=? n) && (n <=? 13)) || ((28 <=? n) && (n <=? 32))
   || (n =? 133) || (n =? 160))%nat.

(** [c.lower()] for a code point below 256: A-Z, and the Latin-1 capitals
    U+00C0..U+00DE except the multiplication sign U+00D7. *)
Definition lower_char (c : ascii) : ascii :=
  let n := nat_of_ascii c in
  if (((65 <=? n) && (n <=? 90))
      || ((192 <=? n) && (n <=? 222) && negb (n =? 215)))%nat
  then ascii_of_nat (n + 32) else c.

Fixpoint lower (s : string) : string :=
  match s with
  | EmptyString => EmptyString
  | String c s' => String (lower_char c) (lower s')
  end.

Fixpoint lstrip (s : string) : string :=
  match s with
  | EmptyString => EmptyString
  | String c s' => if isspace c then lstrip s' else s
  end.

Fixpoint rstrip (s : string) : string :=
  match s with
  | EmptyString => EmptyString
  | String c s' =>
      match rstrip s' with
      | EmptyString => if isspace c then EmptyString else String c EmptyString
      | r => String c r
      end
  end.

(** [s.strip()] *)
Definition strip (s : string) : string := rstrip (lstrip s).

(** [s.startswith(c)] and [s.endswith(c)] for a one-character argument. *)
Definition startswith_char (c : ascii) (s : string) : bool :=
  match s with
  | String c' _ => bool_decide (c' = c)
  | EmptyString => false
  end.

Fixpoint endswith_char (c : ascii) (s : string) : bool :=
  match s with
  | EmptyString => false
  | String c' EmptyString => bool_decide (c' = c)
  | String _ s' => endswith_char c s'
  end.

(** [s.split(",")]: never empty, [""] for the empty text. *)
Fixpoint split_comma (s : string) : list string :=
  match s with
  | EmptyString => [EmptyString]
  | String c s' =>
      if bool_decide (c = ","%char) then EmptyString :: split_comma s'
      else match split_comma s' with
           | h :: t => String c h :: t
           | [] => [String c EmptyString]
           end
  end.

(** [s[:n]] for a non-negative [n]. *)
Fixpoint take (n : nat) (s : string) : string :=
  match n, s with
  | S n', String c s' => String c (take n' s')
  | _, _ => EmptyString
  end.

Fixpoint is_prefix (p s : string) : bool :=
  match p, s with
  | EmptyString, _ => true
  | String a p', String b s' => bool_decide (a = b) && is_prefix p' s'
  | String _ _, EmptyString => false
  end.

(** [s.replace(old, new)] for a non-empty [old]: every non-overlapping
    occurrence, left to right. [skip] counts the characters of an
    occurrence still to be dropped. *)
Fixpoint replace_from (skip : nat) (old new s : string) : string :=
  match s with
  | EmptyString => EmptyString
  | String c s' =>
      match skip with
      | S k => replace_from k old new s'
      | O =>
          if is_prefix old s
          then new +:+ replace_from (String.length old - 1) old new s'
          else String c (replace_from 0 old new s')
      end
  end.

Definition replace (old new s : string) : string := replace_from 0 old new s.

(** The match of the pattern [\{.*\}] (with DOTALL) anchored at the start
    of [s]: an opening brace, then the longest run that still leaves a
    closing brace to end on. *)
Fixpoint upto_last_close (s : string) : option string :=
  match s with
  | EmptyString => None
  | String c s' =>
      match upto_last_close s' with
      | Some m => Some (String c m)
      | None => if bool_decide (c = "}"%char) then Some (String c EmptyString)
                else None
      end
  end.

Definition match_braces_at (s : string) : option string :=
  match s with
  | String c rest =>
      if bool_decide (c = "{"%char)
      then String c <$> upto_last_close rest
      else None
  | EmptyString => None
  end.

(** [re.search(r"\{.*\}", s, flags=re.DOTALL)]: the match at the leftmost
    position that has one ([group(0)]), or [None]. *)
Fixpoint search_braces (s : string) : option string :=
  match match_braces_at s with
  | Some m => Some m
  | None =>
      match s with
      | EmptyString => None
      | String _ s' => search_braces s'
      end
  end.

End PyStr.

(** ** Generic parsed values *)

(** What [json.loads] builds: [None], [bool], [int], [float] (kept as its
    bit pattern; no arithmetic is done on numbers), [str], [list], and
    [dict] with [str] keys. *)
Inductive value :=
  | VNull
  | VBool (b : bool)
  | VInt (z : Z)
  | VFloat (bits : Z)
  | VStr (s : string)
  | VList (l : list value)
  | VDict (m : gmap string value).

Fixpoint vsize (v : value) : nat :=
  match v with
  | VList l => S (foldr (λ x acc, vsize x + acc) 0 l)
  | VDict m => S (map_fold (λ _ x acc, vsize x + acc) 0 m)
  | _ => 1
  end.

(** ** Exceptions and results *)

(** The exception classes the pipeline raises or catches. *)
Inductive exn_class :=
  | Exception
  | ValueError
  | JSONDecodeError
  | ValidationError
  | RuntimeError
  | RequestException
  | LLMGenerationError
  | LLMQuotaExceededError
  | LLMAuthError.

#[global] Instance exn_class_eq_dec : EqDecision exn_class.
Proof. solve_decision. Defined.

(** The class with its ancestors, most specific first.
    [json.JSONDecodeError] and pydantic's [ValidationError] derive from
    [ValueError]; the two specific engine errors derive from
    [LLMGenerationError]. *)
Definition mro (c : exn_class) : list exn_class :=
  match c with
  | Exception => [Exception]
  | ValueError => [ValueError; Exception]
  | JSONDecodeError => [JSONDecodeError; ValueError; Exception]
  | ValidationError => [ValidationError; ValueError; Exception]
  | RuntimeError => [RuntimeError; Exception]
  | RequestException => [RequestException; Exception]
  | LLMGenerationError => [LLMGenerationError; Exception]
  | LLMQuotaExceededError =>
      [LLMQuotaExceededError; LLMGenerationError; Exception]
  | LLMAuthError => [LLMAuthError; LLMGenerationError; Exception]
  end.

(** An exception object: its class, [str(exc)], and [__cause__]. *)
Inductive exn :=
  | Exn (cls : exn_class) (msg : string) (cause : option exn).

Definition exn_cls (e : exn) : exn_class := let 'Exn c _ _ := e in c.
Definition exn_msg (e : exn) : string := let 'Exn _ m _ := e in m.
Definition exn_cause (e : exn) : option exn := let 'Exn _ _ c := e in c.

(** [isinstance(e, (c1, ..., cn))] *)
Definition isinstance (e : exn) (cs : list exn_class) : bool :=
  existsb (λ c, bool_decide (c ∈ mro (exn_cls e))) cs.

Inductive result (A : Type) :=
  | Ok (a : A)
  | Raise (e : exn).
Arguments Ok {A} a.
Arguments Raise {A} e.

Definition rbind {A B} (r : result A) (k : A → result B) : result B :=
  match r with
  | Ok a => k a
  | Raise e => Raise e
  end.

Notation "x ←r e ; k" := (rbind e (λ x, k))
  (at level 100, e at next level, k at level 200, right associativity,
   format "x  ←r  e ;  '/' k").

Definition is_ok {A} (r : result A) : bool :=
  match r with Ok _ => true | Raise _ => false end.

(** ** llm_engine.py: extraction, normalization, coercion *)

Definition NOT_AVAILABLE : string := "Not Available".

Definition EXPECTED_TOP_LEVEL_KEYS : gset string :=
  list_to_set
    [ "Property_Issue_Summary"; "Area_Wise_Observations";
      "Probable_Root_Cause"; "Severity_Assessment"; "Recommended_Actions";
      "Risk_Implications"; "Additional_Notes";
      "Missing_or_Unclear_Information" ].

Definition MISSING_ALIASES : gset string :=
  list_to_set
    [ EmptyString; "n/a"; "na"; "null"; "none"; "unknown"; "not provided";
      "missing" ].

Definition MAX_INPUT_CHARS_PER_REPORT : N := 20000.

Definition _extract_json_payload (raw_text : string) : result string :=
  let candidate := PyStr.strip raw_text in
  if PyStr.startswith_char "{" candidate && PyStr.endswith_char "}" candidate
  then Ok candidate
  else
    match PyStr.search_braces candidate with
    | Some fenced_match => Ok fenced_match
    | None =>
        Raise (Exn ValueError "No JSON object found in model response." None)
    end.

Fixpoint _normalize_missing_markers (v : value) : value :=
  match v with
  | VDict m => VDict (_normalize_missing_markers <$> m)
  | VList l => VList (_normalize_missing_markers <$> l)
  | VNull => VStr NOT_AVAILABLE
  | VStr s =>
      let cleaned := PyStr.strip s in
      if bool_decide (PyStr.lower cleaned ∈ MISSING_ALIASES)
      then VStr NOT_AVAILABLE
      else VStr cleaned
  | _ => v
  end.

Definition default_severity : gmap string value :=
  <["overall_severity" := VStr NOT_AVAILABLE]>
  (<["reasoning" := VStr NOT_AVAILABLE]>
  (<["Confidence_Level" := VStr NOT_AVAILABLE]>
  (<["Confidence_Reasoning" := VStr NOT_AVAILABLE]> ∅))).

Definition _build_default_structure : gmap string value :=
  <["Property_Issue_Summary" := VStr NOT_AVAILABLE]>
  (<["Area_Wise_Observations" := VDict ∅]>
  (<["Probable_Root_Cause" := VStr NOT_AVAILABLE]>
  (<["Severity_Assessment" := VDict default_severity]>
  (<["Recommended_Actions" := VStr NOT_AVAILABLE]>
  (<["Risk_Implications" := VStr NOT_AVAILABLE]>
  (<["Additional_Notes" := VStr NOT_AVAILABLE]>
  (<["Missing_or_Unclear_Information" := VList [VStr NOT_AVAILABLE]]>
   ∅))))))).

(** [d.setdefault(k, v)], as the dict it leaves behind. *)
Definition setdefault (k : string) (d : value) (m : gmap string value)
  : gmap string value :=
  match m !! k with
  | Some _ => m
  | None => <[k := d]> m
  end.

(** The dict behind a value known to be one. *)
Definition dict_of (v : value) : gmap string value :=
  match v with VDict m => m | _ => ∅ end.

(** [o == s] for the result [o] of a [dict.get] and a text [s]. *)
Definition get_equals (o : option value) (s : string) : bool :=
  match o with
  | Some (VStr s') => bool_decide (s' = s)
  | _ => false
  end.

Definition AREA_FIELDS : list string :=
  [ "inspection_observation"; "thermal_observation"; "merged_finding";
    "dampness_type"; "inspection_evidence_ref"; "thermal_evidence_ref";
    "conflict_note" ].

Definition SEVERITY_FIELDS : list string :=
  [ "overall_severity"; "reasoning"; "Confidence_Level";
    "Confidence_Reasoning" ].

(** The dict literal written for an area whose value is not a dict. *)
Definition sentinel_area : gmap string value :=
  <["inspection_observation" := VStr NOT_AVAILABLE]>
  (<["thermal_observation" := VStr NOT_AVAILABLE]>
  (<["merged_finding" := VStr NOT_AVAILABLE]>
  (<["dampness_type" := VStr NOT_AVAILABLE]>
  (<["inspection_evidence_ref" := VStr NOT_AVAILABLE]>
  (<["thermal_evidence_ref" := VStr NOT_AVAILABLE]>
  (<["conflict_note" := VStr NOT_AVAILABLE]> ∅)))))).

(** The seven (resp. four) [setdefault] calls, in source order. *)
Definition backfill (fields : list string) (m : gmap string value)
  : gmap string value :=
  foldl (λ acc f, setdefault f (VStr NOT_AVAILABLE) acc) m fields.

(** One iteration of the loop over the areas: the value stored back under
    the area's key. *)
Definition coerce_area (area_data : value) : value :=
  match area_data with
  | VDict m => _normalize_missing_markers (VDict (backfill AREA_FIELDS m))
  | _ => VDict sentinel_area
  end.

(** [for area, area_data in list(areas.items()): areas[area] = ...] over a
    snapshot of the items. *)
Definition coerce_areas (areas : gmap string value) : gmap string value :=
  foldl (λ acc kv, <[kv.1 := coerce_area kv.2]> acc) areas (map_to_list areas).

(** The removal of a placeholder ["General"] entry. *)
Definition drop_placeholder_general (areas : gmap string value)
  : gmap string value :=
  match areas !! "General" with
  | Some (VDict general) =>
      let is_placeholder_general :=
        get_equals (general !! "inspection_observation") NOT_AVAILABLE
        && get_equals (general !! "thermal_observation") NOT_AVAILABLE
        && get_equals (general !! "merged_finding") NOT_AVAILABLE in
      if is_placeholder_general then delete "General" areas else areas
  | _ => areas
  end.

(** The stages of [_coerce_to_schema_shape], one per block of the source,
    each taking and returning the dict [completed]. *)

(** [for key in EXPECTED_TOP_LEVEL_KEYS: if key in normalized:
    completed[key] = normalized[key]] *)
Definition copy_expected (normalized completed : gmap string value)
  : gmap string value :=
  foldl (λ acc key,
           match normalized !! key with
           | Some v => <[key := v]> acc
           | None => acc
           end)
        completed (elements EXPECTED_TOP_LEVEL_KEYS).

(** [if not isinstance(completed.get("Area_Wise_Observations"), dict): ...] *)
Definition force_areas_dict (completed : gmap string value)
  : gmap string value :=
  match completed !! "Area_Wise_Observations" with
  | Some (VDict _) => completed
  | _ => <["Area_Wise_Observations" := VDict ∅]> completed
  end.

(** [if not isinstance(completed.get("Severity_Assessment"), dict): ...
    else: ...] *)
Definition force_severity (completed : gmap string value)
  : gmap string value :=
  match completed !! "Severity_Assessment" with
  | Some (VDict severity) =>
      <["Severity_Assessment" :=
          _normalize_missing_markers
            (VDict (backfill SEVERITY_FIELDS severity))]> completed
  | _ => <["Severity_Assessment" := VDict default_severity]> completed
  end.

(** [if not isinstance(completed.get("Missing_or_Unclear_Information"),
    list): ... elif not completed["Missing_or_Unclear_Information"]: ...] *)
Definition force_missing_list (completed : gmap string value)
  : gmap string value :=
  match completed !! "Missing_or_Unclear_Information" with
  | Some (VList (_ :: _)) => completed
  | _ =>
      <["Missing_or_Unclear_Information" := VList [VStr NOT_AVAILABLE]]>
        completed
  end.

(** The loop over the areas and the removal of the placeholder, both on the
    dict stored under ["Area_Wise_Observations"]. *)
Definition complete_areas (completed : gmap string value)
  : gmap string value :=
  let areas :=
    dict_of (default VNull (completed !! "Area_Wise_Observations")) in
  let areas := coerce_areas areas in
  let areas := drop_placeholder_general areas in
  <["Area_Wise_Observations" := VDict areas]> completed.

Definition _coerce_to_schema_shape (data : gmap string value)
  : gmap string value :=
  let normalized := dict_of (_normalize_missing_markers (VDict data)) in
  let completed := _build_default_structure in
  let completed := copy_expected normalized completed in
  let completed := force_areas_dict completed in
  let completed := force_severity completed in
  let completed := force_missing_list completed in
  complete_areas completed.

(** ** schemas.py: the strict validator *)

Definition MISSING_VALUE_ALIASES : gset string :=
  list_to_set
    [ "n/a"; "na"; "none"; "null"; "unknown"; "not provided"; "missing" ].

Definition _validate_non_empty (value field_name : string) : result string :=
  let cleaned := PyStr.strip value in
  if bool_decide (cleaned = EmptyString)
  then Raise (Exn ValueError (field_name +:+ " cannot be empty.") None)
  else if bool_decide (PyStr.lower cleaned ∈ MISSING_VALUE_ALIASES)
  then Raise (Exn ValueError
                (field_name +:+
                 " uses an invalid missing marker. Use 'Not Available' instead.")
                None)
  else Ok cleaned.

(** *** What pydantic does around the validators

    A field declared [str] takes a [str] and nothing else of what
    [json.loads] builds; a [Dict[str, M]] takes a dict and validates every
    entry as [M]; a [List[str]] takes a list of [str]. A required field that
    is absent is an error, a defaulted one takes its default unvalidated, and
    keys that are no field are ignored. The field validators of one field run
    in the order of their definition, each on the result of the one before.
    pydantic reports every failing field in one [ValidationError]; here the
    first failure met stands for the rejection. *)

Definition required_str (m : gmap string value) (field : string)
    (validators : string → result string) : result string :=
  match m !! field with
  | None => Raise (Exn ValueError (field +:+ ": Field required") None)
  | Some (VStr s) => validators s
  | Some _ =>
      Raise (Exn ValueError (field +:+ ": Input should be a valid string") None)
  end.

Definition defaulted_str (m : gmap string value) (field dflt : string)
    (validators : string → result string) : result string :=
  match m !! field with
  | None => Ok dflt
  | Some (VStr s) => validators s
  | Some _ =>
      Raise (Exn ValueError (field +:+ ": Input should be a valid string") None)
  end.

Fixpoint traverse_list {A B} (f : A → result B) (l : list A) : result (list B) :=
  match l with
  | [] => Ok []
  | x :: l' => y ←r f x; ys ←r traverse_list f l'; Ok (y :: ys)
  end.

Definition traverse_dict {A B} (f : A → result B) (m : gmap string A)
  : result (gmap string B) :=
  map_fold (λ k x acc, r ←r acc; y ←r f x; Ok (<[k := y]> r)) (Ok ∅) m.

(** A check run on every entry of a dict, as a loop that raises. *)
Definition check_dict {A} (f : string → A → result unit) (m : gmap string A)
  : result unit :=
  map_fold (λ k x acc, _ ←r acc; f k x) (Ok tt) m.

Definition as_str (v : value) : result string :=
  match v with
  | VStr s => Ok s
  | _ => Raise (Exn ValueError "Input should be a valid string" None)
  end.

Record AreaObservation := mkAreaObservation {
  inspection_observation : string;
  thermal_observation : string;
  merged_finding : string;
  dampness_type : string;
  inspection_evidence_ref : string;
  thermal_evidence_ref : string;
  conflict_note : string
}.

Record SeverityAssessment := mkSeverityAssessment {
  overall_severity : string;
  reasoning : string;
  Confidence_Level : string;
  Confidence_Reasoning : string
}.

Record DDRReport := mkDDRReport {
  Property_Issue_Summary : string;
  Area_Wise_Observations : gmap string AreaObservation;
  Probable_Root_Cause : string;
  Severity_Assessment : SeverityAssessment;
  Recommended_Actions : string;
  Risk_Implications : string;
  Additional_Notes : string;
  Missing_or_Unclear_Information : list string
}.

Module AreaObservationModel.

Definition validate_strings (value field_name : string) : result string :=
  _validate_non_empty value field_name.

Definition allowed : gset string :=
  list_to_set
    [ "rising damp"; "rising damp (probable)"; "penetrating damp";
      "penetrating damp (probable)"; "plumbing leakage damp";
      "plumbing leakage damp (probable)"; "not available" ].

Definition validate_dampness_type (value : string) : result string :=
  let parts :=
    (λ part, PyStr.lower (PyStr.strip part)) <$> PyStr.split_comma value in
  if bool_decide (parts = [])
  then Raise (Exn ValueError "dampness_type cannot be empty." None)
  else if forallb (λ part, bool_decide (part ∈ allowed)) parts
  then Ok value
  else Raise (Exn ValueError
                "dampness_type must use Rising/Penetrating/Plumbing Leakage Damp with optional '(Probable)', or Not Available."
                None).

Definition model_validate (v : value) : result AreaObservation :=
  match v with
  | VDict m =>
      f1 ←r required_str m "inspection_observation"
              (λ s, validate_strings s "inspection_observation");
      f2 ←r required_str m "thermal_observation"
              (λ s, validate_strings s "thermal_observation");
      f3 ←r required_str m "merged_finding"
              (λ s, validate_strings s "merged_finding");
      f4 ←r defaulted_str m "dampness_type" NOT_AVAILABLE
              (λ s, s' ←r validate_strings s "dampness_type";
                    validate_dampness_type s');
      f5 ←r defaulted_str m "inspection_evidence_ref" NOT_AVAILABLE
              (λ s, validate_strings s "inspection_evidence_ref");
      f6 ←r defaulted_str m "thermal_evidence_ref" NOT_AVAILABLE
              (λ s, validate_strings s "thermal_evidence_ref");
      f7 ←r defaulted_str m "conflict_note" NOT_AVAILABLE
              (λ s, validate_strings s "conflict_note");
      Ok (mkAreaObservation f1 f2 f3 f4 f5 f6 f7)
  | _ =>
      Raise (Exn ValueError
               "Input should be a valid dictionary or instance of AreaObservation"
               None)
  end.

End AreaObservationModel.

Module SeverityAssessmentModel.

Definition validate_strings (value field_name : string) : result string :=
  _validate_non_empty value field_name.

Definition validate_overall_severity (value : string) : result string :=
  let allowed : gset string :=
    list_to_set [ "low"; "low to moderate"; "moderate"; "moderate to high";
                  "high"; "not available" ] in
  if bool_decide (PyStr.lower (PyStr.strip value) ∈ allowed)
  then Ok value
  else Raise (Exn ValueError
                "overall_severity must be Low, Low to Moderate, Moderate, Moderate to High, High, or Not Available."
                None).

Definition validate_confidence_level (value : string) : result string :=
  let allowed : gset string :=
    list_to_set [ "high"; "medium"; "low"; "not available" ] in
  if bool_decide (PyStr.lower (PyStr.strip value) ∈ allowed)
  then Ok value
  else Raise (Exn ValueError
                "Confidence_Level must be High, Medium, Low, or Not Available."
                None).

Definition model_validate (v : value) : result SeverityAssessment :=
  match v with
  | VDict m =>
      f1 ←r required_str m "overall_severity"
              (λ s, s' ←r validate_strings s "overall_severity";
                    validate_overall_severity s');
      f2 ←r required_str m "reasoning"
              (λ s, validate_strings s "reasoning");
      f3 ←r required_str m "Confidence_Level"
              (λ s, s' ←r validate_strings s "Confidence_Level";
                    validate_confidence_level s');
      f4 ←r required_str m "Confidence_Reasoning"
              (λ s, validate_strings s "Confidence_Reasoning");
      Ok (mkSeverityAssessment f1 f2 f3 f4)
  | _ =>
      Raise (Exn ValueError
               "Input should be a valid dictionary or instance of SeverityAssessment"
               None)
  end.

End SeverityAssessmentModel.

Module DDRReportModel.

Definition validate_core_strings (value field_name : string) : result string :=
  _validate_non_empty value field_name.

(** The body of the loop over [value.keys()]; [area] is [value[key]]. *)
Definition check_area_key (key : string) (area : AreaObservation)
  : result unit :=
  if bool_decide (key = EmptyString) || bool_decide (PyStr.strip key = EmptyString)
  then Raise (Exn ValueError
                "Area_Wise_Observations contains an empty area name." None)
  else if bool_decide (PyStr.lower (PyStr.strip key) = "general")
          && bool_decide (PyStr.strip (inspection_observation area) = NOT_AVAILABLE)
          && bool_decide (PyStr.strip (thermal_observation area) = NOT_AVAILABLE)
          && bool_decide (PyStr.strip (merged_finding area) = NOT_AVAILABLE)
  then Raise (Exn ValueError
                "Placeholder 'General' area with no valid observations is not allowed."
                None)
  else Ok tt.

Definition validate_area_observations (value : gmap string AreaObservation)
  : result (gmap string AreaObservation) :=
  _ ←r check_dict check_area_key value; Ok value.

Definition validate_missing_info_list (value : list string)
  : result (list string) :=
  traverse_list
    (λ item,
       let cleaned := PyStr.strip item in
       if bool_decide (cleaned = EmptyString)
       then Raise (Exn ValueError
                     "Missing_or_Unclear_Information contains an empty item."
                     None)
       else Ok cleaned)
    value.

(** The fields, each with its type check and its validators. *)
Definition core_string_field (m : gmap string value) (name : string)
  : result string :=
  required_str m name (λ s, validate_core_strings s name).

Definition areas_field (m : gmap string value)
  : result (gmap string AreaObservation) :=
  match m !! "Area_Wise_Observations" with
  | None =>
      Raise (Exn ValueError "Area_Wise_Observations: Field required" None)
  | Some (VDict areas) =>
      typed ←r traverse_dict AreaObservationModel.model_validate areas;
      validate_area_observations typed
  | Some _ =>
      Raise (Exn ValueError
               "Area_Wise_Observations: Input should be a valid dictionary"
               None)
  end.

Definition severity_field (m : gmap string value) : result SeverityAssessment :=
  match m !! "Severity_Assessment" with
  | None => Raise (Exn ValueError "Severity_Assessment: Field required" None)
  | Some v => SeverityAssessmentModel.model_validate v
  end.

Definition missing_info_field (m : gmap string value) : result (list string) :=
  match m !! "Missing_or_Unclear_Information" with
  | None =>
      Raise (Exn ValueError
               "Missing_or_Unclear_Information: Field required" None)
  | Some (VList items) =>
      typed ←r traverse_list as_str items;
      validate_missing_info_list typed
  | Some _ =>
      Raise (Exn ValueError
               "Missing_or_Unclear_Information: Input should be a valid list"
               None)
  end.

Definition validate_fields (m : gmap string value) : result DDRReport :=
  f1 ←r core_string_field m "Property_Issue_Summary";
  f2 ←r areas_field m;
  f3 ←r core_string_field m "Probable_Root_Cause";
  f4 ←r severity_field m;
  f5 ←r core_string_field m "Recommended_Actions";
  f6 ←r core_string_field m "Risk_Implications";
  f7 ←r core_string_field m "Additional_Notes";
  f8 ←r missing_info_field m;
  Ok (mkDDRReport f1 f2 f3 f4 f5 f6 f7 f8).

(** [DDRReport.model_validate(obj)] for a dict [obj]: any failure of a
    field surfaces as pydantic's [ValidationError]. *)
Definition model_validate (m : gmap string value) : result DDRReport :=
  match validate_fields m with
  | Ok report => Ok report
  | Raise e => Raise (Exn ValidationError (exn_msg e) None)
  end.

End DDRReportModel.

(** ** llm_engine.py: transport and retry orchestration *)

(** An HTTP response as the engine reads it: [status_code], the outcome of
    [response.json()] ([None] when it raises [ValueError]) and [text]. *)
Record Response := mkResponse {
  status_code : Z;
  json_body : option value;
  text : string
}.

(** What varies in the POST request: the bearer token, the model name and
    the content of the single user message. *)
Record Request := mkRequest {
  authorization : string;
  model : string;
  content : string
}.

(** Python truthiness of a parsed value. *)
Definition truthy (v : value) : bool :=
  match v with
  | VNull => false
  | VBool b => b
  | VInt z => negb (z =? 0)%Z
  | VFloat bits => negb ((bits =? 0)%Z || (bits =? 2 ^ 63)%Z)
  | VStr s => negb (bool_decide (s = EmptyString))
  | VList l => negb (bool_decide (l = []))
  | VDict m => negb (bool_decide (m = ∅))
  end.

(** [v[k]] for a text key: only a dict has one. *)
Definition subscript_key (v : value) (k : string) : option value :=
  match v with
  | VDict m => m !! k
  | _ => None
  end.

(** [v[0]]: the head of a list or the first character of a text. *)
Definition subscript_zero (v : value) : option value :=
  match v with
  | VList (x :: _) => Some x
  | VStr (String c _) => Some (VStr (String c EmptyString))
  | _ => None
  end.

Definition RETRY_SUFFIX : string :=
  String "010" (String "010"
    "Your previous response was invalid. Return ONLY a valid JSON object with the exact schema.").

(** The log of transport calls (the prompt of each) next to the state of
    the outside world. *)
Record state (World : Type) := mkState {
  world : World;
  transport_calls : list string
}.
Arguments mkState {World} _ _.
Arguments world {World} _.
Arguments transport_calls {World} _.

Section Engine.

Context {World : Type}.

(** [requests.post(url, headers=..., json=..., timeout=120)]: a response,
    or an exception (connection failure, timeout). *)
Variable requests_post : Request → World → result Response * World.
(** [os.getenv(name)] *)
Variable getenv : string → option string.
(** [json.loads] on a text that starts with an opening brace: a dict, or
    a [JSONDecodeError] with its message. *)
Variable json_loads : string → gmap string value + string.
(** [str(v)] of a parsed value. *)
Variable py_str : value → string.
Variable DDR_PROMPT_TEMPLATE : string.

(** config.py *)
Definition get_openrouter_api_key : result string :=
  let api_key := PyStr.strip (default EmptyString (getenv "OPENROUTER_API_KEY")) in
  if bool_decide (api_key = EmptyString)
  then Raise (Exn RuntimeError
                "OPENROUTER_API_KEY is not set. Add it to your .env file before running the app."
                None)
  else Ok api_key.

Definition get_openrouter_model : string :=
  let m := PyStr.strip (default "openrouter/auto" (getenv "OPENROUTER_MODEL")) in
  if bool_decide (m = EmptyString) then "openrouter/auto" else m.

Definition _extract_openrouter_error (response : Response) : string :=
  match json_body response with
  | None =>
      if bool_decide (text response = EmptyString)
      then "Unknown OpenRouter error." else text response
  | Some payload =>
      match payload with
      | VDict p =>
          match p !! "error" with
          | Some (VDict error) =>
              match error !! "message" with
              | Some msg =>
                  if truthy msg then py_str msg
                  else match p !! "message" with
                       | Some msg' => if truthy msg' then py_str msg'
                                      else py_str payload
                       | None => py_str payload
                       end
              | None =>
                  match p !! "message" with
                  | Some msg' => if truthy msg' then py_str msg'
                                 else py_str payload
                  | None => py_str payload
                  end
              end
          | _ =>
              match p !! "message" with
              | Some msg' => if truthy msg' then py_str msg'
                             else py_str payload
              | None => py_str payload
              end
          end
      | _ => py_str payload
      end
  end.

(** A computation of the engine: it may raise, and it moves the state. *)
Definition M (A : Type) : Type := state World → result A * state World.

Definition log_call (prompt : string) (st : state World) : state World :=
  mkState (world st) (transport_calls st ++ [prompt]).

(** [data["choices"][0]["message"]["content"]], [None] when any step
    raises. *)
Definition assistant_content (data : value) : option value :=
  choices ← subscript_key data "choices";
  first ← subscript_zero choices;
  message ← subscript_key first "message";
  subscript_key message "content".

(** The part of [_call_openrouter] after the POST returned. The causes
    chained by [from exc] are the exception of [response.json()] and of the
    subscripting; only their classes are kept. *)
Definition interpret_response (response : Response) : result string :=
  if bool_decide (status_code response = 429%Z)
  then Raise (Exn LLMQuotaExceededError
                ("OpenRouter quota/rate limit exceeded (HTTP 429): "
                 +:+ _extract_openrouter_error response) None)
  else if bool_decide (status_code response = 401%Z)
          || bool_decide (status_code response = 403%Z)
  then Raise (Exn LLMAuthError
                ("OpenRouter authentication/authorization failed ("
                 +:+ pretty (status_code response) +:+ "): "
                 +:+ _extract_openrouter_error response) None)
  else if bool_decide (400 ≤ status_code response)%Z
  then Raise (Exn LLMGenerationError
                ("OpenRouter request failed ("
                 +:+ pretty (status_code response) +:+ "): "
                 +:+ _extract_openrouter_error response) None)
  else
    match json_body response with
    | None =>
        Raise (Exn LLMGenerationError "OpenRouter returned non-JSON response."
                 (Some (Exn ValueError EmptyString None)))
    | Some data =>
        match assistant_content data with
        | None =>
            Raise (Exn LLMGenerationError
                     "OpenRouter response missing choices/message/content."
                     (Some (Exn Exception EmptyString None)))
        | Some (VStr response_text) =>
            if bool_decide (PyStr.strip response_text = EmptyString)
            then Raise (Exn LLMGenerationError
                          "OpenRouter returned empty assistant content." None)
            else Ok response_text
        | Some _ =>
            Raise (Exn LLMGenerationError
                     "OpenRouter returned empty assistant content." None)
        end
    end.

Definition _call_openrouter (prompt : string) : M string :=
  λ st,
    let st := log_call prompt st in
    match get_openrouter_api_key with
    | Raise e => (Raise e, st)
    | Ok api_key =>
        let request :=
          mkRequest ("Bearer " +:+ api_key) get_openrouter_model prompt in
        let '(outcome, w) := requests_post request (world st) in
        let st := mkState w (transport_calls st) in
        match outcome with
        | Raise exc =>
            (Raise (Exn LLMGenerationError
                      ("OpenRouter request failed: " +:+ exn_msg exc)
                      (Some exc)), st)
        | Ok response => (interpret_response response, st)
        end
    end.

(** [_parse_and_validate] with the failures that its three stages raise
    themselves: the [ValueError] of the extractor, the [JSONDecodeError]
    of the parser and the [ValidationError] of the validator. The
    interpreter's own [RecursionError] on a payload nested deeper than its
    stack allows is not modelled; a statement about a failure of this stage
    names the class of the failure. *)
Definition _parse_and_validate (raw_text : string) : result DDRReport :=
  json_payload ←r _extract_json_payload raw_text;
  parsed ←r match json_loads json_payload with
            | inl d => Ok d
            | inr msg => Raise (Exn JSONDecodeError msg None)
            end;
  let coerced := _coerce_to_schema_shape parsed in
  DDRReportModel.model_validate coerced.

Definition base_prompt (inspection_text thermal_text : string) : string :=
  let inspection_slice :=
    PyStr.take (N.to_nat MAX_INPUT_CHARS_PER_REPORT) inspection_text in
  let thermal_slice :=
    PyStr.take (N.to_nat MAX_INPUT_CHARS_PER_REPORT) thermal_text in
  PyStr.replace "{thermal_text}" thermal_slice
    (PyStr.replace "{inspection_text}" inspection_slice DDR_PROMPT_TEMPLATE).

(** The statement after the loop. *)
Definition generation_failed (last_error : option exn) : exn :=
  Exn LLMGenerationError
    ("Failed to generate a valid DDR JSON response: "
     +:+ from_option exn_msg "None" last_error)
    last_error.

(** One attempt: the body of the [try]. *)
Definition attempt_once (prompt : string) : M DDRReport :=
  λ st,
    match _call_openrouter prompt st with
    | (Ok raw_response, st') => (_parse_and_validate raw_response, st')
    | (Raise e, st') => (Raise e, st')
    end.

(** [for attempt in rng: ...] followed by the final [raise], with the loop
    variables [last_error] and [retry_suffix] threaded through. *)
Fixpoint attempts (prompt : string) (rng : list nat)
    (last_error : option exn) (retry_suffix : string) : M DDRReport :=
  match rng with
  | [] => λ st, (Raise (generation_failed last_error), st)
  | attempt :: rest =>
      λ st,
        match attempt_once (prompt +:+ retry_suffix) st with
        | (Ok report, st') => (Ok report, st')
        | (Raise exc, st') =>
            if isinstance exc [LLMQuotaExceededError; LLMAuthError]
            then (Raise exc, st')
            else if isinstance exc [JSONDecodeError; ValidationError;
                                    ValueError; LLMGenerationError]
            then
              if bool_decide (attempt = 0)
              then attempts prompt rest (Some exc) RETRY_SUFFIX st'
              else (Raise (generation_failed (Some exc)), st')
            else (Raise exc, st')
        end
  end.

Definition generate_ddr (inspection_text thermal_text : string) : M DDRReport :=
  attempts (base_prompt inspection_text thermal_text) [0; 1] None EmptyString.

End Engine.

(** ** Trimmed text *)

(** A text with no white space at its head. *)
Definition starts_clean (s : string) : Prop :=
  match s with
  | EmptyString => True
  | String c _ => PyStr.isspace c = false
  end.

(** ** The extractor's contract, in the specification's words *)

Fixpoint contains_char (c : ascii) (s : string) : bool :=
  match s with
  | EmptyString => false
  | String c' s' => bool_decide (c' = c) || contains_char c s'
  end.

(** [m] is a substring of [s] that runs from an opening brace to a closing
    brace, with any characters (newlines included) in between. *)
Definition brace_span (s m : string) : Prop :=
  ∃ pre body post,
    s = pre +:+ m +:+ post ∧ m = String "{" (body +:+ "}").

(** The first such span, read greedily: no opening brace comes before it,
    and no closing brace comes after it. *)
Definition first_greedy_span (s m : string) : Prop :=
  ∃ pre body post,
    s = pre +:+ m +:+ post ∧ m = String "{" (body +:+ "}")
    ∧ contains_char "{" pre = false ∧ contains_char "}" post = false.

(** ** Occurrences inside a value *)

(** One step into a container: under a key of a mapping, or at an index of
    a sequence. *)
Inductive step :=
  | Key (k : string)
  | Index (i : nat).

(** The sub-value reached by a path, at any depth. *)
Fixpoint at_path (p : list step) (v : value) : option value :=
  match p with
  | [] => Some v
  | Key k :: p' =>
      match v with
      | VDict m => m !! k ≫= at_path p'
      | _ => None
      end
  | Index i :: p' =>
      match v with
      | VList l => l !! i ≫= at_path p'
      | _ => None
      end
  end.

(** A text that is one of the aliases up to letter case. *)
Definition is_missing_alias (s : string) : Prop :=
  PyStr.lower s ∈ MISSING_ALIASES.

(** A value that stands for a missing fact: null, or an alias text. *)
Definition missing_marker (v : value) : Prop :=
  v = VNull ∨ ∃ s, v = VStr s ∧ is_missing_alias s.

(** Some mapping inside [v] has an alias among its keys. *)
Definition alias_key_occurs (v : value) : Prop :=
  ∃ p m k, at_path p v = Some (VDict m) ∧ is_Some (m !! k)
           ∧ is_missing_alias k.

(** ** The shape of a report document, in the specification's words *)

(** An area entry: a mapping with all seven sub-fields. *)
Definition area_shaped (v : value) : Prop :=
  ∃ m, v = VDict m ∧ ∀ f, f ∈ AREA_FIELDS → is_Some (m !! f).

(** A schema-shaped document: exactly the eight top-level keys, the areas a
    mapping of shaped entries, the severity a mapping with its four
    sub-keys, the missing-information list a non-empty sequence. *)
Definition schema_shaped (d : gmap string value) : Prop :=
  dom d = EXPECTED_TOP_LEVEL_KEYS
  ∧ (∃ areas, d !! "Area_Wise_Observations" = Some (VDict areas)
              ∧ map_Forall (λ _, area_shaped) areas)
  ∧ (∃ severity, d !! "Severity_Assessment" = Some (VDict severity)
                 ∧ ∀ f, f ∈ SEVERITY_FIELDS → is_Some (severity !! f))
  ∧ (∃ x l, d !! "Missing_or_Unclear_Information" = Some (VList (x :: l))).

(** The three substantive fields of an area. *)
Definition SUBSTANTIVE_FIELDS : list string :=
  [ "inspection_observation"; "thermal_observation"; "merged_finding" ].

(** What a sub-field holds when it carries no finding: nothing, the
    sentinel, or a missing marker. *)
Definition sentinel_valued (o : option value) : Prop :=
  o = None ∨ o = Some (VStr NOT_AVAILABLE)
  ∨ ∃ x, o = Some x ∧ missing_marker x.

(** ** Failures, as the orchestrator sorts them *)

(** A failure that ends the request at once, and one that earns the retry. *)
Definition fatal (e : exn) : bool :=
  isinstance e [LLMQuotaExceededError; LLMAuthError].

Definition recoverable (e : exn) : bool :=
  negb (fatal e)
  && isinstance e [JSONDecodeError; ValidationError; ValueError;
                   LLMGenerationError].

(** The three pipeline failures: no JSON object found, a JSON syntax error,
    a rejection by the validator. *)
Definition pipeline_failure (e : exn) : Prop :=
  exn_cls e = ValueError ∨ exn_cls e = JSONDecodeError
  ∨ exn_cls e = ValidationError.


(** ** The dampness vocabulary, in the specification's words *)

(** The three labels, each with or without the qualifier, and the
    sentinel. *)
Definition DAMPNESS_VOCABULARY : list string :=
  [ "Rising Damp"; "Rising Damp (Probable)";
    "Penetrating Damp"; "Penetrating Damp (Probable)";
    "Plumbing Leakage Damp"; "Plumbing Leakage Damp (Probable)";
    "Not Available" ].

(** A comma-separated component, trimmed, that is a word of the vocabulary
    up to letter case. *)
Definition in_vocabulary (part : string) : Prop :=
  ∃ w, w ∈ DAMPNESS_VOCABULARY
       ∧ PyStr.lower (PyStr.strip part) = PyStr.lower w.

(** ** Sample documents *)

(** One area with findings and the given dampness text. *)
Definition sample_area (dampness : string) : gmap string value :=
  <["inspection_observation" := VStr "Damp patch on the north wall"]>
  (<["thermal_observation" := VStr "Cold spot below the window"]>
  (<["merged_finding" := VStr "Moisture ingress at the window sill"]>
  (<["dampness_type" := VStr dampness]>
  (<["inspection_evidence_ref" := VStr "Table 2, row 4"]>
  (<["thermal_evidence_ref" := VStr "Image 7"]>
  (<["conflict_note" := VStr NOT_AVAILABLE]> ∅)))))).

(** A complete document: the given summary, one area ["Hall"], and the
    sentinel everywhere else. *)
Definition sample_document (summary dampness : string) : gmap string value :=
  <["Property_Issue_Summary" := VStr summary]>
  (<["Area_Wise_Observations" :=
       VDict {[ "Hall" := VDict (sample_area dampness) ]}]>
     _build_default_structure).

(** A document whose only area is a placeholder ["General"]. *)
Definition placeholder_only_document : gmap string value :=
  {[ "Property_Issue_Summary" := VStr "No defects recorded";
     "Area_Wise_Observations" :=
       VDict {[ "General" :=
         VDict {[ "inspection_observation" := VStr NOT_AVAILABLE;
                  "thermal_observation" := VStr "n/a" ]} ]} ]}.

(** ** Transport doubles

    A scripted service for running the orchestrator: the n-th request gets
    the n-th scripted outcome, and the world is the number of requests
    served so far. *)

Definition chat_reply (content : string) : Response :=
  mkResponse 200
    (Some (VDict {[ "choices" :=
       VList [VDict {[ "message" := VDict {[ "content" := VStr content ]} ]}] ]}))
    EmptyString.

Definition http_error (status : Z) : Response :=
  mkResponse status None EmptyString.

Definition scripted_post (script : list (result Response))
  : Request → nat → result Response * nat :=
  λ _ served,
    (default (Raise (Exn RequestException "connection refused" None))
             (script !! served),
     S served).

Definition test_env (name : string) : option string :=
  if bool_decide (name = "OPENROUTER_API_KEY") then Some "sk-test" else None.

Definition reject_json (payload : string) : gmap string value + string :=
  inr "Expecting property name enclosed in double quotes".

Definition blank_str (v : value) : string := EmptyString.

(** ** Well-formed reports, in words *)

(** A text as the validators leave it: not empty, trimmed, and no missing
    alias. *)
Definition validated_text (s : string) : Prop :=
  s ≠ EmptyString ∧ PyStr.strip s = s
  ∧ PyStr.lower s ∉ MISSING_VALUE_ALIASES.

(** The severity and confidence scales, as the validators list them. *)
Definition SEVERITY_LABELS : list string :=
  [ "Low"; "Low to Moderate"; "Moderate"; "Moderate to High"; "High";
    "Not Available" ].

Definition CONFIDENCE_LABELS : list string :=
  [ "High"; "Medium"; "Low"; "Not Available" ].

(** A text that, trimmed, is one of the labels up to letter case. *)
Definition matches_label (labels : list string) (s : string) : Prop :=
  ∃ w, w ∈ labels ∧ PyStr.lower (PyStr.strip s) = PyStr.lower w.

(** An area with no finding in any of its three substantive fields. *)
Definition placeholder_area (a : AreaObservation) : Prop :=
  inspection_observation a = NOT_AVAILABLE
  ∧ thermal_observation a = NOT_AVAILABLE
  ∧ merged_finding a = NOT_AVAILABLE.

Definition area_wellformed (a : AreaObservation) : Prop :=
  validated_text (inspection_observation a)
  ∧ validated_text (thermal_observation a)
  ∧ validated_text (merged_finding a)
  ∧ validated_text (dampness_type a)
  ∧ validated_text (inspection_evidence_ref a)
  ∧ validated_text (thermal_evidence_ref a)
  ∧ validated_text (conflict_note a)
  ∧ ∀ part, part ∈ PyStr.split_comma (dampness_type a) → in_vocabulary part.

Definition severity_wellformed (s : SeverityAssessment) : Prop :=
  validated_text (overall_severity s)
  ∧ validated_text (reasoning s)
  ∧ validated_text (Confidence_Level s)
  ∧ validated_text (Confidence_Reasoning s)
  ∧ matches_label SEVERITY_LABELS (overall_severity s)
  ∧ matches_label CONFIDENCE_LABELS (Confidence_Level s).

(** What every report that left the validator satisfies. *)
Definition report_wellformed (r : DDRReport) : Prop :=
  validated_text (Property_Issue_Summary r)
  ∧ validated_text (Probable_Root_Cause r)
  ∧ validated_text (Recommended_Actions r)
  ∧ validated_text (Risk_Implications r)
  ∧ validated_text (Additional_Notes r)
  ∧ map_Forall
      (λ name a,
         PyStr.strip name ≠ EmptyString ∧ area_wellformed a
         ∧ (PyStr.lower (PyStr.strip name) = "general" → ¬ placeholder_area a))
      (Area_Wise_Observations r)
  ∧ severity_wellformed (Severity_Assessment r)
  ∧ Forall (λ item, item ≠ EmptyString ∧ PyStr.strip item = item)
      (Missing_or_Unclear_Information r).

(** What an input field has to hold for a validated field to come out. *)
Definition required_from (o : option value) (c : string) : Prop :=
  ∃ s, o = Some (VStr s) ∧ c = PyStr.strip s ∧ validated_text c.

Definition defaulted_from (o : option value) (c : string) : Prop :=
  (o = None ∧ c = NOT_AVAILABLE) ∨ required_from o c.

(** ** The coercer on valid documents, in words *)

(** The missing-information items of a report after one more pass through
    the coercer: an alias becomes the sentinel, an empty list the
    one-sentinel list. *)
Definition repair_missing (items : list string) : list string :=
  match items with
  | [] => [NOT_AVAILABLE]
  | _ =>
      (λ item, if bool_decide (PyStr.lower item ∈ MISSING_ALIASES)
               then NOT_AVAILABLE else item) <$> items
  end.

(** An input field that the coercer turns into the sentinel: absent, or a
    value that normalizes to it. *)
Definition normalizes_to_sentinel (o : option value) : Prop :=
  o = None
  ∨ ∃ x, o = Some x ∧ _normalize_missing_markers x = VStr NOT_AVAILABLE.

(** An area value that the coercer leaves without any finding: no mapping
    at all, or a mapping whose three substantive fields all turn into the
    sentinel. *)
Definition placeholder_entry (v : value) : Prop :=
  match v with
  | VDict g => ∀ f, f ∈ SUBSTANTIVE_FIELDS → normalizes_to_sentinel (g !! f)
  | _ => True
  end.

(** ** Further text operations: joins and regular expressions *)

Module PyText.

(** [re.sub("[cls]+", repl, s)] for a character class [cls] and a
    one-character replacement: every maximal run of characters of the class
    becomes [repl]. [in_run] tells that the previous character was of the
    class. With [repl] in the class this is also [re.sub("[cls]{2,}", repl,
    s)], a run of one character being replaced by itself. *)
Fixpoint sub_runs (cls : ascii → bool) (repl : ascii) (in_run : bool)
    (s : string) : string :=
  match s with
  | EmptyString => EmptyString
  | String c s' =>
      if cls c
      then if in_run then sub_runs cls repl true s'
           else String repl (sub_runs cls repl true s')
      else String c (sub_runs cls repl false s')
  end.

(** The truth value of a text: not empty. *)
Definition nonempty (s : string) : bool :=
  negb (bool_decide (s = EmptyString)).

(** [sep.join(parts)] *)
Fixpoint join (sep : string) (parts : list string) : string :=
  match parts with
  | [] => EmptyString
  | [x] => x
  | x :: rest => x +:+ sep +:+ join sep rest
  end.

(** [s.endswith(suffix)] *)
Fixpoint endswith (suffix s : string) : bool :=
  bool_decide (s = suffix)
  || match s with
     | EmptyString => false
     | String _ s' => endswith suffix s'
     end.

End PyText.

(** ** merger.py: text pre-processing *)

Module Merger.

Definition clean_whitespace (text : string) : string :=
  PyStr.strip (PyText.sub_runs PyStr.isspace " " false text).

(** The characters of the class [[.!?]]. *)
Definition is_sentence_end (c : ascii) : bool :=
  bool_decide (c = "."%char) || bool_decide (c = "!"%char)
  || bool_decide (c = "?"%char).

(** [re.split(r"(?<=[.!?])\s+", s)]: the text is cut at every maximal run of
    white space that directly follows a sentence end, and the run is
    dropped. [skipping] tells that such a run is being dropped, [prev_end]
    that the previous character was a sentence end. The list is never
    empty; its head is the piece that starts at the current position. *)
Fixpoint split_after_end (skipping prev_end : bool) (s : string)
  : list string :=
  match s with
  | EmptyString => [EmptyString]
  | String c s' =>
      if PyStr.isspace c && skipping then split_after_end true false s'
      else if PyStr.isspace c && prev_end
      then EmptyString :: split_after_end true false s'
      else match split_after_end false (is_sentence_end c) s' with
           | h :: t => String c h :: t
           | [] => [String c EmptyString]
           end
  end.

Definition split_sentences (text : string) : list string :=
  if bool_decide (PyStr.strip text = EmptyString) then []
  else filter (λ segment, PyText.nonempty segment)
         (PyStr.strip <$> split_after_end false false text).

(** The loop of [remove_repeated_sentences]: [seen] is the set of
    lower-cased sentences met so far, the result the list [unique]. *)
Fixpoint keep_first (seen : gset string) (sentences : list string)
  : list string :=
  match sentences with
  | [] => []
  | sentence :: rest =>
      let normalized := PyStr.lower sentence in
      if bool_decide (normalized ∈ seen) then keep_first seen rest
      else sentence :: keep_first ({[normalized]} ∪ seen) rest
  end.

Definition remove_repeated_sentences (text : string) : string :=
  PyText.join " " (keep_first ∅ (split_sentences text)).

(** [\w] on a code point below 256: a letter, a digit or another numeric
    character, or the underscore. *)
Definition is_word_char (c : ascii) : bool :=
  let n := nat_of_ascii c in
  (((48 <=? n) && (n <=? 57)) || ((65 <=? n) && (n <=? 90)) || (n =? 95)
   || ((97 <=? n) && (n <=? 122)) || (n =? 170) || (n =? 178) || (n =? 179)
   || (n =? 181) || (n =? 185) || (n =? 186)
   || ((188 <=? n) && (n <=? 190)) || ((192 <=? n) && (n <=? 214))
   || ((216 <=? n) && (n <=? 246)) || ((248 <=? n) && (n <=? 255)))%nat.

(** The lower-case letters of [abbr] match the head of [s] without regard
    to case, and a word boundary follows. *)
Fixpoint matches_word (abbr s : string) : bool :=
  match abbr, s with
  | EmptyString, EmptyString => true
  | EmptyString, String c _ => negb (is_word_char c)
  | String a abbr', String c s' =>
      bool_decide (PyStr.lower_char c = a) && matches_word abbr' s'
  | String _ _, EmptyString => false
  end.

(** [re.sub(r"\b" + abbr + r"\b", replacement, s, flags=re.IGNORECASE)] for
    a non-empty [abbr] of lower-case letters. [skip] counts the characters
    of a match still to be dropped, [prev_word] tells that the previous
    character was a word character. *)
Fixpoint sub_word (abbr replacement : string) (skip : nat) (prev_word : bool)
    (s : string) : string :=
  match s with
  | EmptyString => EmptyString
  | String c s' =>
      match skip with
      | S k => sub_word abbr replacement k (is_word_char c) s'
      | O =>
          if negb prev_word && matches_word abbr s
          then replacement
               +:+ sub_word abbr replacement (String.length abbr - 1)
                     (is_word_char c) s'
          else String c (sub_word abbr replacement 0 (is_word_char c) s')
      end
  end.

(** The patterns without their [\b] anchors, in the order of the dict. *)
Definition AREA_NORMALIZATION_MAP : list (string * string) :=
  [ ("lr", "living room"); ("br", "bedroom"); ("wc", "washroom");
    ("kit", "kitchen") ].

Definition normalize_area_names (text : string) : string :=
  foldl (λ normalized '(pattern, replacement),
           sub_word pattern replacement 0 false normalized)
        text AREA_NORMALIZATION_MAP.

Definition _normalize_pipeline (text : string)
    (transforms : list (string → string)) : string :=
  foldl (λ output transform, transform output) text transforms.

Definition preprocess_reports (inspection_text thermal_text : string)
  : string * string :=
  let transforms :=
    [ clean_whitespace; normalize_area_names; remove_repeated_sentences;
      clean_whitespace ] in
  (_normalize_pipeline inspection_text transforms,
   _normalize_pipeline thermal_text transforms).

End Merger.

(** ** parser.py: cleaning of extracted text *)

Module Parser.

Definition NUL : ascii := "000"%char.
Definition TAB : ascii := "009"%char.
Definition LF : ascii := "010"%char.

(** [text.replace("\x00", " ")] *)
Fixpoint replace_nul (s : string) : string :=
  match s with
  | EmptyString => EmptyString
  | String c s' =>
      String (if bool_decide (c = NUL) then " "%char else c) (replace_nul s')
  end.

(** The class [[ \t]]. *)
Definition is_blank (c : ascii) : bool :=
  bool_decide (c = " "%char) || bool_decide (c = TAB).

Definition is_newline (c : ascii) : bool := bool_decide (c = LF).

(** The third pass is [re.sub(r"\n{2,}", "\n", text)]. *)
Definition _clean_text (text : string) : string :=
  let text := replace_nul text in
  let text := PyText.sub_runs is_blank " " false text in
  let text := PyText.sub_runs is_newline LF false text in
  PyStr.strip text.

(** The body of the two page loops: the non-blank page texts, trimmed,
    joined by line feeds and cleaned. [pages] holds what the library gave
    for each page ([""] for none). *)
Definition join_pages (pages : list string) : string :=
  _clean_text
    (PyText.join (String LF EmptyString)
       (filter (λ t, PyText.nonempty t) (PyStr.strip <$> pages))).

(** [_extract_with_pdfplumber] and [_extract_with_ocr] over the outcome of
    reading the pages with the PDF library, resp. the OCR engine: the page
    texts, or the exception raised on the way. *)
Definition _extract_with_pdfplumber (pages : result (list string))
  : result string :=
  pages_text ←r pages; Ok (join_pages pages_text).

Definition _extract_with_ocr (pages : result (list string)) : result string :=
  pages_text ←r pages; Ok (join_pages pages_text).

Definition extract_text_from_pdf (native_pages ocr_pages : result (list string))
  : string :=
  let extracted_text :=
    match _extract_with_pdfplumber native_pages with
    | Ok t => t
    | Raise _ => EmptyString
    end in
  if bool_decide (300 ≤ String.length extracted_text)%nat then extracted_text
  else
    match _extract_with_ocr ocr_pages with
    | Raise _ => extracted_text
    | Ok ocr_text =>
        let merged :=
          PyStr.strip (extracted_text +:+ String LF EmptyString +:+ ocr_text) in
        _clean_text merged
    end.

End Parser.

(** ** Clean text, in words *)

(** The first character is of the class [cls]. *)
Definition starts_in (cls : ascii → bool) (s : string) : bool :=
  match s with
  | EmptyString => false
  | String c _ => cls c
  end.

(** Every character of the class [cls] is the character [repl], and no
    character of the class follows it. *)
Fixpoint squeezed (cls : ascii → bool) (repl : ascii) (s : string) : bool :=
  match s with
  | EmptyString => true
  | String c s' =>
      (negb (cls c) || (bool_decide (c = repl) && negb (starts_in cls s')))
      && squeezed cls repl s'
  end.

(** Single blanks between words, and no white space at the ends. *)
Definition whitespace_clean (s : string) : Prop :=
  PyStr.strip s = s ∧ squeezed PyStr.isspace " " s = true.

(** The characters of a text that are not white space. *)
Fixpoint visible (s : string) : list ascii :=
  match s with
  | EmptyString => []
  | String c s' => if PyStr.isspace c then visible s' else c :: visible s'
  end.

(** The last character is a full stop, an exclamation or a question mark. *)
Fixpoint ends_sentence (s : string) : bool :=
  match s with
  | EmptyString => false
  | String c EmptyString => Merger.is_sentence_end c
  | String _ s' => ends_sentence s'
  end.

(** All elements but at most one at the end satisfy [P]. *)
Definition but_last {A} (P : A → Prop) (l : list A) : Prop :=
  ∃ init tail, l = (init ++ tail)%list ∧ Forall P init
               ∧ (length tail ≤ 1)%nat.

(** ** Tidy extracted text, in words *)

(** Every character satisfies [Q]. *)
Fixpoint all_chars (Q : ascii → bool) (s : string) : bool :=
  match s with
  | EmptyString => true
  | String c s' => Q c && all_chars Q s'
  end.

Definition not_nul (c : ascii) : bool := negb (bool_decide (c = Parser.NUL)).

(** No white space at the ends, no NUL, no tab, and neither two blanks nor
    two line feeds in a row. *)
Definition text_tidy (s : string) : Prop :=
  PyStr.strip s = s
  ∧ all_chars not_nul s = true
  ∧ squeezed Parser.is_blank " " s = true
  ∧ squeezed Parser.is_newline Parser.LF s = true.

(** ** Sentences that split again as they are *)

(** No white space directly after a sentence end inside [s]; [prev_end]
    tells that a sentence end precedes [s]. *)
Fixpoint unsplit (prev_end : bool) (s : string) : bool :=
  match s with
  | EmptyString => true
  | String c s' =>
      negb (prev_end && PyStr.isspace c)
      && unsplit (Merger.is_sentence_end c) s'
  end.

(** Whether the text [s], read after a character of which [prev_end] tells
    that it is a sentence end, leaves the reader after a sentence end. *)
Fixpoint last_end (prev_end : bool) (s : string) : bool :=
  match s with
  | EmptyString => prev_end
  | String c s' => last_end (Merger.is_sentence_end c) s'
  end.

(** The last character is of the class [cls]. *)
Fixpoint ends_in (cls : ascii → bool) (s : string) : bool :=
  match s with
  | EmptyString => false
  | String c EmptyString => cls c
  | String _ s' => ends_in cls s'
  end.

(** [x] put in front of the first piece. *)
Definition cons_head (x : string) (pieces : list string) : list string :=
  match pieces with
  | h :: t => (x +:+ h) :: t
  | [] => [x]
  end.

(** A sentence as [split_sentences] gives it. *)
Definition sentence_like (s : string) : Prop :=
  s ≠ EmptyString ∧ PyStr.strip s = s ∧ unsplit false s = true.

(** A replacement text that keeps a clean text clean. *)
Definition clean_word (r : string) : Prop :=
  r ≠ EmptyString ∧ whitespace_clean r.

(** ** main.py: the report endpoint *)

(** An uploaded file that carries a file name: its name and its bytes.
    (For an upload without a name the endpoint fails on the attribute
    access [None.lower]; such uploads are not modelled.) *)
Record UploadFile := mkUploadFile {
  filename : string;
  file : string
}.

(** What the endpoint answers: the body of the 200 response, or the
    [HTTPException] it raises, which the framework turns into a response
    with that status and detail. *)
Inductive endpoint_outcome :=
  | Answer (report_data : DDRReport) (download_file : string)
  | HTTPException (code : Z) (detail : string).

Section Endpoint.

Context {World : Type}.
Variable requests_post : Request → World → result Response * World.
Variable getenv : string → option string.
Variable json_loads : string → gmap string value + string.
Variable py_str : value → string.
Variable DDR_PROMPT_TEMPLATE : string.
(** [_save_upload(upload_file, target_path)] *)
Variable _save_upload : UploadFile → string → World → result unit * World.
(** The page texts that pdfplumber, resp. the OCR engine, gives for the
    file at a path, or the exception raised on the way. *)
Variable native_pages : string → World → result (list string).
Variable ocr_pages : string → World → result (list string).
(** [generate_docx(ddr_report, output_dir)]: the path of the file. *)
Variable generate_docx : DDRReport → World → result string * World.
(** [str(UPLOAD_DIR / name)] and [Path(path).name] *)
Variable upload_path : string → string.
Variable path_name : string → string.

(** [name.lower().endswith(".pdf")] *)
Definition is_pdf_name (name : string) : bool :=
  PyText.endswith ".pdf" (PyStr.lower name).

(** The [except] clauses after [except HTTPException: raise], in their
    order; every exception of the model is an [Exception]. *)
Definition to_http_exception (exc : exn) : endpoint_outcome :=
  if isinstance exc [LLMQuotaExceededError]
  then HTTPException 429 (exn_msg exc)
  else if isinstance exc [LLMAuthError]
  then HTTPException 401 (exn_msg exc)
  else if isinstance exc [LLMGenerationError]
  then HTTPException 502 (exn_msg exc)
  else HTTPException 500 ("Failed to generate DDR report: " +:+ exn_msg exc).

(** [if not text.strip(): text = "Not Available"] *)
Definition text_or_sentinel (text : string) : string :=
  if bool_decide (PyStr.strip text = EmptyString) then "Not Available"
  else text.

(** [extract_text_from_pdf(str(path))] in a given world. *)
Definition extract_text (path : string) (w : World) : string :=
  Parser.extract_text_from_pdf (native_pages path w) (ocr_pages path w).

(** The two texts handed to [generate_ddr] once both files are saved. *)
Definition report_texts (inspection_path thermal_path : string) (w : World)
  : string * string :=
  Merger.preprocess_reports
    (text_or_sentinel (extract_text inspection_path w))
    (text_or_sentinel (extract_text thermal_path w)).

(** [generate_ddr_endpoint]; closing the two uploads in the [finally]
    clause leaves no trace in the model. *)
Definition generate_ddr_endpoint (inspection_file thermal_file : UploadFile)
  : state World → endpoint_outcome * state World :=
  λ st,
    if negb (is_pdf_name (filename inspection_file))
    then (HTTPException 400 "inspection_file must be a PDF.", st)
    else if negb (is_pdf_name (filename thermal_file))
    then (HTTPException 400 "thermal_file must be a PDF.", st)
    else
      let inspection_path :=
        upload_path ("inspection_" +:+ filename inspection_file) in
      let thermal_path :=
        upload_path ("thermal_" +:+ filename thermal_file) in
      match _save_upload inspection_file inspection_path (world st) with
      | (Raise exc, w) =>
          (to_http_exception exc, mkState w (transport_calls st))
      | (Ok _, w) =>
          match _save_upload thermal_file thermal_path w with
          | (Raise exc, w) =>
              (to_http_exception exc, mkState w (transport_calls st))
          | (Ok _, w) =>
              let '(inspection_text, thermal_text) :=
                report_texts inspection_path thermal_path w in
              match generate_ddr requests_post getenv json_loads py_str
                      DDR_PROMPT_TEMPLATE inspection_text thermal_text
                      (mkState w (transport_calls st)) with
              | (Raise exc, st') => (to_http_exception exc, st')
              | (Ok ddr_report, st') =>
                  match generate_docx ddr_report (world st') with
                  | (Raise exc, w') =>
                      (to_http_exception exc,
                       mkState w' (transport_calls st'))
                  | (Ok docx_path, w') =>
                      (Answer ddr_report (path_name docx_path),
                       mkState w' (transport_calls st'))
                  end
              end
          end
      end.

End Endpoint.

(** ** Endpoint doubles: a file system that never fails *)

Definition save_ok (upload : UploadFile) (path : string) (w : nat)
  : result unit * nat := (Ok (), w).

Definition pages_of (pages : list string) (path : string) (w : nat)
  : result (list string) := Ok pages.

Definition docx_ok (report : DDRReport) (w : nat) : result string * nat :=
  (Ok "outputs/DDR_Report.docx", w).

Definition same_path (path : string) : string := path.

(** ** Further samples and doubles *)

(** The report the validator returns for [sample_document], given a clean
    summary and an admitted dampness text. *)
Definition sample_report (summary dampness : string) : DDRReport :=
  mkDDRReport summary
    {[ "Hall" :=
         mkAreaObservation "Damp patch on the north wall"
           "Cold spot below the window" "Moisture ingress at the window sill"
           dampness "Table 2, row 4" "Image 7" NOT_AVAILABLE ]}
    NOT_AVAILABLE
    (mkSeverityAssessment NOT_AVAILABLE NOT_AVAILABLE NOT_AVAILABLE
       NOT_AVAILABLE)
    NOT_AVAILABLE NOT_AVAILABLE NOT_AVAILABLE [NOT_AVAILABLE].

(** [sample_document] with a severity outside the scale. *)
Definition severe_document : gmap string value :=
  <["Severity_Assessment" :=
      VDict {[ "overall_severity" := VStr "Severe";
               "reasoning" := VStr "Wide damp patches";
               "Confidence_Level" := VStr "High";
               "Confidence_Reasoning" := VStr "Thermal confirmation" ]}]>
    (sample_document "Damp in the hall" "Rising Damp").

(** A document whose only area is a lower-case ["general"] with nothing in
    it. *)
Definition lowercase_general_document : gmap string value :=
  {[ "Property_Issue_Summary" := VStr "No defects recorded";
     "Area_Wise_Observations" := VDict {[ "general" := VDict ∅ ]} ]}.

(** A JSON parser that returns the given document for any payload, and a
    process environment with no variable set. *)
Definition parse_as (d : gmap string value) (payload : string)
  : gmap string value + string := inl d.

Definition no_env (name : string) : option string := None.

(** * Properties *)

(** ** Runs on concrete inputs *)

Example extract_fenced :
  _extract_json_payload "Here: {1} and {2} done" = Ok "{1} and {2}".
Proof. vm_compute. reflexivity. Qed.

Example normalize_nested :
  _normalize_missing_markers
    (VDict {[ "a" := VList [VStr " N/A "; VNull; VInt 3; VStr " ok "] ]})
  = VDict {[ "a" := VList [VStr "Not Available"; VStr "Not Available";
                           VInt 3; VStr "ok"] ]}.
Proof. vm_compute. reflexivity. Qed.

Example coerce_empty : _coerce_to_schema_shape ∅ = _build_default_structure.
Proof. vm_cast_no_check (eq_refl _build_default_structure). Qed.

Example scenario_a_validates :
  is_ok (DDRReportModel.model_validate
           (_coerce_to_schema_shape
              {[ "Property_Issue_Summary" := VStr "Damp noted" ]})) = true.
Proof. vm_compute. reflexivity. Qed.

(** ** Induction over values *)

Lemma vsize_list_elem (l : list value) (x : value) :
  x ∈ l → vsize x < vsize (VList l).
Proof.
  intros Hx. cbn [vsize].
  induction Hx as [x l | x y l _ IH]; cbn [foldr]; lia.
Qed.

Lemma vsize_dict_elem (m : gmap string value) (k : string) (x : value) :
  m !! k = Some x → vsize x < vsize (VDict m).
Proof.
  intros Hk. cbn [vsize].
  rewrite (map_fold_delete_L _ _ k x m); [lia | intros; lia | done].
Qed.

(** Structural induction through the nested containers. *)
Lemma value_ind' (P : value → Prop) :
  P VNull →
  (∀ b, P (VBool b)) →
  (∀ z, P (VInt z)) →
  (∀ bits, P (VFloat bits)) →
  (∀ s, P (VStr s)) →
  (∀ l, Forall P l → P (VList l)) →
  (∀ m, map_Forall (λ _, P) m → P (VDict m)) →
  ∀ v, P v.
Proof.
  intros Hnull Hbool Hint Hfloat Hstr Hlist Hdict v.
  remember (vsize v) as n eqn:Hn.
  revert v Hn. induction (lt_wf n) as [n _ IH]. intros v ->.
  destruct v as [| | | | |l|m]; auto.
  - apply Hlist, Forall_forall. intros x Hx.
    eapply IH; [by apply vsize_list_elem | done].
  - apply Hdict. intros k x Hk.
    eapply IH; [by eapply vsize_dict_elem | done].
Qed.

(** ** The retry orchestrator *)

Lemma pipeline_failure_recoverable (e : exn) :
  pipeline_failure e → fatal e = false ∧ recoverable e = true.
Proof.
  destruct e as [c msg cause]. unfold pipeline_failure. cbn [exn_cls].
  intros [-> | [-> | ->]]; split; vm_compute; reflexivity.
Qed.

Lemma generation_error_recoverable (e : exn) :
  exn_cls e = LLMGenerationError → fatal e = false ∧ recoverable e = true.
Proof.
  destruct e as [c msg cause]. cbn [exn_cls]. intros ->.
  split; vm_compute; reflexivity.
Qed.

Lemma quota_auth_fatal (e : exn) :
  exn_cls e = LLMQuotaExceededError ∨ exn_cls e = LLMAuthError →
  fatal e = true.
Proof.
  destruct e as [c msg cause]. cbn [exn_cls].
  intros [-> | ->]; vm_compute; reflexivity.
Qed.

Lemma append_empty_r (s : string) : s +:+ EmptyString = s.
Proof.
  induction s as [|c s IH]; [reflexivity|].
  change (String c (s +:+ EmptyString) = String c s). by rewrite IH.
Qed.

Section EngineProperties.

Context {World : Type}.
Variable requests_post : Request → World → result Response * World.
Variable getenv : string → option string.
Variable json_loads : string → gmap string value + string.
Variable py_str : value → string.
Variable DDR_PROMPT_TEMPLATE : string.

Local Abbreviation call := (_call_openrouter requests_post getenv py_str).
Local Abbreviation parse := (_parse_and_validate json_loads).
Local Abbreviation attempt := (attempt_once requests_post getenv json_loads py_str).
Local Abbreviation generate :=
  (generate_ddr requests_post getenv json_loads py_str DDR_PROMPT_TEMPLATE).
Local Abbreviation prompt_of := (base_prompt DDR_PROMPT_TEMPLATE).

(** Every transport call appends its prompt to the log, whatever comes
    of it. *)
Lemma call_openrouter_logs (prompt : string) (st : state World) :
  transport_calls (call prompt st).2 = (transport_calls st ++ [prompt])%list.
Proof.
  unfold _call_openrouter.
  destruct (get_openrouter_api_key getenv) as [key|e]; [|done].
  cbn [log_call world transport_calls].
  destruct (requests_post _ _) as [[response|exc] w]; done.
Qed.

Lemma attempt_once_logs (prompt : string) (st : state World) :
  transport_calls (attempt prompt st).2 = (transport_calls st ++ [prompt])%list.
Proof.
  unfold attempt_once.
  pose proof (call_openrouter_logs prompt st) as H.
  destruct (call prompt st) as [[raw|e] st']; exact H.
Qed.

(** What the parsing stage raises in the model: a pipeline failure (see
    the note at [_parse_and_validate]). *)
Lemma parse_and_validate_raises (raw_text : string) (e : exn) :
  parse raw_text = Raise e → pipeline_failure e.
Proof.
  unfold _parse_and_validate, _extract_json_payload, pipeline_failure.
  destruct (_ && _); cbn [rbind].
  - destruct (json_loads _) as [d|msg]; cbn [rbind].
    + unfold DDRReportModel.model_validate.
      destruct (DDRReportModel.validate_fields _); intros [= <-]; auto.
    + intros [= <-]; auto.
  - destruct (PyStr.search_braces _); cbn [rbind].
    + destruct (json_loads _) as [d|msg]; cbn [rbind].
      * unfold DDRReportModel.model_validate.
        destruct (DDRReportModel.validate_fields _); intros [= <-]; auto.
      * intros [= <-]; auto.
    + intros [= <-]; auto.
Qed.

(** The two iterations of the loop, written out. *)
Lemma generate_ddr_unfold (inspection_text thermal_text : string)
    (st : state World) :
  let p := prompt_of inspection_text thermal_text in
  generate inspection_text thermal_text st =
    match attempt p st with
    | (Ok report, st1) => (Ok report, st1)
    | (Raise e1, st1) =>
        if fatal e1 then (Raise e1, st1)
        else if recoverable e1 then
          match attempt (p +:+ RETRY_SUFFIX) st1 with
          | (Ok report, st2) => (Ok report, st2)
          | (Raise e2, st2) =>
              if fatal e2 then (Raise e2, st2)
              else if recoverable e2
              then (Raise (generation_failed (Some e2)), st2)
              else (Raise e2, st2)
          end
        else (Raise e1, st1)
    end.
Proof.
  intros p. unfold generate_ddr. fold p. cbn [attempts].
  rewrite append_empty_r.
  destruct (attempt p st) as [[report|e1] st1]; [done|].
  unfold recoverable. fold (fatal e1).
  destruct (fatal e1); [done|]. cbn [negb andb].
  destruct (isinstance e1 _); [|done].
  cbn [bool_decide decide_rel].
  destruct (attempt (p +:+ RETRY_SUFFIX) st1) as [[report|e2] st2]; [done|].
  fold (fatal e2). destruct (fatal e2); [done|]. cbn [negb andb].
  destruct (isinstance e2 _); done.
Qed.

(** The request makes one or two transport calls, never more. *)
Lemma generate_ddr_calls (inspection_text thermal_text : string)
    (st : state World) :
  let p := prompt_of inspection_text thermal_text in
  let log := transport_calls (generate inspection_text thermal_text st).2 in
  log = (transport_calls st ++ [p])%list
  ∨ log = (transport_calls st ++ [p; p +:+ RETRY_SUFFIX])%list.
Proof.
  intros p log. subst log. rewrite generate_ddr_unfold. fold p.
  pose proof (attempt_once_logs p st) as H1.
  destruct (attempt p st) as [[report|e1] st1]; cbn [snd] in *; [by left|].
  destruct (fatal e1); [by left|].
  destruct (recoverable e1); [|by left].
  pose proof (attempt_once_logs (p +:+ RETRY_SUFFIX) st1) as H2.
  rewrite H1, <- app_assoc in H2. cbn [app] in H2.
  destruct (attempt _ st1) as [[report|e2] st2]; cbn [snd] in *; [by right|].
  destruct (fatal e2); [by right|].
  destruct (recoverable e2); by right.
Qed.

(** What a transport call can raise once the API key is configured. *)
Lemma call_openrouter_raises (prompt key : string) (st st1 : state World)
    (e : exn) :
  get_openrouter_api_key getenv = Ok key →
  call prompt st = (Raise e, st1) →
  exn_cls e = LLMGenerationError ∨ exn_cls e = LLMQuotaExceededError
  ∨ exn_cls e = LLMAuthError.
Proof.
  intros Hkey. unfold _call_openrouter. rewrite Hkey.
  destruct (requests_post _ _) as [[response|exc] w].
  - unfold interpret_response. intros [= H _]. revert H.
    repeat case_match; intros [= <-]; auto.
  - intros [= <- _]. auto.
Qed.


(** C1. When the first attempt fails in the pipeline (no JSON object
    found, a JSON syntax error, or a rejection by the validator), the
    transport is called exactly once more, with the original prompt
    followed by the fixed corrective text (two line feeds and the sentence
    written out below); when that second attempt also fails in the
    pipeline, the request ends in one [LLMGenerationError] whose message
    and cause carry the last failure; and no request makes more than two
    transport calls. *)
Theorem generate_ddr_retries_pipeline_failure_once
    (inspection_text thermal_text : string) (st : state World) :
  let p := prompt_of inspection_text thermal_text in
  let retry :=
    p +:+ String "010" (String "010"
      "Your previous response was invalid. Return ONLY a valid JSON object with the exact schema.") in
  let outcome := generate inspection_text thermal_text st in
  (∃ calls, transport_calls outcome.2 = (transport_calls st ++ calls)%list
            ∧ (length calls ≤ 2)%nat)
  ∧ ∀ raw1 st1 e1,
      call p st = (Ok raw1, st1) →
      parse raw1 = Raise e1 →
      pipeline_failure e1 →
      transport_calls outcome.2 = (transport_calls st ++ [p; retry])%list
      ∧ (∀ raw2 st2 e2,
           call retry st1 = (Ok raw2, st2) →
           parse raw2 = Raise e2 →
           pipeline_failure e2 →
           outcome =
             (Raise (Exn LLMGenerationError
                       ("Failed to generate a valid DDR JSON response: "
                        +:+ exn_msg e2)
                       (Some e2)), st2))
      ∧ (∀ raw2 st2 report,
           call retry st1 = (Ok raw2, st2) →
           parse raw2 = Ok report →
           outcome = (Ok report, st2)).
Proof.
  intros p retry outcome.
  change retry with (p +:+ RETRY_SUFFIX). clear retry. split.
  { destruct (generate_ddr_calls inspection_text thermal_text st)
      as [H|H]; eexists; (split; [exact H|cbn; lia]). }
  intros raw1 st1 e1 Hcall Hparse Hpipe.
  destruct (pipeline_failure_recoverable _ Hpipe) as [Hfatal Hrec].
  assert (Hout : outcome =
    match attempt (p +:+ RETRY_SUFFIX) st1 with
    | (Ok report, st2) => (Ok report, st2)
    | (Raise e2, st2) =>
        if fatal e2 then (Raise e2, st2)
        else if recoverable e2
        then (Raise (generation_failed (Some e2)), st2)
        else (Raise e2, st2)
    end).
  { subst outcome. rewrite generate_ddr_unfold. fold p.
    unfold attempt_once at 1. rewrite Hcall, Hparse, Hfatal, Hrec. done. }
  split; [|split].
  - destruct (generate_ddr_calls inspection_text thermal_text st)
      as [H|H]; [|exact H].
    exfalso. fold p outcome in H. rewrite Hout in H.
    pose proof (attempt_once_logs (p +:+ RETRY_SUFFIX) st1) as H2.
    pose proof (call_openrouter_logs p st) as H1.
    rewrite Hcall in H1. cbn [snd] in H1.
    assert (transport_calls
              (attempt (p +:+ RETRY_SUFFIX) st1).2
            = (transport_calls st ++ [p])%list) as H3.
    { rewrite <- H. destruct (attempt _ st1) as [[?|e2] st2]; [done|].
      destruct (fatal e2); [done|]. by destruct (recoverable e2). }
    rewrite H2, H1 in H3. apply (f_equal length) in H3.
    rewrite !length_app in H3. cbn in H3. lia.
  - intros raw2 st2 e2 Hcall2 Hparse2 Hpipe2. rewrite Hout.
    unfold attempt_once. rewrite Hcall2, Hparse2.
    by destruct (pipeline_failure_recoverable e2 Hpipe2) as [-> ->].
  - intros raw2 st2 report Hcall2 Hparse2. rewrite Hout.
    unfold attempt_once. by rewrite Hcall2, Hparse2.
Qed.

(** C2. A transport call that fails with [LLMQuotaExceededError] or
    [LLMAuthError] ends the request at once with that very exception: on
    the first attempt after exactly one transport call, and on the second
    attempt without a wrapping terminal error. *)
Theorem generate_ddr_propagates_quota_and_auth
    (inspection_text thermal_text : string) (st : state World) :
  let p := prompt_of inspection_text thermal_text in
  let outcome := generate inspection_text thermal_text st in
  (∀ e st1,
     call p st = (Raise e, st1) →
     exn_cls e = LLMQuotaExceededError ∨ exn_cls e = LLMAuthError →
     outcome = (Raise e, st1)
     ∧ transport_calls st1 = (transport_calls st ++ [p])%list)
  ∧ (∀ e1 st1 e st2,
       attempt p st = (Raise e1, st1) →
       recoverable e1 = true →
       call (p +:+ RETRY_SUFFIX) st1 = (Raise e, st2) →
       exn_cls e = LLMQuotaExceededError ∨ exn_cls e = LLMAuthError →
       outcome = (Raise e, st2)).
Proof.
  intros p outcome. subst outcome. rewrite generate_ddr_unfold. fold p.
  split.
  - intros e st1 Hcall Hcls.
    pose proof (call_openrouter_logs p st) as Hlog.
    unfold attempt_once. rewrite Hcall in Hlog |- *.
    by rewrite (quota_auth_fatal _ Hcls).
  - intros e1 st1 e st2 H1 Hrec Hcall Hcls. rewrite H1, Hrec.
    assert (fatal e1 = false) as ->.
    { unfold recoverable in Hrec. by destruct (fatal e1). }
    unfold attempt_once. rewrite Hcall.
    by rewrite (quota_auth_fatal _ Hcls).
Qed.


End EngineProperties.

(** *** Runs of the orchestrator against the scripted service *)

(** Two replies without any JSON object: two transport calls, then the
    terminal error carrying the second extraction failure. *)
Lemma generate_ddr_retries_pipeline_failure_once_witness :
  generate_ddr
    (scripted_post [Ok (chat_reply "no json"); Ok (chat_reply "none again")])
    test_env reject_json blank_str "{inspection_text}|{thermal_text}"
    "roof" "wall" (mkState 0 [])
  = (Raise
       (Exn LLMGenerationError
          "Failed to generate a valid DDR JSON response: No JSON object found in model response."
          (Some (Exn ValueError "No JSON object found in model response." None))),
     mkState 2 ["roof|wall"; "roof|wall" +:+ RETRY_SUFFIX]).
Proof.
  destruct (generate_ddr_retries_pipeline_failure_once
              (scripted_post
                 [Ok (chat_reply "no json"); Ok (chat_reply "none again")])
              test_env reject_json blank_str "{inspection_text}|{thermal_text}"
              "roof" "wall" (mkState 0 [])) as [_ H].
  destruct (H "no json" (mkState 1 ["roof|wall"])
              (Exn ValueError "No JSON object found in model response." None)
              ltac:(vm_compute; reflexivity) ltac:(vm_compute; reflexivity)
              ltac:(left; reflexivity))
    as (_ & H2 & _).
  exact (H2 "none again"
            (mkState 2 ["roof|wall"; "roof|wall" +:+ RETRY_SUFFIX])
            (Exn ValueError "No JSON object found in model response." None)
            ltac:(vm_compute; reflexivity) ltac:(vm_compute; reflexivity)
            ltac:(left; reflexivity)).
Defined.

(** HTTP 429 on the first call: the quota error comes back as raised, after
    one transport call. *)
Lemma generate_ddr_propagates_quota_and_auth_witness :
  generate_ddr
    (scripted_post [Ok (http_error 429); Ok (chat_reply "unused")])
    test_env reject_json blank_str "{inspection_text}|{thermal_text}"
    "roof" "wall" (mkState 0 [])
  = (Raise
       (Exn LLMQuotaExceededError
          "OpenRouter quota/rate limit exceeded (HTTP 429): Unknown OpenRouter error."
          None),
     mkState 1 ["roof|wall"])
  ∧ transport_calls (mkState 1 ["roof|wall"]) = ([] ++ ["roof|wall"])%list.
Proof.
  destruct (generate_ddr_propagates_quota_and_auth
              (scripted_post [Ok (http_error 429); Ok (chat_reply "unused")])
              test_env reject_json blank_str "{inspection_text}|{thermal_text}"
              "roof" "wall" (mkState 0 [])) as [H _].
  exact (H (Exn LLMQuotaExceededError
              "OpenRouter quota/rate limit exceeded (HTTP 429): Unknown OpenRouter error."
              None)
           (mkState 1 ["roof|wall"])
           ltac:(vm_compute; reflexivity) ltac:(left; reflexivity)).
Defined.


(** ** The payload extractor *)

Lemma append_cons (c : ascii) (a b : string) :
  String c a +:+ b = String c (a +:+ b).
Proof. reflexivity. Qed.

Lemma append_empty_l (s : string) : EmptyString +:+ s = s.
Proof. reflexivity. Qed.

Lemma contains_char_append (c : ascii) (a b : string) :
  contains_char c (a +:+ b) = contains_char c a || contains_char c b.
Proof.
  induction a as [|x a IH]; [done|].
  rewrite append_cons. cbn [contains_char]. rewrite IH. by rewrite orb_assoc.
Qed.

(** The greedy tail: everything up to the last closing brace. *)
Lemma upto_last_close_spec (s : string) :
  match PyStr.upto_last_close s with
  | Some m => ∃ body post,
      s = (body +:+ "}") +:+ post ∧ m = body +:+ "}"
      ∧ contains_char "}" post = false
  | None => contains_char "}" s = false
  end.
Proof.
  induction s as [|c s IH]; [done|]. cbn [PyStr.upto_last_close].
  destruct (PyStr.upto_last_close s) as [m|].
  - destruct IH as (body & post & -> & -> & Hpost).
    by exists (String c body), post.
  - case_bool_decide as Hc.
    + subst c. by exists EmptyString, s.
    + cbn [contains_char]. by rewrite bool_decide_eq_false_2.
Qed.

Lemma match_braces_at_spec (s : string) :
  match PyStr.match_braces_at s with
  | Some m => ∃ body post,
      s = m +:+ post ∧ m = String "{" (body +:+ "}")
      ∧ contains_char "}" post = false
  | None => ∀ rest, s = String "{" rest → contains_char "}" rest = false
  end.
Proof.
  destruct s as [|c rest]; [done|]. cbn [PyStr.match_braces_at].
  case_bool_decide as Hc; [subst c|by intros ? [= ? _]].
  pose proof (upto_last_close_spec rest) as H.
  destruct (PyStr.upto_last_close rest) as [m|]; cbn [fmap option_fmap option_map].
  - destruct H as (body & post & -> & -> & Hpost). by exists body, post.
  - by intros ? [= <-].
Qed.

Lemma search_braces_spec (s : string) :
  match PyStr.search_braces s with
  | Some m => first_greedy_span s m
  | None => ¬ ∃ m, brace_span s m
  end.
Proof.
  induction s as [|c s IH].
  - cbn. intros (m & pre & body & post & H & ->).
    destruct pre; discriminate H.
  - cbn [PyStr.search_braces].
    pose proof (match_braces_at_spec (String c s)) as Hat.
    destruct (PyStr.match_braces_at (String c s)) as [m|].
    { destruct Hat as (body & post & Hs & Hm & Hpost).
      by exists EmptyString, body, post. }
    destruct (PyStr.search_braces s) as [m|].
    + destruct IH as (pre & body & post & -> & -> & Hpre & Hpost).
      exists (String c pre), body, post. repeat split; [|done].
      cbn [contains_char]. rewrite Hpre, orb_false_r.
      apply bool_decide_eq_false_2. intros ->.
      specialize (Hat _ eq_refl).
      rewrite !contains_char_append in Hat. cbn in Hat.
      rewrite !contains_char_append in Hat. cbn in Hat.
      by rewrite !orb_true_r in Hat.
    + intros (m & pre & body & post & Hs & ->). destruct pre as [|x pre].
      * rewrite append_empty_l, !append_cons in Hs.
        injection Hs as -> ->. specialize (Hat _ eq_refl).
        rewrite !contains_char_append in Hat. cbn in Hat.
        by rewrite !orb_true_r in Hat.
      * rewrite append_cons in Hs. injection Hs as -> ->.
        apply IH. eexists. by exists pre, body, post.
Qed.

(** The search returns the first greedy span whenever there is one. *)
Lemma search_braces_complete (pre body post : string) :
  contains_char "{" pre = false → contains_char "}" post = false →
  PyStr.search_braces (pre +:+ String "{" (body +:+ "}") +:+ post)
  = Some (String "{" (body +:+ "}")).
Proof.
  intros Hpre Hpost.
  assert (PyStr.upto_last_close ((body +:+ "}") +:+ post)
          = Some (body +:+ "}")) as Hupto.
  { induction body as [|c body IH].
    - rewrite append_empty_l, append_cons, append_empty_l.
      cbn [PyStr.upto_last_close].
      pose proof (upto_last_close_spec post) as H.
      destruct (PyStr.upto_last_close post) as [m|]; [|done].
      destruct H as (b & p & -> & _ & _).
      rewrite !contains_char_append in Hpost. cbn in Hpost.
      by rewrite !orb_true_r in Hpost.
    - rewrite !append_cons. cbn [PyStr.upto_last_close]. by rewrite IH. }
  induction pre as [|c pre IH].
  - rewrite append_empty_l, append_cons.
    cbn [PyStr.search_braces PyStr.match_braces_at].
    rewrite bool_decide_eq_true_2 by done. by rewrite Hupto.
  - cbn [contains_char] in Hpre. apply orb_false_elim in Hpre as [Hc Hpre].
    rewrite append_cons. cbn [PyStr.search_braces PyStr.match_braces_at].
    rewrite Hc. by apply IH.
Qed.

Lemma first_greedy_span_search (s m : string) :
  first_greedy_span s m → PyStr.search_braces s = Some m.
Proof.
  intros (pre & body & post & -> & -> & Hpre & Hpost).
  by apply search_braces_complete.
Qed.

Lemma endswith_char_snoc (c : ascii) (s : string) :
  PyStr.endswith_char c (s +:+ String c EmptyString) = true.
Proof.
  induction s as [|x s IH]; [by apply bool_decide_eq_true_2|].
  rewrite append_cons. cbn [PyStr.endswith_char].
  destruct (s +:+ String c EmptyString) eqn:Hs; [by destruct s|done].
Qed.

(** Whatever is extracted starts with an opening brace and ends with a
    closing one: the text handed to [json.loads] can only parse to a
    dict. *)
Lemma extract_json_payload_braced (raw_text payload : string) :
  _extract_json_payload raw_text = Ok payload →
  PyStr.startswith_char "{" payload = true
  ∧ PyStr.endswith_char "}" payload = true.
Proof.
  unfold _extract_json_payload.
  destruct (_ && _) eqn:Hb.
  - intros [= <-]. by apply andb_true_iff in Hb.
  - pose proof (search_braces_spec (PyStr.strip raw_text)) as H.
    destruct (PyStr.search_braces _) as [m|]; [|done]. intros [= <-].
    destruct H as (pre & body & post & _ & -> & _). split; [done|].
    apply (endswith_char_snoc "}" (String "{" body)).
Qed.

(** C8. Payload extraction returns the whole trimmed text when it begins
    with an opening brace and ends with a closing brace; otherwise it
    returns the first greedy brace-delimited span of the trimmed text when
    there is one (and there is one as soon as any brace-delimited span
    exists); otherwise it raises the extraction error. *)
Theorem extract_json_payload_contract (raw_text : string) :
  let candidate := PyStr.strip raw_text in
  let braced :=
    PyStr.startswith_char "{" candidate && PyStr.endswith_char "}" candidate in
  (braced = true → _extract_json_payload raw_text = Ok candidate)
  ∧ (braced = false →
     ∀ m, first_greedy_span candidate m →
          _extract_json_payload raw_text = Ok m)
  ∧ (braced = false →
     (¬ ∃ m, brace_span candidate m) →
     _extract_json_payload raw_text
     = Raise (Exn ValueError "No JSON object found in model response." None))
  ∧ ((∃ m, brace_span candidate m) → ∃ m, first_greedy_span candidate m).
Proof.
  intros candidate braced. unfold _extract_json_payload.
  fold candidate. fold braced.
  pose proof (search_braces_spec candidate) as Hspec.
  repeat split.
  - by intros ->.
  - intros -> m Hm. by rewrite (first_greedy_span_search _ _ Hm).
  - intros -> Hnone.
    destruct (PyStr.search_braces candidate) as [m|]; [|done].
    destruct Hnone. exists m.
    destruct Hspec as (pre & body & post & ? & ? & _). by exists pre, body, post.
  - intros Hsome.
    destruct (PyStr.search_braces candidate) as [m|]; [by exists m|done].
Qed.

Lemma extract_json_payload_contract_witness :
  _extract_json_payload "Here: {1} and {2} done " = Ok "{1} and {2}".
Proof.
  destruct (extract_json_payload_contract "Here: {1} and {2} done ")
    as (_ & H & _).
  apply H; [reflexivity|].
  exists "Here: ", "1} and {2", " done". by vm_compute.
Defined.

(** ** Text lemmas *)

Lemma isspace_lower_char (c : ascii) :
  PyStr.isspace (PyStr.lower_char c) = PyStr.isspace c.
Proof. destruct c as [[] [] [] [] [] [] [] []]; reflexivity. Qed.

Lemma lower_empty_iff (s : string) :
  PyStr.lower s = EmptyString ↔ s = EmptyString.
Proof. by destruct s. Qed.

Lemma lower_lstrip (s : string) :
  PyStr.lower (PyStr.lstrip s) = PyStr.lstrip (PyStr.lower s).
Proof.
  induction s as [|c s IH]; [done|].
  cbn [PyStr.lstrip PyStr.lower]. rewrite isspace_lower_char.
  by destruct (PyStr.isspace c).
Qed.

Lemma lower_rstrip (s : string) :
  PyStr.lower (PyStr.rstrip s) = PyStr.rstrip (PyStr.lower s).
Proof.
  induction s as [|c s IH]; [done|].
  cbn [PyStr.rstrip PyStr.lower]. rewrite <- IH, isspace_lower_char.
  destruct (PyStr.rstrip s); cbn [PyStr.lower]; [|done].
  by destruct (PyStr.isspace c).
Qed.

Lemma lower_strip (s : string) :
  PyStr.lower (PyStr.strip s) = PyStr.strip (PyStr.lower s).
Proof. unfold PyStr.strip. by rewrite lower_rstrip, lower_lstrip. Qed.

Lemma lstrip_starts_clean (s : string) : starts_clean (PyStr.lstrip s).
Proof.
  induction s as [|c s IH]; [done|]. cbn [PyStr.lstrip].
  by destruct (PyStr.isspace c) eqn:Hc.
Qed.

Lemma lstrip_clean (s : string) : starts_clean s → PyStr.lstrip s = s.
Proof. destruct s as [|c s]; [done|]. cbn. by intros ->. Qed.

Lemma rstrip_starts_clean (s : string) :
  starts_clean s → starts_clean (PyStr.rstrip s).
Proof.
  destruct s as [|c s]; [done|]. cbn [starts_clean PyStr.rstrip]. intros Hc.
  destruct (PyStr.rstrip s); [by rewrite Hc|done].
Qed.

Lemma rstrip_idemp (s : string) :
  PyStr.rstrip (PyStr.rstrip s) = PyStr.rstrip s.
Proof.
  induction s as [|c s IH]; [done|]. cbn [PyStr.rstrip].
  destruct (PyStr.rstrip s) as [|d r] eqn:Hr.
  - destruct (PyStr.isspace c) eqn:Hc; [done|]. cbn. by rewrite Hc.
  - cbn [PyStr.rstrip] in IH |- *. by rewrite IH.
Qed.

Lemma strip_idemp (s : string) : PyStr.strip (PyStr.strip s) = PyStr.strip s.
Proof.
  unfold PyStr.strip.
  rewrite (lstrip_clean (PyStr.rstrip (PyStr.lstrip s))).
  - apply rstrip_idemp.
  - apply rstrip_starts_clean, lstrip_starts_clean.
Qed.

Lemma elem_of_MISSING_ALIASES (a : string) :
  a ∈ MISSING_ALIASES ↔
  a ∈ [ EmptyString; "n/a"; "na"; "null"; "none"; "unknown"; "not provided";
        "missing" ].
Proof. unfold MISSING_ALIASES. by rewrite elem_of_list_to_set. Qed.

Lemma alias_strip (a : string) : a ∈ MISSING_ALIASES → PyStr.strip a = a.
Proof.
  rewrite elem_of_MISSING_ALIASES. rewrite !elem_of_cons, elem_of_nil.
  intros H. repeat (destruct H as [->|H]; [reflexivity|]). done.
Qed.

(** An alias up to case is still one after trimming. *)
Lemma is_missing_alias_strip (s : string) :
  is_missing_alias s → is_missing_alias (PyStr.strip s).
Proof.
  unfold is_missing_alias. intros H.
  by rewrite lower_strip, (alias_strip _ H).
Qed.

(** ** The value normalizer *)

Lemma normalize_sentinel :
  _normalize_missing_markers (VStr NOT_AVAILABLE) = VStr NOT_AVAILABLE.
Proof. by vm_compute. Qed.

Lemma sentinel_not_alias : ¬ is_missing_alias NOT_AVAILABLE.
Proof. by vm_compute. Qed.

Lemma normalize_str_cases (s : string) :
  (is_missing_alias (PyStr.strip s)
   ∧ _normalize_missing_markers (VStr s) = VStr NOT_AVAILABLE)
  ∨ (¬ is_missing_alias (PyStr.strip s)
     ∧ _normalize_missing_markers (VStr s) = VStr (PyStr.strip s)).
Proof.
  cbn [_normalize_missing_markers]. unfold is_missing_alias.
  case_bool_decide; [by left|by right].
Qed.

Lemma normalize_marker (v : value) :
  missing_marker v → _normalize_missing_markers v = VStr NOT_AVAILABLE.
Proof.
  intros [->|(s & -> & Hs)]; [done|].
  destruct (normalize_str_cases s) as [[_ H]|[H _]]; [done|].
  destruct H. by apply is_missing_alias_strip.
Qed.

(** Normalizing twice is normalizing once. *)
Lemma normalize_idemp (v : value) :
  _normalize_missing_markers (_normalize_missing_markers v)
  = _normalize_missing_markers v.
Proof.
  induction v as [| | | |s|l IH|m IH] using value_ind'; try done.
  - destruct (normalize_str_cases s) as [[_ ->]|[Hs ->]].
    + apply normalize_sentinel.
    + destruct (normalize_str_cases (PyStr.strip s)) as [[H _]|[_ ->]].
      * rewrite strip_idemp in H. done.
      * by rewrite strip_idemp.
  - cbn [_normalize_missing_markers]. f_equal.
    rewrite <- list_fmap_compose. apply Forall_fmap_ext_1.
    eapply Forall_impl; [exact IH|]. by intros x Hx.
  - cbn [_normalize_missing_markers]. f_equal.
    rewrite <- map_fmap_compose. apply map_fmap_ext.
    intros k x Hk. by apply (IH k x).
Qed.

(** Normalization acts at the end of every path. *)
Lemma at_path_normalize (p : list step) (v : value) :
  at_path p (_normalize_missing_markers v)
  = _normalize_missing_markers <$> at_path p v.
Proof.
  revert v. induction p as [|[k|i] p IH]; intros v; [done| |].
  - destruct v as [| | | |s|l|m]; try done.
    + cbn [_normalize_missing_markers at_path]. by case_bool_decide.
    + cbn [_normalize_missing_markers at_path]. rewrite lookup_fmap.
      destruct (m !! k) as [x|]; [apply IH|done].
  - destruct v as [| | | |s|l|m]; try done.
    + cbn [_normalize_missing_markers at_path]. by case_bool_decide.
    + cbn [_normalize_missing_markers at_path]. rewrite list_lookup_fmap.
      destruct (l !! i) as [x|]; [apply IH|done].
Qed.

Lemma normalize_not_marker (v : value) :
  ¬ missing_marker (_normalize_missing_markers v).
Proof.
  intros [H|(s & H & Hs)].
  - destruct v; try done. cbn in H. by case_bool_decide.
  - destruct v as [| | | |s'|l|m]; try done.
    + injection H as <-. by apply sentinel_not_alias.
    + destruct (normalize_str_cases s') as [[_ H']|[Hn H']];
        rewrite H' in H; injection H as <-; [by apply sentinel_not_alias|done].
Qed.

(** C4 (as amended). Normalization rewrites every missing marker (null, or
    a text equal to an alias up to letter case) that occurs as a value of a
    mapping, as an element of a sequence or as a scalar leaf, at any depth,
    to the sentinel, and leaves no such marker in its result; the keys of
    every mapping are kept as they are. *)
Theorem normalize_rewrites_missing_values (v : value) :
  (∀ p x, at_path p v = Some x → missing_marker x →
          at_path p (_normalize_missing_markers v) = Some (VStr NOT_AVAILABLE))
  ∧ (∀ p y, at_path p (_normalize_missing_markers v) = Some y →
            ¬ missing_marker y)
  ∧ (∀ p m, at_path p v = Some (VDict m) →
            ∃ m', at_path p (_normalize_missing_markers v) = Some (VDict m')
                  ∧ dom m' = dom m).
Proof.
  repeat split.
  - intros p x Hp Hx. rewrite at_path_normalize, Hp. cbn.
    by rewrite (normalize_marker _ Hx).
  - intros p y Hp. rewrite at_path_normalize in Hp.
    destruct (at_path p v) as [x|]; [|done]. injection Hp as <-.
    apply normalize_not_marker.
  - intros p m Hp. exists (_normalize_missing_markers <$> m).
    rewrite at_path_normalize, Hp. split; [done|]. apply dom_fmap_L.
Qed.

Lemma normalize_rewrites_missing_values_witness :
  at_path [Key "areas"; Index 1]
    (_normalize_missing_markers
       (VDict {[ "areas" := VList [VStr "Hall"; VStr "Not Provided"] ]}))
  = Some (VStr NOT_AVAILABLE).
Proof.
  destruct (normalize_rewrites_missing_values
              (VDict {[ "areas" := VList [VStr "Hall"; VStr "Not Provided"] ]}))
    as [H _].
  apply (H [Key "areas"; Index 1] (VStr "Not Provided")); [reflexivity|].
  right. exists "Not Provided". split; [reflexivity|]. by vm_compute.
Defined.

(** The claim as first stated also covers the keys of mappings; a key that
    is an alias is kept, not rewritten. *)
Lemma normalize_keeps_alias_key :
  _normalize_missing_markers (VDict {[ "n/a" := VInt 1 ]})
  = VDict {[ "n/a" := VInt 1 ]}
  ∧ alias_key_occurs (_normalize_missing_markers (VDict {[ "n/a" := VInt 1 ]})).
Proof.
  split; [by vm_compute|].
  exists [], {[ "n/a" := VInt 1 ]}, "n/a".
  split; [by vm_compute|]. split; [by eexists|by vm_compute].
Qed.

(** ** The schema coercer *)

Lemma copy_expected_lookup (n acc : gmap string value) (k : string) :
  copy_expected n acc !! k
  = if decide (k ∈ EXPECTED_TOP_LEVEL_KEYS)
    then match n !! k with Some v => Some v | None => acc !! k end
    else acc !! k.
Proof.
  unfold copy_expected.
  assert (∀ ks (acc : gmap string value),
    foldl (λ acc key, match n !! key with
                      | Some v => <[key := v]> acc
                      | None => acc
                      end) acc ks !! k
    = if decide (k ∈ ks)
      then match n !! k with Some v => Some v | None => acc !! k end
      else acc !! k) as Hfold.
  { clear acc. induction ks as [|a ks IH]; intros acc; [done|].
    cbn [foldl]. rewrite IH. clear IH.
    destruct (decide (a = k)) as [->|Hne].
    - rewrite (decide_True (P := k ∈ k :: ks)) by left.
      destruct (n !! k) as [v|] eqn:Hk.
      + rewrite lookup_insert_eq. by case_decide.
      + by case_decide.
    - assert ((match n !! a with Some v => <[a:=v]> acc | None => acc end) !! k
              = acc !! k) as ->.
      { destruct (n !! a); [by rewrite lookup_insert_ne|done]. }
      destruct (decide (k ∈ ks)) as [Hin|Hnin].
      + by rewrite decide_True by by right.
      + rewrite decide_False; [done|]. by intros [->|?]%elem_of_cons. }
  rewrite Hfold.
  destruct (decide (k ∈ EXPECTED_TOP_LEVEL_KEYS)) as [Hk|Hk].
  - by rewrite decide_True by by apply elem_of_elements.
  - by rewrite decide_False by by rewrite elem_of_elements.
Qed.

Lemma setdefault_lookup (k f : string) (d : value) (m : gmap string value) :
  setdefault f d m !! k
  = if decide (k = f) then Some (default d (m !! k)) else m !! k.
Proof.
  unfold setdefault. destruct (decide (k = f)) as [->|Hne].
  - destruct (m !! f) as [x|] eqn:Hf; [by rewrite Hf|by rewrite lookup_insert_eq].
  - destruct (m !! f); [done|by rewrite lookup_insert_ne].
Qed.

Lemma backfill_lookup (fields : list string) (m : gmap string value)
    (k : string) :
  backfill fields m !! k
  = if decide (k ∈ fields) then Some (default (VStr NOT_AVAILABLE) (m !! k))
    else m !! k.
Proof.
  unfold backfill. revert m. induction fields as [|f fields IH]; intros m.
  - cbn. by rewrite decide_False by apply not_elem_of_nil.
  - cbn [foldl]. rewrite IH, !setdefault_lookup.
    destruct (decide (k = f)) as [->|Hne].
    + rewrite (decide_True (P := f ∈ f :: fields)) by left.
      by case_decide.
    + destruct (decide (k ∈ fields)).
      * by rewrite decide_True by by right.
      * rewrite decide_False; [done|]. by intros [->|?]%elem_of_cons.
Qed.

Lemma backfill_id (fields : list string) (m : gmap string value) :
  (∀ f, f ∈ fields → is_Some (m !! f)) → backfill fields m = m.
Proof.
  intros H. apply map_eq. intros k. rewrite backfill_lookup.
  case_decide as Hk; [|done]. by destruct (H k Hk) as [x ->].
Qed.

Lemma coerce_areas_fmap (areas : gmap string value) :
  coerce_areas areas = coerce_area <$> areas.
Proof.
  unfold coerce_areas.
  assert (∀ (l : list (string * value)) (acc : gmap string value) k,
    NoDup l.*1 →
    foldl (λ acc kv, <[kv.1 := coerce_area kv.2]> acc) acc l !! k
    = match list_to_map (M := gmap string value) l !! k with
      | Some x => Some (coerce_area x)
      | None => acc !! k
      end) as Hfold.
  { induction l as [|[a x] l IH]; intros acc k Hnd; [done|].
    rewrite fmap_cons in Hnd. apply NoDup_cons in Hnd as [Ha Hnd].
    cbn [foldl fst snd]. rewrite (IH _ _ Hnd).
    change (list_to_map ((a, x) :: l)) with (<[a := x]> (list_to_map l : gmap string value)).
    destruct (decide (a = k)) as [->|Hne].
    - rewrite lookup_insert_eq.
      rewrite (not_elem_of_list_to_map_1 l k) by done.
      by rewrite lookup_insert_eq.
    - by rewrite !lookup_insert_ne by done. }
  apply map_eq. intros k. rewrite Hfold by apply NoDup_fst_map_to_list.
  rewrite list_to_map_to_list, lookup_fmap. by destruct (areas !! k).
Qed.

Lemma force_areas_dict_lookup (c : gmap string value) (k : string) :
  force_areas_dict c !! k
  = if decide (k = "Area_Wise_Observations")
    then Some (VDict (dict_of (default VNull (c !! k))))
    else c !! k.
Proof.
  unfold force_areas_dict. case_decide as Hk.
  - subst k. destruct (c !! _) as [[]|] eqn:H; by rewrite ?lookup_insert_eq.
  - destruct (c !! "Area_Wise_Observations") as [[]|];
      by rewrite ?lookup_insert_ne.
Qed.

Lemma force_severity_lookup (c : gmap string value) (k : string) :
  force_severity c !! k
  = if decide (k = "Severity_Assessment")
    then Some (match c !! k with
               | Some (VDict severity) =>
                   _normalize_missing_markers
                     (VDict (backfill SEVERITY_FIELDS severity))
               | _ => VDict default_severity
               end)
    else c !! k.
Proof.
  unfold force_severity. case_decide as Hk.
  - subst k. destruct (c !! _) as [[]|] eqn:H; by rewrite ?lookup_insert_eq.
  - destruct (c !! "Severity_Assessment") as [[]|];
      by rewrite ?lookup_insert_ne.
Qed.

Lemma force_missing_list_lookup (c : gmap string value) (k : string) :
  force_missing_list c !! k
  = if decide (k = "Missing_or_Unclear_Information")
    then Some (match c !! k with
               | Some (VList (x :: l)) => VList (x :: l)
               | _ => VList [VStr NOT_AVAILABLE]
               end)
    else c !! k.
Proof.
  unfold force_missing_list. case_decide as Hk.
  - subst k. destruct (c !! _) as [[| | | | |[|x l]|]|] eqn:H;
      by rewrite ?lookup_insert_eq.
  - destruct (c !! "Missing_or_Unclear_Information") as [[| | | | |[|x l]|]|];
      by rewrite ?lookup_insert_ne.
Qed.

Lemma complete_areas_lookup (c : gmap string value) (k : string) :
  complete_areas c !! k
  = if decide (k = "Area_Wise_Observations")
    then Some (VDict (drop_placeholder_general
                        (coerce_area <$> dict_of (default VNull (c !! k)))))
    else c !! k.
Proof.
  unfold complete_areas. rewrite coerce_areas_fmap. case_decide as Hk.
  - subst k. by rewrite lookup_insert_eq.
  - by rewrite lookup_insert_ne.
Qed.

(** The coerced document, key by key. *)
Lemma coerce_lookup (data : gmap string value) (k : string) :
  _coerce_to_schema_shape data !! k
  = if decide (k = "Area_Wise_Observations") then
      Some (VDict (drop_placeholder_general
                     (coerce_area <$>
                        match data !! k with
                        | Some (VDict m) => _normalize_missing_markers <$> m
                        | _ => ∅
                        end)))
    else if decide (k = "Severity_Assessment") then
      Some (match data !! k with
            | Some (VDict severity) =>
                _normalize_missing_markers
                  (VDict (backfill SEVERITY_FIELDS
                            (_normalize_missing_markers <$> severity)))
            | _ => VDict default_severity
            end)
    else if decide (k = "Missing_or_Unclear_Information") then
      Some (match data !! k with
            | Some (VList (x :: l)) =>
                VList (_normalize_missing_markers <$> x :: l)
            | _ => VList [VStr NOT_AVAILABLE]
            end)
    else if decide (k ∈ EXPECTED_TOP_LEVEL_KEYS) then
      Some (match data !! k with
            | Some v => _normalize_missing_markers v
            | None => VStr NOT_AVAILABLE
            end)
    else None.
Proof.
  unfold _coerce_to_schema_shape. cbn [dict_of _normalize_missing_markers].
  rewrite complete_areas_lookup.
  destruct (decide (k = "Area_Wise_Observations")) as [->|Hareas].
  { do 4 f_equal.
    rewrite force_missing_list_lookup, decide_False by done.
    rewrite force_severity_lookup, decide_False by done.
    rewrite force_areas_dict_lookup, decide_True by done. cbn [default].
    rewrite copy_expected_lookup, decide_True by compute_done.
    rewrite lookup_fmap.
    destruct (data !! _) as [[| | | |s| |]|]; try done.
    cbn. by case_bool_decide. }
  rewrite force_missing_list_lookup.
  destruct (decide (k = "Missing_or_Unclear_Information")) as [->|Hmissing].
  { rewrite decide_False by done. f_equal.
    rewrite force_severity_lookup, decide_False by done.
    rewrite force_areas_dict_lookup, decide_False by done.
    rewrite copy_expected_lookup, decide_True by compute_done.
    rewrite lookup_fmap.
    destruct (data !! _) as [[| | | |s|[|x l]|]|]; try done.
    cbn. by case_bool_decide. }
  rewrite force_severity_lookup.
  destruct (decide (k = "Severity_Assessment")) as [->|Hseverity].
  { f_equal.
    rewrite force_areas_dict_lookup, decide_False by done.
    rewrite copy_expected_lookup, decide_True by compute_done.
    rewrite lookup_fmap.
    destruct (data !! _) as [[| | | |s| |]|]; try done.
    cbn. by case_bool_decide. }
  rewrite force_areas_dict_lookup, decide_False by done.
  rewrite copy_expected_lookup, lookup_fmap.
  case_decide as Hk.
  - destruct (data !! k) as [v|] eqn:Hv; [done|]. cbn.
    revert Hk. unfold EXPECTED_TOP_LEVEL_KEYS.
    rewrite elem_of_list_to_set, !elem_of_cons, elem_of_nil.
    intros H. repeat (destruct H as [->|H]; [done|]). done.
  - apply not_elem_of_dom. unfold _build_default_structure.
    rewrite !dom_insert_L, dom_empty_L. revert Hk.
    unfold EXPECTED_TOP_LEVEL_KEYS. cbn [list_to_set]. set_solver.
Qed.

Lemma sentinel_area_shaped : area_shaped (VDict sentinel_area).
Proof.
  exists sentinel_area. split; [done|]. intros f.
  unfold AREA_FIELDS. rewrite !elem_of_cons, elem_of_nil. intros H.
  repeat (destruct H as [->|H]; [by eexists|]). done.
Qed.

Lemma coerce_area_shaped (v : value) : area_shaped (coerce_area v).
Proof.
  destruct v as [| | | | | |m]; try apply sentinel_area_shaped.
  cbn [coerce_area _normalize_missing_markers]. eexists. split; [done|].
  intros f Hf. rewrite lookup_fmap, backfill_lookup, decide_True by done.
  by eexists.
Qed.

Lemma drop_placeholder_general_lookup (areas : gmap string value)
    (a : string) (v : value) :
  drop_placeholder_general areas !! a = Some v → areas !! a = Some v.
Proof.
  unfold drop_placeholder_general.
  destruct (areas !! "General") as [[| | | | | |g]|]; try done.
  destruct (_ && _); [|done]. by intros [_ ?]%lookup_delete_Some.
Qed.

Lemma coerce_lookup_areas (data : gmap string value) :
  _coerce_to_schema_shape data !! "Area_Wise_Observations"
  = Some (VDict (drop_placeholder_general
                   (coerce_area <$>
                      match data !! "Area_Wise_Observations" with
                      | Some (VDict m) => _normalize_missing_markers <$> m
                      | _ => ∅
                      end))).
Proof. rewrite coerce_lookup. by rewrite decide_True by done. Qed.

Lemma coerce_lookup_severity (data : gmap string value) :
  _coerce_to_schema_shape data !! "Severity_Assessment"
  = Some (match data !! "Severity_Assessment" with
          | Some (VDict severity) =>
              VDict (_normalize_missing_markers <$>
                       backfill SEVERITY_FIELDS
                         (_normalize_missing_markers <$> severity))
          | _ => VDict default_severity
          end).
Proof.
  rewrite coerce_lookup, decide_False by done.
  by rewrite decide_True by done.
Qed.

Lemma coerce_lookup_missing (data : gmap string value) :
  _coerce_to_schema_shape data !! "Missing_or_Unclear_Information"
  = Some (match data !! "Missing_or_Unclear_Information" with
          | Some (VList (x :: l)) =>
              VList (_normalize_missing_markers <$> x :: l)
          | _ => VList [VStr NOT_AVAILABLE]
          end).
Proof.
  rewrite coerce_lookup, !decide_False by done.
  by rewrite decide_True by done.
Qed.

(** The coerced document is always schema-shaped. *)
Lemma coerce_schema_shaped (data : gmap string value) :
  schema_shaped (_coerce_to_schema_shape data).
Proof.
  split; [|split; [|split]].
  - apply set_eq. intros k. rewrite elem_of_dom, coerce_lookup.
    repeat case_decide; subst; split; try done; try (by eexists);
      try (intros; compute_done).
  - eexists. split; [by rewrite coerce_lookup_areas|].
    intros a v Hv%drop_placeholder_general_lookup.
    rewrite lookup_fmap in Hv. destruct (_ !! a); [|done].
    injection Hv as <-. apply coerce_area_shaped.
  - rewrite coerce_lookup_severity.
    destruct (data !! _) as [[| | | | | |sev]|];
      try (exists default_severity; split; [done|]; intros f;
           unfold SEVERITY_FIELDS;
           rewrite !elem_of_cons, elem_of_nil; intros H;
           repeat (destruct H as [->|H]; [by eexists|]); done).
    eexists. split; [done|]. intros f Hf.
    rewrite lookup_fmap, backfill_lookup, decide_True by done. by eexists.
  - rewrite coerce_lookup_missing.
    destruct (data !! _) as [[| | | | |[|x l]|]|]; by eexists _, _.
Qed.


Lemma get_equals_true (o : option value) (s : string) :
  get_equals o s = true ↔ o = Some (VStr s).
Proof.
  destruct o as [[| | | |s'| |]|]; cbn; try done.
  rewrite bool_decide_eq_true. split; congruence.
Qed.

Lemma backfilled_sentinel (g : gmap string value) (f : string) :
  f ∈ AREA_FIELDS → sentinel_valued (g !! f) →
  (_normalize_missing_markers <$>
     backfill AREA_FIELDS (_normalize_missing_markers <$> g)) !! f
  = Some (VStr NOT_AVAILABLE).
Proof.
  intros Hf Hg. rewrite lookup_fmap, backfill_lookup, decide_True by done.
  rewrite lookup_fmap. cbn.
  destruct Hg as [->|[->|(x & -> & Hx)]]; cbn; [done|done|].
  by rewrite (normalize_marker _ Hx).
Qed.

(** C9. When the only area of the input is ["General"] and each of its
    three substantive fields is absent, the sentinel, or a missing marker,
    the coerced document has the empty mapping for its areas. *)
Theorem coerce_drops_placeholder_general (data g : gmap string value) :
  data !! "Area_Wise_Observations" = Some (VDict {[ "General" := VDict g ]}) →
  (∀ f, f ∈ SUBSTANTIVE_FIELDS → sentinel_valued (g !! f)) →
  _coerce_to_schema_shape data !! "Area_Wise_Observations" = Some (VDict ∅).
Proof.
  intros Hdata Hg. rewrite coerce_lookup_areas, Hdata.
  rewrite !map_fmap_singleton. cbn [_normalize_missing_markers coerce_area].
  unfold drop_placeholder_general. rewrite lookup_singleton_eq.
  rewrite !backfilled_sentinel by (try apply Hg; compute_done).
  cbn. by rewrite delete_singleton_eq.
Qed.


Lemma coerce_drops_placeholder_general_witness :
  _coerce_to_schema_shape
    {[ "Area_Wise_Observations" :=
         VDict {[ "General" :=
           VDict {[ "inspection_observation" := VStr "N/A";
                    "thermal_observation" := VNull ]} ]} ]}
    !! "Area_Wise_Observations" = Some (VDict ∅).
Proof.
  apply (coerce_drops_placeholder_general _
           {[ "inspection_observation" := VStr "N/A";
              "thermal_observation" := VNull ]}); [by vm_compute|].
  intros f. unfold SUBSTANTIVE_FIELDS. rewrite !elem_of_cons, elem_of_nil.
  intros [->|[->|[->|[]]]].
  - right; right. exists (VStr "N/A"). split; [by vm_compute|].
    right. exists "N/A". split; [done|by vm_compute].
  - right; right. exists VNull. split; [by vm_compute|by left].
  - by left.
Defined.

(** ** Splitting and trimming *)

Lemma lstrip_rstrip (s : string) :
  PyStr.lstrip (PyStr.rstrip s) = PyStr.rstrip (PyStr.lstrip s).
Proof.
  induction s as [|c s IH]; [done|]. cbn [PyStr.lstrip].
  destruct (PyStr.isspace c) eqn:Hc.
  - rewrite <- IH. cbn [PyStr.rstrip].
    destruct (PyStr.rstrip s); [by rewrite Hc|]. cbn [PyStr.lstrip].
    by rewrite Hc.
  - apply lstrip_clean, rstrip_starts_clean. exact Hc.
Qed.

Lemma split_comma_cons (s : string) : ∃ h t, PyStr.split_comma s = h :: t.
Proof.
  induction s as [|c s (h & t & IH)]; [by eexists _, _|].
  cbn [PyStr.split_comma]. case_bool_decide; [by eexists _, _|].
  rewrite IH. by eexists _, _.
Qed.

Lemma isspace_not_comma (c : ascii) : PyStr.isspace c = true → c ≠ ","%char.
Proof. by intros H ->. Qed.

Lemma split_comma_lstrip (s : string) :
  PyStr.strip <$> PyStr.split_comma (PyStr.lstrip s)
  = PyStr.strip <$> PyStr.split_comma s.
Proof.
  induction s as [|c s IH]; [done|]. cbn [PyStr.lstrip].
  destruct (PyStr.isspace c) eqn:Hc; [|done].
  rewrite IH. cbn [PyStr.split_comma].
  rewrite bool_decide_eq_false_2 by by apply isspace_not_comma.
  destruct (split_comma_cons s) as (h & t & ->). rewrite !fmap_cons.
  f_equal. unfold PyStr.strip. cbn [PyStr.lstrip]. by rewrite Hc.
Qed.

Lemma rstrip_cons_congr (c : ascii) (a b : string) :
  PyStr.rstrip a = PyStr.rstrip b →
  PyStr.rstrip (String c a) = PyStr.rstrip (String c b).
Proof. cbn [PyStr.rstrip]. by intros ->. Qed.

Lemma split_comma_rstrip (s : string) :
  PyStr.rstrip <$> PyStr.split_comma (PyStr.rstrip s)
  = PyStr.rstrip <$> PyStr.split_comma s.
Proof.
  induction s as [|c s IH]; [done|].
  assert (PyStr.rstrip <$> PyStr.split_comma (String c (PyStr.rstrip s))
          = PyStr.rstrip <$> PyStr.split_comma (String c s)) as Hcons.
  { cbn [PyStr.split_comma]. case_bool_decide.
    - by rewrite !fmap_cons, IH.
    - destruct (split_comma_cons (PyStr.rstrip s)) as (h1 & t1 & H1).
      destruct (split_comma_cons s) as (h2 & t2 & H2).
      rewrite H1, H2 in IH |- *. rewrite !fmap_cons in IH |- *.
      injection IH as Hh Ht. f_equal; [|done]. by apply rstrip_cons_congr. }
  cbn [PyStr.rstrip]. destruct (PyStr.rstrip s) as [|d r] eqn:Hr; [|done].
  rewrite <- Hcons.
  destruct (PyStr.isspace c) eqn:Hc; [|done].
  cbn [PyStr.split_comma].
  rewrite bool_decide_eq_false_2 by by apply isspace_not_comma.
  cbn. by rewrite Hc.
Qed.

Lemma split_comma_strip (s : string) :
  PyStr.strip <$> PyStr.split_comma (PyStr.strip s)
  = PyStr.strip <$> PyStr.split_comma s.
Proof.
  assert (∀ l : list string,
            PyStr.strip <$> l = PyStr.lstrip <$> (PyStr.rstrip <$> l)) as H.
  { intros l. rewrite <- list_fmap_compose. apply list_fmap_ext.
    intros _ x _. unfold PyStr.strip. cbn. by rewrite lstrip_rstrip. }
  transitivity (PyStr.strip <$> PyStr.split_comma (PyStr.lstrip s));
    [|apply split_comma_lstrip].
  change (PyStr.strip s) with (PyStr.rstrip (PyStr.lstrip s)).
  by rewrite !H, split_comma_rstrip.
Qed.

(** ** The strict validator *)

Lemma rbind_ok {A B} (r : result A) (k : A → result B) (b : B) :
  rbind r k = Ok b → ∃ a, r = Ok a ∧ k a = Ok b.
Proof. destruct r as [a|e]; [by exists a|done]. Qed.

Lemma traverse_dict_ok {A B} (f : A → result B) (m : gmap string A)
    (r : gmap string B) :
  traverse_dict f m = Ok r →
  ∀ k x, m !! k = Some x → ∃ y, f x = Ok y ∧ r !! k = Some y.
Proof.
  unfold traverse_dict. revert r.
  apply (map_fold_weak_ind
           (λ acc m, ∀ r, acc = Ok r →
              ∀ k x, m !! k = Some x → ∃ y, f x = Ok y ∧ r !! k = Some y)).
  - by intros r _ k x ?.
  - intros i x m' acc Hi IH r Hr k x' Hk.
    apply rbind_ok in Hr as (r0 & -> & Hr).
    apply rbind_ok in Hr as (y & Hy & [= <-]).
    destruct (decide (i = k)) as [->|Hne].
    + rewrite lookup_insert_eq in Hk. injection Hk as <-.
      exists y. by rewrite lookup_insert_eq.
    + rewrite lookup_insert_ne in Hk by done.
      destruct (IH r0 eq_refl k x' Hk) as (y' & ? & ?).
      exists y'. by rewrite lookup_insert_ne.
Qed.

Lemma check_dict_ok {A} (f : string → A → result unit) (m : gmap string A) :
  check_dict f m = Ok tt → ∀ k x, m !! k = Some x → f k x = Ok tt.
Proof.
  unfold check_dict.
  apply (map_fold_weak_ind
           (λ acc m, acc = Ok tt → ∀ k x, m !! k = Some x → f k x = Ok tt)).
  - by intros _ k x ?.
  - intros i x m' acc Hi IH Hr k x' Hk.
    apply rbind_ok in Hr as (u & -> & Hr).
    destruct (decide (i = k)) as [->|Hne].
    + rewrite lookup_insert_eq in Hk. by injection Hk as <-.
    + rewrite lookup_insert_ne in Hk by done. destruct u. by apply IH.
Qed.

Lemma validate_non_empty_ok (value field_name cleaned : string) :
  _validate_non_empty value field_name = Ok cleaned →
  cleaned = PyStr.strip value.
Proof.
  unfold _validate_non_empty. repeat case_bool_decide; by intros [= <-].
Qed.

Lemma validate_non_empty_sentinel (field_name : string) :
  _validate_non_empty NOT_AVAILABLE field_name = Ok NOT_AVAILABLE.
Proof. reflexivity. Qed.

(** A dampness text that passes has only components of the vocabulary. *)
Lemma validate_dampness_type_ok (value out part : string) :
  AreaObservationModel.validate_dampness_type value = Ok out →
  part ∈ PyStr.split_comma value →
  PyStr.lower (PyStr.strip part) ∈ AreaObservationModel.allowed.
Proof.
  unfold AreaObservationModel.validate_dampness_type.
  case_bool_decide; [done|].
  destruct (forallb _ _) eqn:Hall; [|done]. intros _ Hpart.
  rewrite forallb_forall in Hall.
  specialize (Hall (PyStr.lower (PyStr.strip part))).
  eapply bool_decide_eq_true_1, Hall, list_elem_of_In.
  apply (list_elem_of_fmap_2 (λ p, PyStr.lower (PyStr.strip p))), Hpart.
Qed.

(** The validated areas of an accepted document. *)
Lemma validate_fields_areas (d areas : gmap string value) (report : DDRReport) :
  DDRReportModel.validate_fields d = Ok report →
  d !! "Area_Wise_Observations" = Some (VDict areas) →
  ∃ typed,
    traverse_dict AreaObservationModel.model_validate areas = Ok typed
    ∧ check_dict DDRReportModel.check_area_key typed = Ok tt.
Proof.
  unfold DDRReportModel.validate_fields. intros H Hareas.
  apply rbind_ok in H as (f1 & _ & H).
  apply rbind_ok in H as (f2 & H2 & _).
  unfold DDRReportModel.areas_field in H2. rewrite Hareas in H2.
  apply rbind_ok in H2 as (typed & Htyped & H2). exists typed. split; [done|].
  unfold DDRReportModel.validate_area_observations in H2.
  apply rbind_ok in H2 as ([] & ? & _). done.
Qed.

(** A document with a dampness component outside the vocabulary is
    rejected. *)
Lemma unknown_dampness_rejected
    (d areas m : gmap string value) (a s part : string) :
  d !! "Area_Wise_Observations" = Some (VDict areas) →
  areas !! a = Some (VDict m) →
  m !! "dampness_type" = Some (VStr s) →
  part ∈ PyStr.split_comma s →
  PyStr.lower (PyStr.strip part) ∉ AreaObservationModel.allowed →
  ∃ msg, DDRReportModel.model_validate d = Raise (Exn ValidationError msg None).
Proof.
  intros Hareas Ha Hm Hpart Hbad. unfold DDRReportModel.model_validate.
  destruct (DDRReportModel.validate_fields d) as [report|e] eqn:Hv;
    [exfalso|by eexists].
  destruct (validate_fields_areas _ _ _ Hv Hareas) as (typed & Htyped & _).
  destruct (traverse_dict_ok _ _ _ Htyped _ _ Ha) as (area & Harea & _).
  unfold AreaObservationModel.model_validate in Harea.
  apply rbind_ok in Harea as (f1 & _ & Harea).
  apply rbind_ok in Harea as (f2 & _ & Harea).
  apply rbind_ok in Harea as (f3 & _ & Harea).
  apply rbind_ok in Harea as (f4 & H4 & _).
  unfold defaulted_str in H4. rewrite Hm in H4.
  apply rbind_ok in H4 as (s' & Hs' & H4).
  apply validate_non_empty_ok in Hs' as ->.
  apply Hbad.
  assert (PyStr.strip part ∈ PyStr.strip <$> PyStr.split_comma (PyStr.strip s))
    as (part' & Heq & Hpart')%list_elem_of_fmap.
  { rewrite split_comma_strip. by apply list_elem_of_fmap_2. }
  rewrite Heq. by eapply validate_dampness_type_ok.
Qed.

Lemma is_ok_true {A} (r : result A) : is_ok r = true → ∃ a, r = Ok a.
Proof. destruct r as [a|e]; [by exists a|done]. Qed.

Lemma model_validate_ok (d : gmap string value) :
  is_ok (DDRReportModel.model_validate d) = true →
  ∃ report, DDRReportModel.validate_fields d = Ok report.
Proof.
  unfold DDRReportModel.model_validate.
  destruct (DDRReportModel.validate_fields d) as [report|e]; [by eexists|done].
Qed.

(** An accepted document has no placeholder ["General"] for the coercer to
    drop. *)
Lemma valid_no_placeholder (d areas : gmap string value) :
  is_ok (DDRReportModel.model_validate d) = true →
  d !! "Area_Wise_Observations" = Some (VDict areas) →
  drop_placeholder_general areas = areas.
Proof.
  intros (report & Hv)%model_validate_ok Hareas.
  unfold drop_placeholder_general.
  destruct (areas !! "General") as [[| | | | | |g]|] eqn:Hg; try done.
  destruct (_ && _) eqn:Hp; [exfalso|done].
  apply andb_true_iff in Hp as [Hp H3]. apply andb_true_iff in Hp as [H1 H2].
  apply get_equals_true in H1, H2, H3.
  destruct (validate_fields_areas _ _ _ Hv Hareas) as (typed & Htyped & Hcheck).
  destruct (traverse_dict_ok _ _ _ Htyped _ _ Hg) as (area & Harea & Hlook).
  pose proof (check_dict_ok _ _ Hcheck _ _ Hlook) as Hkey.
  unfold AreaObservationModel.model_validate, required_str in Harea.
  rewrite H1, H2, H3 in Harea.
  unfold AreaObservationModel.validate_strings in Harea.
  rewrite !validate_non_empty_sentinel in Harea. cbn [rbind] in Harea.
  apply rbind_ok in Harea as (f4 & _ & Harea).
  apply rbind_ok in Harea as (f5 & _ & Harea).
  apply rbind_ok in Harea as (f6 & _ & Harea).
  apply rbind_ok in Harea as (f7 & _ & [= <-]).
  by vm_compute in Hkey.
Qed.

(** ** Fixed points of the coercer *)

(** A normalized dict has normalized entries. *)
Lemma normalized_lookup (d : gmap string value) (k : string) (v : value) :
  _normalize_missing_markers (VDict d) = VDict d →
  d !! k = Some v → _normalize_missing_markers v = v.
Proof.
  cbn [_normalize_missing_markers]. intros Hd Hk.
  apply (f_equal dict_of) in Hd. cbn [dict_of] in Hd.
  apply (f_equal (.!! k)) in Hd. rewrite lookup_fmap, Hk in Hd.
  by injection Hd.
Qed.

Lemma drop_placeholder_general_idemp (areas : gmap string value) :
  drop_placeholder_general (drop_placeholder_general areas)
  = drop_placeholder_general areas.
Proof.
  unfold drop_placeholder_general at 2 3.
  destruct (areas !! "General") as [[| | | | | |g]|] eqn:Hg;
    try (unfold drop_placeholder_general; by rewrite Hg).
  destruct (_ && _) eqn:Hp; unfold drop_placeholder_general.
  - by rewrite lookup_delete_eq.
  - by rewrite Hg, Hp.
Qed.

(** Coercion leaves a shaped, normalized document without a placeholder
    as it is. *)
Lemma coerce_fixed (d areas : gmap string value) :
  schema_shaped d →
  _normalize_missing_markers (VDict d) = VDict d →
  d !! "Area_Wise_Observations" = Some (VDict areas) →
  drop_placeholder_general areas = areas →
  _coerce_to_schema_shape d = d.
Proof.
  intros (Hdom & (areas' & Hareas' & Hshaped) & (sev & Hsev & Hsevf)
          & (x & l & Hmissing)) Hnorm Hareas Hdrop.
  rewrite Hareas in Hareas'. injection Hareas' as <-.
  apply map_eq. intros k. rewrite coerce_lookup.
  destruct (decide (k = "Area_Wise_Observations")) as [->|?].
  { rewrite Hareas.
    pose proof (normalized_lookup _ _ _ Hnorm Hareas) as Hn.
    apply (f_equal dict_of) in Hn. cbn [dict_of _normalize_missing_markers] in Hn.
    rewrite Hn. do 2 f_equal. rewrite <- Hdrop at 2. f_equal.
    apply map_eq. intros a. rewrite lookup_fmap.
    destruct (areas !! a) as [v|] eqn:Ha; [|done]. cbn. f_equal.
    destruct (Hshaped a v Ha) as (m & -> & Hm). cbn [coerce_area].
    rewrite (backfill_id _ _ Hm).
    apply (normalized_lookup areas a); [|done]. cbn. by rewrite Hn. }
  destruct (decide (k = "Severity_Assessment")) as [->|?].
  { rewrite Hsev. f_equal.
    pose proof (normalized_lookup _ _ _ Hnorm Hsev) as Hn.
    apply (f_equal dict_of) in Hn. cbn [dict_of _normalize_missing_markers] in Hn.
    cbn [_normalize_missing_markers]. rewrite Hn, (backfill_id _ _ Hsevf).
    by rewrite Hn. }
  destruct (decide (k = "Missing_or_Unclear_Information")) as [->|?].
  { rewrite Hmissing. f_equal.
    apply (normalized_lookup _ _ _ Hnorm Hmissing). }
  case_decide as Hk.
  - rewrite <- Hdom in Hk. apply elem_of_dom in Hk as [v Hv]. rewrite Hv.
    f_equal. by apply (normalized_lookup _ _ _ Hnorm Hv).
  - rewrite <- Hdom in Hk. by apply not_elem_of_dom in Hk.
Qed.

Lemma sentinel_area_normalized :
  _normalize_missing_markers (VDict sentinel_area) = VDict sentinel_area.
Proof. by vm_compute. Qed.

Lemma default_severity_normalized :
  _normalize_missing_markers (VDict default_severity) = VDict default_severity.
Proof. by vm_compute. Qed.

Lemma coerce_area_normalized (v : value) :
  _normalize_missing_markers (coerce_area v) = coerce_area v.
Proof.
  destruct v as [| | | | | |m]; try exact sentinel_area_normalized.
  cbn [coerce_area]. apply normalize_idemp.
Qed.

Lemma coerce_normalized (data : gmap string value) :
  _normalize_missing_markers (VDict (_coerce_to_schema_shape data))
  = VDict (_coerce_to_schema_shape data).
Proof.
  cbn [_normalize_missing_markers]. f_equal. apply map_eq. intros k.
  rewrite lookup_fmap, coerce_lookup.
  destruct (decide (k = "Area_Wise_Observations")) as [->|?].
  { cbn [fmap option_fmap option_map _normalize_missing_markers].
    do 2 f_equal. apply map_eq. intros a. rewrite lookup_fmap.
    destruct (drop_placeholder_general _ !! a) as [v|] eqn:Ha; [|done].
    apply drop_placeholder_general_lookup in Ha. rewrite lookup_fmap in Ha.
    destruct (_ !! a) as [x|]; [|done]. injection Ha as <-.
    cbn [fmap option_fmap option_map]. by rewrite coerce_area_normalized. }
  destruct (decide (k = "Severity_Assessment")) as [->|?].
  { cbn [fmap option_fmap option_map]. f_equal.
    destruct (data !! _) as [[| | | | | |sev]|];
      try exact default_severity_normalized.
    apply normalize_idemp. }
  destruct (decide (k = "Missing_or_Unclear_Information")) as [->|?].
  { cbn [fmap option_fmap option_map]. f_equal.
    destruct (data !! _) as [[| | | | |[|x l]|]|]; try reflexivity.
    apply (normalize_idemp (VList (x :: l))). }
  case_decide; [|done]. cbn [fmap option_fmap option_map]. f_equal.
  destruct (data !! k) as [v|]; [apply normalize_idemp|reflexivity].
Qed.

(** Coercing a coerced document changes nothing. *)
Lemma coerce_idemp (data : gmap string value) :
  _coerce_to_schema_shape (_coerce_to_schema_shape data)
  = _coerce_to_schema_shape data.
Proof.
  eapply coerce_fixed.
  - apply coerce_schema_shaped.
  - apply coerce_normalized.
  - apply coerce_lookup_areas.
  - apply drop_placeholder_general_idemp.
Qed.

(** C6 (as amended). Normalization is idempotent. Coercion is idempotent
    on its own output, and it returns an identical document when given one
    that is already schema-shaped, already normalized, and accepted by the
    strict validator. *)
Theorem normalize_and_coerce_idempotent :
  (∀ v, _normalize_missing_markers (_normalize_missing_markers v)
        = _normalize_missing_markers v)
  ∧ (∀ data, _coerce_to_schema_shape (_coerce_to_schema_shape data)
             = _coerce_to_schema_shape data)
  ∧ (∀ d, schema_shaped d →
          _normalize_missing_markers (VDict d) = VDict d →
          is_ok (DDRReportModel.model_validate d) = true →
          _coerce_to_schema_shape d = d).
Proof.
  split; [exact normalize_idemp|]. split; [exact coerce_idemp|].
  intros d Hshape Hnorm Hvalid.
  pose proof Hshape as (_ & (areas & Hareas & _) & _).
  apply (coerce_fixed d areas); [done|done|done|].
  by apply (valid_no_placeholder d).
Qed.

Lemma sample_document_shaped (summary dampness : string) :
  schema_shaped (sample_document summary dampness).
Proof.
  split; [|split; [|split]].
  - unfold sample_document, _build_default_structure, EXPECTED_TOP_LEVEL_KEYS.
    rewrite !dom_insert_L, dom_empty_L. cbn [list_to_set]. set_solver.
  - eexists. split; [reflexivity|].
    intros a v [<- <-]%lookup_singleton_Some. eexists. split; [done|].
    intros f. unfold AREA_FIELDS. rewrite !elem_of_cons, elem_of_nil.
    intros H. repeat (destruct H as [->|H]; [by eexists|]). done.
  - exists default_severity. split; [reflexivity|].
    intros f. unfold SEVERITY_FIELDS. rewrite !elem_of_cons, elem_of_nil.
    intros H. repeat (destruct H as [->|H]; [by eexists|]). done.
  - by eexists _, _.
Qed.

Lemma normalize_and_coerce_idempotent_witness :
  _coerce_to_schema_shape (sample_document "Damp noted" "Rising Damp")
  = sample_document "Damp noted" "Rising Damp".
Proof.
  destruct normalize_and_coerce_idempotent as (_ & _ & H).
  apply H; [apply sample_document_shaped|by vm_compute|by vm_compute].
Defined.

(** The claim as first stated asks only for a schema-shaped, valid
    document: the validator accepts a summary with a leading blank, and
    coercion trims it. *)
Lemma coerce_trims_valid_document :
  schema_shaped (sample_document " Damp noted" "Rising Damp")
  ∧ is_ok (DDRReportModel.model_validate
             (sample_document " Damp noted" "Rising Damp")) = true
  ∧ _coerce_to_schema_shape (sample_document " Damp noted" "Rising Damp")
    ≠ sample_document " Damp noted" "Rising Damp".
Proof.
  split; [apply sample_document_shaped|]. split; [by vm_compute|].
  intros H. apply (f_equal (.!! "Property_Issue_Summary")) in H.
  by vm_compute in H.
Qed.

Lemma traverse_dict_empty {A B} (f : A → result B) :
  traverse_dict f (∅ : gmap string A) = Ok ∅.
Proof. unfold traverse_dict. by rewrite map_fold_empty. Qed.

Lemma check_dict_empty {A} (f : string → A → result unit) :
  check_dict f (∅ : gmap string A) = Ok tt.
Proof. unfold check_dict. by rewrite map_fold_empty. Qed.

(** C5 (as amended). When the areas of a document are the empty mapping,
    as they are after the coercer has dropped a lone placeholder
    ["General"], the areas field passes validation with no area, and the
    document is accepted exactly when its seven other fields are. *)
Theorem empty_areas_pass_validation (c : gmap string value) :
  c !! "Area_Wise_Observations" = Some (VDict ∅) →
  DDRReportModel.areas_field c = Ok ∅
  ∧ is_ok (DDRReportModel.model_validate c)
    = is_ok (DDRReportModel.core_string_field c "Property_Issue_Summary")
      && is_ok (DDRReportModel.core_string_field c "Probable_Root_Cause")
      && is_ok (DDRReportModel.severity_field c)
      && is_ok (DDRReportModel.core_string_field c "Recommended_Actions")
      && is_ok (DDRReportModel.core_string_field c "Risk_Implications")
      && is_ok (DDRReportModel.core_string_field c "Additional_Notes")
      && is_ok (DDRReportModel.missing_info_field c).
Proof.
  intros Hareas.
  assert (DDRReportModel.areas_field c = Ok ∅) as Hfield.
  { unfold DDRReportModel.areas_field. rewrite Hareas, traverse_dict_empty.
    cbn [rbind]. unfold DDRReportModel.validate_area_observations.
    by rewrite check_dict_empty. }
  split; [done|].
  unfold DDRReportModel.model_validate, DDRReportModel.validate_fields.
  rewrite Hfield.
  destruct (DDRReportModel.core_string_field c "Property_Issue_Summary");
    [|done].
  destruct (DDRReportModel.core_string_field c "Probable_Root_Cause");
    [|done].
  destruct (DDRReportModel.severity_field c); [|done].
  destruct (DDRReportModel.core_string_field c "Recommended_Actions");
    [|done].
  destruct (DDRReportModel.core_string_field c "Risk_Implications");
    [|done].
  destruct (DDRReportModel.core_string_field c "Additional_Notes");
    [|done].
  by destruct (DDRReportModel.missing_info_field c).
Qed.

Lemma empty_areas_pass_validation_witness :
  is_ok (DDRReportModel.model_validate
           (_coerce_to_schema_shape placeholder_only_document)) = true.
Proof.
  destruct (empty_areas_pass_validation
              (_coerce_to_schema_shape placeholder_only_document)
              ltac:(by vm_compute)) as [_ ->].
  by vm_compute.
Defined.

(** The claim as first stated has the validator reject such a document:
    the coerced placeholder-only document has no area and is accepted. *)
Lemma placeholder_only_document_accepted :
  _coerce_to_schema_shape placeholder_only_document
    !! "Area_Wise_Observations" = Some (VDict ∅)
  ∧ is_ok (DDRReportModel.model_validate
             (_coerce_to_schema_shape placeholder_only_document)) = true.
Proof. split; by vm_compute. Qed.

Lemma validate_dampness_type_accepts (value : string) :
  (∀ part, part ∈ PyStr.split_comma value →
           PyStr.lower (PyStr.strip part) ∈ AreaObservationModel.allowed) →
  AreaObservationModel.validate_dampness_type value = Ok value.
Proof.
  intros Hall. unfold AreaObservationModel.validate_dampness_type.
  rewrite bool_decide_eq_false_2.
  2:{ destruct (split_comma_cons value) as (h & t & ->). done. }
  assert (forallb (λ part, bool_decide (part ∈ AreaObservationModel.allowed))
            ((λ part, PyStr.lower (PyStr.strip part))
               <$> PyStr.split_comma value) = true) as ->; [|done].
  apply forallb_forall. intros x Hx%list_elem_of_In.
  apply list_elem_of_fmap in Hx as (part & -> & Hpart).
  apply bool_decide_eq_true_2. by apply Hall.
Qed.

(** The allowed set of the validator is the vocabulary, lower-cased. *)
Lemma in_vocabulary_allowed (part : string) :
  in_vocabulary part
  ↔ PyStr.lower (PyStr.strip part) ∈ AreaObservationModel.allowed.
Proof.
  unfold in_vocabulary, DAMPNESS_VOCABULARY, AreaObservationModel.allowed.
  rewrite elem_of_list_to_set. split.
  - intros (w & Hw & ->). revert Hw. rewrite !elem_of_cons, elem_of_nil.
    intros H. repeat (destruct H as [->|H]; [compute_done|]). done.
  - rewrite !elem_of_cons, elem_of_nil.
    intros [H|[H|[H|[H|[H|[H|[H|[]]]]]]]]; rewrite H;
      [ exists "Rising Damp" | exists "Rising Damp (Probable)"
      | exists "Penetrating Damp" | exists "Penetrating Damp (Probable)"
      | exists "Plumbing Leakage Damp"
      | exists "Plumbing Leakage Damp (Probable)"
      | exists "Not Available" ];
      (split; [compute_done|reflexivity]).
Qed.

(** C7. Strict validation rejects every document in which some area has a
    dampness text with a comma-separated component outside the vocabulary
    (compared trimmed and without regard to letter case); a dampness text
    whose components are all in the vocabulary passes the dampness
    validator; a document with the dampness text "Mold" is rejected and the
    same document with "Rising Damp, Penetrating Damp (Probable)" is
    accepted. *)
Theorem dampness_vocabulary_enforced :
  (∀ (d areas m : gmap string value) (a s part : string),
     d !! "Area_Wise_Observations" = Some (VDict areas) →
     areas !! a = Some (VDict m) →
     m !! "dampness_type" = Some (VStr s) →
     part ∈ PyStr.split_comma s →
     ¬ in_vocabulary part →
     ∃ msg, DDRReportModel.model_validate d
            = Raise (Exn ValidationError msg None))
  ∧ (∀ value,
       (∀ part, part ∈ PyStr.split_comma value → in_vocabulary part) →
       AreaObservationModel.validate_dampness_type value = Ok value)
  ∧ is_ok (DDRReportModel.model_validate
             (sample_document "Damp noted" "Mold")) = false
  ∧ is_ok (DDRReportModel.model_validate
             (sample_document "Damp noted"
                "Rising Damp, Penetrating Damp (Probable)")) = true.
Proof.
  split; [|split; [|split; by vm_compute]].
  - intros d areas m a s part Hareas Ha Hm Hpart Hbad.
    apply (unknown_dampness_rejected d areas m a s part); try done.
    by rewrite <- in_vocabulary_allowed.
  - intros value Hall. apply validate_dampness_type_accepts.
    intros part Hpart. by apply in_vocabulary_allowed, Hall.
Qed.

Lemma dampness_vocabulary_enforced_witness :
  ∃ msg, DDRReportModel.model_validate (sample_document "Damp noted" "Mold")
         = Raise (Exn ValidationError msg None).
Proof.
  destruct dampness_vocabulary_enforced as (H & _).
  apply (H _ {[ "Hall" := VDict (sample_area "Mold") ]} (sample_area "Mold")
           "Hall" "Mold" "Mold");
    [by vm_compute|by vm_compute|by vm_compute|by left|].
  rewrite in_vocabulary_allowed. by vm_compute.
Defined.

(** * Further properties *)

(** ** What the validator accepts *)

Lemma elem_of_MISSING_VALUE_ALIASES (a : string) :
  a ∈ MISSING_ALIASES ↔ a = EmptyString ∨ a ∈ MISSING_VALUE_ALIASES.
Proof.
  unfold MISSING_ALIASES, MISSING_VALUE_ALIASES.
  rewrite !elem_of_list_to_set, !elem_of_cons, !elem_of_nil. tauto.
Qed.

Lemma validate_non_empty_spec (value field_name cleaned : string) :
  _validate_non_empty value field_name = Ok cleaned ↔
  cleaned = PyStr.strip value ∧ validated_text cleaned.
Proof.
  unfold _validate_non_empty, validated_text. split.
  - repeat case_bool_decide; try done. intros [= <-].
    by rewrite strip_idemp.
  - intros (-> & Hne & _ & Hal).
    by rewrite !bool_decide_eq_false_2.
Qed.

Lemma validated_text_revalidates (s field_name : string) :
  validated_text s → _validate_non_empty s field_name = Ok s.
Proof.
  intros H. apply validate_non_empty_spec. split; [|done].
  by destruct H as (_ & -> & _).
Qed.

Lemma validated_text_normalize (s : string) :
  validated_text s → _normalize_missing_markers (VStr s) = VStr s.
Proof.
  intros (Hne & Hs & Hal). cbn [_normalize_missing_markers]. rewrite Hs.
  rewrite bool_decide_eq_false_2; [reflexivity|].
  intros [H|H]%elem_of_MISSING_VALUE_ALIASES; [|done].
  by apply (proj1 (lower_empty_iff s)) in H.
Qed.

Lemma sentinel_validated : validated_text NOT_AVAILABLE.
Proof. repeat split; by vm_compute. Qed.

Lemma traverse_dict_ok_inv {A B} (f : A → result B) (m : gmap string A)
    (r : gmap string B) :
  traverse_dict f m = Ok r →
  ∀ k y, r !! k = Some y → ∃ x, m !! k = Some x ∧ f x = Ok y.
Proof.
  unfold traverse_dict. revert r.
  apply (map_fold_weak_ind
           (λ acc m, ∀ r, acc = Ok r →
              ∀ k y, r !! k = Some y → ∃ x, m !! k = Some x ∧ f x = Ok y)).
  - by intros r [= <-] k y ?.
  - intros i x m' acc Hi IH r Hr k y Hk.
    apply rbind_ok in Hr as (r0 & -> & Hr).
    apply rbind_ok in Hr as (y' & Hy & [= <-]).
    destruct (decide (i = k)) as [->|Hne].
    + rewrite lookup_insert_eq in Hk. injection Hk as <-.
      exists x. by rewrite lookup_insert_eq.
    + rewrite lookup_insert_ne in Hk by done.
      destruct (IH r0 eq_refl k y Hk) as (x' & ? & ?).
      exists x'. by rewrite lookup_insert_ne.
Qed.

Lemma traverse_dict_complete {A B} (f : A → result B) (m : gmap string A) :
  (∀ k x, m !! k = Some x → ∃ y, f x = Ok y) →
  ∃ r, traverse_dict f m = Ok r.
Proof.
  unfold traverse_dict.
  apply (map_fold_weak_ind
           (λ acc m, (∀ k x, m !! k = Some x → ∃ y, f x = Ok y) →
                     ∃ r, acc = Ok r)).
  - by eexists.
  - intros i x m' acc Hi IH Hall.
    destruct IH as [r ->].
    { intros k x' Hk. apply (Hall k). rewrite lookup_insert_ne; [done|].
      intros ->. by rewrite Hi in Hk. }
    destruct (Hall i x) as [y Hy]; [by rewrite lookup_insert_eq|].
    cbn [rbind]. rewrite Hy. by eexists.
Qed.

Lemma check_dict_complete {A} (f : string → A → result unit)
    (m : gmap string A) :
  (∀ k x, m !! k = Some x → f k x = Ok tt) → check_dict f m = Ok tt.
Proof.
  unfold check_dict.
  apply (map_fold_weak_ind
           (λ acc m, (∀ k x, m !! k = Some x → f k x = Ok tt) → acc = Ok tt)).
  - done.
  - intros i x m' acc Hi IH Hall. rewrite IH.
    + cbn [rbind]. apply Hall. by rewrite lookup_insert_eq.
    + intros k x' Hk. apply Hall. rewrite lookup_insert_ne; [done|].
      intros ->. by rewrite Hi in Hk.
Qed.

Lemma traverse_list_ok {A B} (f : A → result B) (l : list A) (r : list B) :
  traverse_list f l = Ok r ↔ Forall2 (λ x y, f x = Ok y) l r.
Proof.
  revert r. induction l as [|x l IH]; intros r; cbn [traverse_list].
  - split; [intros [= <-]; constructor|by intros ->%Forall2_nil_inv_l].
  - split.
    + intros (y & Hy & H)%rbind_ok. apply rbind_ok in H as (ys & Hys & [= <-]).
      constructor; [done|]. by apply IH.
    + intros (y & ys & Hy & Hys & ->)%Forall2_cons_inv_l.
      rewrite Hy. cbn [rbind]. apply IH in Hys. by rewrite Hys.
Qed.

Lemma required_str_spec (m : gmap string value) (f name c : string) :
  required_str m f (λ s, _validate_non_empty s name) = Ok c ↔
  ∃ s, m !! f = Some (VStr s) ∧ c = PyStr.strip s ∧ validated_text c.
Proof.
  unfold required_str. destruct (m !! f) as [[| | | |s| |]|]; split;
    try done; try (by intros (? & ? & _)).
  - intros H%validate_non_empty_spec. by exists s.
  - intros (s' & [= <-] & H). by apply validate_non_empty_spec.
Qed.

Lemma defaulted_str_spec (m : gmap string value) (f dflt name c : string) :
  defaulted_str m f dflt (λ s, _validate_non_empty s name) = Ok c ↔
  (m !! f = None ∧ c = dflt)
  ∨ ∃ s, m !! f = Some (VStr s) ∧ c = PyStr.strip s ∧ validated_text c.
Proof.
  unfold defaulted_str. destruct (m !! f) as [[| | | |s| |]|]; split;
    try done; try (by intros [[? _]|(? & ? & _)]).
  - intros H%validate_non_empty_spec. right. by exists s.
  - intros [[? _]|(s' & [= <-] & H)]; [done|].
    by apply validate_non_empty_spec.
  - intros [= <-]. by left.
  - intros [[_ ->]|(? & ? & _)]; done.
Qed.

Lemma validate_dampness_type_spec (value out : string) :
  AreaObservationModel.validate_dampness_type value = Ok out ↔
  out = value ∧ ∀ part, part ∈ PyStr.split_comma value → in_vocabulary part.
Proof.
  split.
  - intros H. split.
    + revert H. unfold AreaObservationModel.validate_dampness_type.
      repeat case_match; by intros [= <-].
    + intros part Hpart. apply in_vocabulary_allowed.
      by eapply validate_dampness_type_ok.
  - intros [-> H]. apply validate_dampness_type_accepts.
    intros part Hpart. by apply in_vocabulary_allowed, H.
Qed.

Lemma dampness_field_spec (m : gmap string value) (c : string) :
  defaulted_str m "dampness_type" NOT_AVAILABLE
    (λ s, s' ←r AreaObservationModel.validate_strings s "dampness_type";
          AreaObservationModel.validate_dampness_type s') = Ok c ↔
  (m !! "dampness_type" = None ∧ c = NOT_AVAILABLE)
  ∨ ∃ s, m !! "dampness_type" = Some (VStr s) ∧ c = PyStr.strip s
         ∧ validated_text c
         ∧ ∀ part, part ∈ PyStr.split_comma c → in_vocabulary part.
Proof.
  unfold defaulted_str, AreaObservationModel.validate_strings.
  destruct (m !! "dampness_type") as [[| | | |s| |]|]; split;
    try done; try (by intros [[? _]|(? & ? & _)]).
  - intros (s' & [-> Hs']%validate_non_empty_spec
            & [-> Hv]%validate_dampness_type_spec)%rbind_ok.
    right. by exists s.
  - intros [[? _]|(s' & [= <-] & -> & Hs & Hv)]; [done|].
    rewrite (proj2 (validate_non_empty_spec s "dampness_type" _)) by done.
    cbn [rbind]. by apply validate_dampness_type_spec.
  - intros [= <-]. by left.
  - intros [[_ ->]|(? & ? & _)]; done.
Qed.

Lemma area_model_validate_spec (v : value) (a : AreaObservation) :
  AreaObservationModel.model_validate v = Ok a ↔
  ∃ m, v = VDict m
    ∧ required_from (m !! "inspection_observation") (inspection_observation a)
    ∧ required_from (m !! "thermal_observation") (thermal_observation a)
    ∧ required_from (m !! "merged_finding") (merged_finding a)
    ∧ defaulted_from (m !! "dampness_type") (dampness_type a)
    ∧ (∀ part, part ∈ PyStr.split_comma (dampness_type a) →
               in_vocabulary part)
    ∧ defaulted_from (m !! "inspection_evidence_ref")
        (inspection_evidence_ref a)
    ∧ defaulted_from (m !! "thermal_evidence_ref") (thermal_evidence_ref a)
    ∧ defaulted_from (m !! "conflict_note") (conflict_note a).
Proof.
  unfold AreaObservationModel.model_validate,
    AreaObservationModel.validate_strings.
  destruct v as [| | | | | |m]; try (split; [done|by intros (? & ? & _)]).
  split.
  - intros (f1 & H1%required_str_spec & H)%rbind_ok.
    apply rbind_ok in H as (f2 & H2%required_str_spec & H).
    apply rbind_ok in H as (f3 & H3%required_str_spec & H).
    apply rbind_ok in H as (f4 & H4%dampness_field_spec & H).
    apply rbind_ok in H as (f5 & H5%defaulted_str_spec & H).
    apply rbind_ok in H as (f6 & H6%defaulted_str_spec & H).
    apply rbind_ok in H as (f7 & H7%defaulted_str_spec & [= <-]).
    exists m. cbn. repeat split; try done.
    + destruct H4 as [?|(s & ? & ? & ? & _)]; [by left|right; by exists s].
    + destruct H4 as [[_ ->]|(s & _ & _ & _ & H)]; [|done].
      intros part [->|[]%elem_of_nil]%elem_of_cons.
      exists "Not Available". split; [compute_done|done].
  - intros (m' & [= <-] & H1 & H2 & H3 & H4 & Hv & H5 & H6 & H7).
    destruct a as [f1 f2 f3 f4 f5 f6 f7]. cbn in *.
    rewrite (proj2 (required_str_spec _ _ _ _) H1). cbn [rbind].
    rewrite (proj2 (required_str_spec _ _ _ _) H2). cbn [rbind].
    rewrite (proj2 (required_str_spec _ _ _ _) H3). cbn [rbind].
    rewrite (proj2 (dampness_field_spec _ f4)).
    2:{ destruct H4 as [?|(s & ? & ? & ?)]; [by left|right; by exists s]. }
    cbn [rbind].
    rewrite (proj2 (defaulted_str_spec _ _ _ _ _) H5). cbn [rbind].
    rewrite (proj2 (defaulted_str_spec _ _ _ _ _) H6). cbn [rbind].
    by rewrite (proj2 (defaulted_str_spec _ _ _ _ _) H7).
Qed.

(** X1. [AreaObservation.model_validate] accepts exactly the mappings in
    which the three observation fields are texts that, trimmed, are
    non-empty and no missing alias, the four other fields are absent or
    such texts, and every comma-separated part of the dampness text is in
    the vocabulary. The model holds the trimmed texts, and the sentinel for
    an absent field. *)
Theorem area_observation_accepts_exactly (v : value) (a : AreaObservation) :
  AreaObservationModel.model_validate v = Ok a ↔
  ∃ m, v = VDict m
    ∧ required_from (m !! "inspection_observation") (inspection_observation a)
    ∧ required_from (m !! "thermal_observation") (thermal_observation a)
    ∧ required_from (m !! "merged_finding") (merged_finding a)
    ∧ defaulted_from (m !! "dampness_type") (dampness_type a)
    ∧ (∀ part, part ∈ PyStr.split_comma (dampness_type a) →
               in_vocabulary part)
    ∧ defaulted_from (m !! "inspection_evidence_ref")
        (inspection_evidence_ref a)
    ∧ defaulted_from (m !! "thermal_evidence_ref") (thermal_evidence_ref a)
    ∧ defaulted_from (m !! "conflict_note") (conflict_note a).
Proof. apply area_model_validate_spec. Qed.

Lemma matches_severity_label (s : string) :
  matches_label SEVERITY_LABELS s ↔
  PyStr.lower (PyStr.strip s)
  ∈ (list_to_set [ "low"; "low to moderate"; "moderate"; "moderate to high";
                   "high"; "not available" ] : gset string).
Proof.
  unfold matches_label, SEVERITY_LABELS. rewrite elem_of_list_to_set. split.
  - intros (w & Hw & ->). revert Hw. rewrite !elem_of_cons, elem_of_nil.
    intros H. repeat (destruct H as [->|H]; [compute_done|]). done.
  - rewrite !elem_of_cons, elem_of_nil.
    intros [H|[H|[H|[H|[H|[H|[]]]]]]]; rewrite H;
      [ exists "Low" | exists "Low to Moderate" | exists "Moderate"
      | exists "Moderate to High" | exists "High" | exists "Not Available" ];
      (split; [compute_done|reflexivity]).
Qed.

Lemma matches_confidence_label (s : string) :
  matches_label CONFIDENCE_LABELS s ↔
  PyStr.lower (PyStr.strip s)
  ∈ (list_to_set [ "high"; "medium"; "low"; "not available" ] : gset string).
Proof.
  unfold matches_label, CONFIDENCE_LABELS. rewrite elem_of_list_to_set. split.
  - intros (w & Hw & ->). revert Hw. rewrite !elem_of_cons, elem_of_nil.
    intros H. repeat (destruct H as [->|H]; [compute_done|]). done.
  - rewrite !elem_of_cons, elem_of_nil.
    intros [H|[H|[H|[H|[]]]]]; rewrite H;
      [ exists "High" | exists "Medium" | exists "Low"
      | exists "Not Available" ];
      (split; [compute_done|reflexivity]).
Qed.

Lemma validate_overall_severity_spec (value out : string) :
  SeverityAssessmentModel.validate_overall_severity value = Ok out ↔
  out = value ∧ matches_label SEVERITY_LABELS value.
Proof.
  unfold SeverityAssessmentModel.validate_overall_severity.
  rewrite matches_severity_label. case_bool_decide; split; try done.
  - by intros [= <-].
  - by intros [-> _].
  - by intros [_ ?].
Qed.

Lemma validate_confidence_level_spec (value out : string) :
  SeverityAssessmentModel.validate_confidence_level value = Ok out ↔
  out = value ∧ matches_label CONFIDENCE_LABELS value.
Proof.
  unfold SeverityAssessmentModel.validate_confidence_level.
  rewrite matches_confidence_label. case_bool_decide; split; try done.
  - by intros [= <-].
  - by intros [-> _].
  - by intros [_ ?].
Qed.

Lemma labelled_field_spec (m : gmap string value) (f c : string)
    (check : string → result string) (labels : list string) :
  (∀ value out, check value = Ok out ↔
                out = value ∧ matches_label labels value) →
  required_str m f (λ s, s' ←r SeverityAssessmentModel.validate_strings s f;
                         check s') = Ok c ↔
  required_from (m !! f) c ∧ matches_label labels c.
Proof.
  intros Hcheck.
  unfold required_str, required_from, SeverityAssessmentModel.validate_strings.
  destruct (m !! f) as [[| | | |s| |]|]; split;
    try done; try (by intros [(? & ? & _) _]).
  - intros (s' & [-> Hs']%validate_non_empty_spec & [-> Hv]%Hcheck)%rbind_ok.
    split; [by exists s|done].
  - intros [(s' & [= <-] & -> & Hs) Hv].
    rewrite (proj2 (validate_non_empty_spec s f _)) by done.
    cbn [rbind]. by apply Hcheck.
Qed.

Lemma severity_model_validate_spec (v : value) (sev : SeverityAssessment) :
  SeverityAssessmentModel.model_validate v = Ok sev ↔
  ∃ m, v = VDict m
    ∧ required_from (m !! "overall_severity") (overall_severity sev)
    ∧ matches_label SEVERITY_LABELS (overall_severity sev)
    ∧ required_from (m !! "reasoning") (reasoning sev)
    ∧ required_from (m !! "Confidence_Level") (Confidence_Level sev)
    ∧ matches_label CONFIDENCE_LABELS (Confidence_Level sev)
    ∧ required_from (m !! "Confidence_Reasoning") (Confidence_Reasoning sev).
Proof.
  unfold SeverityAssessmentModel.model_validate.
  destruct v as [| | | | | |m]; try (split; [done|by intros (? & ? & _)]).
  pose proof (labelled_field_spec m "overall_severity") as Hsev.
  pose proof (labelled_field_spec m "Confidence_Level") as Hconf.
  split.
  - intros (f1 & H1 & H)%rbind_ok.
    apply (Hsev _ _ _ validate_overall_severity_spec) in H1 as [H1 H1'].
    apply rbind_ok in H as (f2 & H2%required_str_spec & H).
    apply rbind_ok in H as (f3 & H3 & H).
    apply (Hconf _ _ _ validate_confidence_level_spec) in H3 as [H3 H3'].
    apply rbind_ok in H as (f4 & H4%required_str_spec & [= <-]).
    exists m. by cbn.
  - intros (m' & [= <-] & H1 & H1' & H2 & H3 & H3' & H4).
    destruct sev as [f1 f2 f3 f4]. cbn in *.
    rewrite (proj2 (Hsev f1 _ _ validate_overall_severity_spec)) by done.
    cbn [rbind].
    unfold SeverityAssessmentModel.validate_strings at 1.
    rewrite (proj2 (required_str_spec _ _ _ _) H2). cbn [rbind].
    rewrite (proj2 (Hconf f3 _ _ validate_confidence_level_spec)) by done.
    cbn [rbind]. unfold SeverityAssessmentModel.validate_strings.
    by rewrite (proj2 (required_str_spec _ _ _ _) H4).
Qed.

Lemma check_area_key_spec (key : string) (a : AreaObservation) :
  DDRReportModel.check_area_key key a = Ok tt ↔
  PyStr.strip key ≠ EmptyString
  ∧ ¬ (PyStr.lower (PyStr.strip key) = "general"
       ∧ PyStr.strip (inspection_observation a) = NOT_AVAILABLE
       ∧ PyStr.strip (thermal_observation a) = NOT_AVAILABLE
       ∧ PyStr.strip (merged_finding a) = NOT_AVAILABLE).
Proof.
  unfold DDRReportModel.check_area_key.
  destruct (decide (PyStr.strip key = EmptyString)) as [Hk|Hk].
  { rewrite (bool_decide_eq_true_2 (PyStr.strip key = EmptyString)) by done.
    rewrite orb_true_r. split; [done|by intros [? _]]. }
  rewrite (bool_decide_eq_false_2 (PyStr.strip key = EmptyString)) by done.
  rewrite bool_decide_eq_false_2.
  2:{ intros ->. by apply Hk. }
  cbn [orb]. repeat case_bool_decide; cbn [andb]; split; try done;
    try (intros _; split; [done|]; by intros (? & ? & ? & ?)).
  intros [_ Hn]. by destruct Hn.
Qed.

Lemma validate_missing_info_list_spec (value out : list string) :
  DDRReportModel.validate_missing_info_list value = Ok out ↔
  out = PyStr.strip <$> value
  ∧ Forall (λ item, PyStr.strip item ≠ EmptyString) value.
Proof.
  unfold DDRReportModel.validate_missing_info_list.
  rewrite traverse_list_ok. revert out.
  induction value as [|x l IH]; intros out.
  - split; [by intros ->%Forall2_nil_inv_l|intros [-> _]; constructor].
  - split.
    + intros (y & ys & Hy & Hys & ->)%Forall2_cons_inv_l.
      apply IH in Hys as [-> Hl]. case_bool_decide; [done|].
      injection Hy as <-. split; [done|by constructor].
    + intros [-> [Hx Hl]%Forall_cons]. rewrite fmap_cons. constructor.
      * by rewrite bool_decide_eq_false_2.
      * by apply IH.
Qed.

Lemma missing_info_field_spec (m : gmap string value) (out : list string) :
  DDRReportModel.missing_info_field m = Ok out ↔
  ∃ items texts,
    m !! "Missing_or_Unclear_Information" = Some (VList items)
    ∧ items = VStr <$> texts
    ∧ out = PyStr.strip <$> texts
    ∧ Forall (λ item, PyStr.strip item ≠ EmptyString) texts.
Proof.
  unfold DDRReportModel.missing_info_field.
  destruct (m !! _) as [[| | | | |items|]|];
    try (split; [done|by intros (? & ? & ? & _)]).
  split.
  - intros (texts & Ht%traverse_list_ok
            & [-> Hout]%validate_missing_info_list_spec)%rbind_ok.
    exists items, texts. repeat split; try done.
    clear Hout. induction Ht as [|x y l l' Hx _ IH]; [done|].
    rewrite fmap_cons, <- IH. by destruct x; try done; injection Hx as ->.
  - intros (items' & texts & [= <-] & -> & -> & Hall).
    assert (traverse_list as_str (VStr <$> texts) = Ok texts) as ->.
    { apply traverse_list_ok. clear. induction texts; by constructor. }
    cbn [rbind]. by apply validate_missing_info_list_spec.
Qed.

Lemma areas_field_spec (m : gmap string value)
    (typed : gmap string AreaObservation) :
  DDRReportModel.areas_field m = Ok typed ↔
  ∃ areas,
    m !! "Area_Wise_Observations" = Some (VDict areas)
    ∧ traverse_dict AreaObservationModel.model_validate areas = Ok typed
    ∧ ∀ key a, typed !! key = Some a →
               DDRReportModel.check_area_key key a = Ok tt.
Proof.
  unfold DDRReportModel.areas_field,
    DDRReportModel.validate_area_observations.
  destruct (m !! _) as [[| | | | | |areas]|];
    try (split; [done|by intros (? & ? & _)]).
  split.
  - intros (typed' & Ht & H)%rbind_ok.
    apply rbind_ok in H as ([] & Hc & [= <-]).
    exists areas. split; [done|]. split; [done|].
    by apply check_dict_ok.
  - intros (areas' & [= <-] & -> & Hc). cbn [rbind].
    by rewrite check_dict_complete.
Qed.

(** X2. [SeverityAssessment.model_validate] accepts exactly the mappings
    whose four fields are texts that, trimmed, are non-empty and no missing
    alias, with a severity and a confidence level that are labels of their
    scales up to case. The model holds the trimmed texts. *)
Theorem severity_assessment_accepts_exactly (v : value)
    (sev : SeverityAssessment) :
  SeverityAssessmentModel.model_validate v = Ok sev ↔
  ∃ m, v = VDict m
    ∧ required_from (m !! "overall_severity") (overall_severity sev)
    ∧ matches_label SEVERITY_LABELS (overall_severity sev)
    ∧ required_from (m !! "reasoning") (reasoning sev)
    ∧ required_from (m !! "Confidence_Level") (Confidence_Level sev)
    ∧ matches_label CONFIDENCE_LABELS (Confidence_Level sev)
    ∧ required_from (m !! "Confidence_Reasoning") (Confidence_Reasoning sev).
Proof. apply severity_model_validate_spec. Qed.

Lemma core_string_field_spec (m : gmap string value) (name c : string) :
  DDRReportModel.core_string_field m name = Ok c ↔ required_from (m !! name) c.
Proof.
  unfold DDRReportModel.core_string_field,
    DDRReportModel.validate_core_strings.
  apply required_str_spec.
Qed.

Lemma validate_fields_spec (m : gmap string value) (r : DDRReport) :
  DDRReportModel.validate_fields m = Ok r ↔
  required_from (m !! "Property_Issue_Summary") (Property_Issue_Summary r)
  ∧ DDRReportModel.areas_field m = Ok (Area_Wise_Observations r)
  ∧ required_from (m !! "Probable_Root_Cause") (Probable_Root_Cause r)
  ∧ DDRReportModel.severity_field m = Ok (Severity_Assessment r)
  ∧ required_from (m !! "Recommended_Actions") (Recommended_Actions r)
  ∧ required_from (m !! "Risk_Implications") (Risk_Implications r)
  ∧ required_from (m !! "Additional_Notes") (Additional_Notes r)
  ∧ DDRReportModel.missing_info_field m
    = Ok (Missing_or_Unclear_Information r).
Proof.
  unfold DDRReportModel.validate_fields. split.
  - intros (f1 & H1%core_string_field_spec & H)%rbind_ok.
    apply rbind_ok in H as (f2 & H2 & H).
    apply rbind_ok in H as (f3 & H3%core_string_field_spec & H).
    apply rbind_ok in H as (f4 & H4 & H).
    apply rbind_ok in H as (f5 & H5%core_string_field_spec & H).
    apply rbind_ok in H as (f6 & H6%core_string_field_spec & H).
    apply rbind_ok in H as (f7 & H7%core_string_field_spec & H).
    apply rbind_ok in H as (f8 & H8 & [= <-]). by cbn.
  - destruct r as [f1 f2 f3 f4 f5 f6 f7 f8]. cbn.
    intros (H1 & -> & H3 & -> & H5 & H6 & H7 & ->).
    rewrite (proj2 (core_string_field_spec _ _ _) H1). cbn [rbind].
    rewrite (proj2 (core_string_field_spec _ _ _) H3). cbn [rbind].
    rewrite (proj2 (core_string_field_spec _ _ _) H5). cbn [rbind].
    rewrite (proj2 (core_string_field_spec _ _ _) H6). cbn [rbind].
    by rewrite (proj2 (core_string_field_spec _ _ _) H7).
Qed.

Lemma model_validate_spec (m : gmap string value) (r : DDRReport) :
  DDRReportModel.model_validate m = Ok r ↔
  DDRReportModel.validate_fields m = Ok r.
Proof.
  unfold DDRReportModel.model_validate.
  destruct (DDRReportModel.validate_fields m); split; congruence.
Qed.

Lemma required_from_validated (o : option value) (c : string) :
  required_from o c → validated_text c.
Proof. by intros (s & _ & _ & ?). Qed.

Lemma defaulted_from_validated (o : option value) (c : string) :
  defaulted_from o c → validated_text c.
Proof.
  intros [[_ ->]|H]; [apply sentinel_validated|].
  by eapply required_from_validated.
Qed.

Lemma validated_area_wellformed (v : value) (a : AreaObservation) :
  AreaObservationModel.model_validate v = Ok a → area_wellformed a.
Proof.
  intros (m & _ & H1 & H2 & H3 & H4 & Hv & H5 & H6 & H7)%area_model_validate_spec.
  unfold area_wellformed. split_and!;
    try (by eapply required_from_validated);
    try (by eapply defaulted_from_validated);
    try (by eapply required_from_validated, H1);
    try (by eapply required_from_validated, H2);
    try (by eapply required_from_validated, H3);
    try (by eapply defaulted_from_validated, H4);
    try (by eapply defaulted_from_validated, H5);
    try (by eapply defaulted_from_validated, H6);
    try (by eapply defaulted_from_validated, H7).
  exact Hv.
Qed.

Lemma validated_text_strip (s : string) : validated_text s → PyStr.strip s = s.
Proof. by intros (_ & ? & _). Qed.

(** Every report that leaves the validator is well-formed. *)
Lemma validated_report_wellformed_aux (m : gmap string value) (r : DDRReport) :
  DDRReportModel.model_validate m = Ok r → report_wellformed r.
Proof.
  intros (H1 & H2 & H3 & H4 & H5 & H6 & H7 & H8)
    %model_validate_spec%validate_fields_spec.
  apply areas_field_spec in H2 as (areas & _ & Ht & Hc).
  unfold DDRReportModel.severity_field in H4.
  destruct (m !! "Severity_Assessment") as [v|]; [|done].
  apply severity_model_validate_spec
    in H4 as (ms & _ & S1 & S1' & S2 & S3 & S3' & S4).
  apply missing_info_field_spec in H8 as (items & texts & _ & _ & Hout & Hall).
  unfold report_wellformed, severity_wellformed.
  split_and!; try (by eapply required_from_validated);
    try (by eapply required_from_validated, H1);
    try (by eapply required_from_validated, H3);
    try (by eapply required_from_validated, H5);
    try (by eapply required_from_validated, H6);
    try (by eapply required_from_validated, H7);
    try (by eapply required_from_validated, S1);
    try (by eapply required_from_validated, S2);
    try (by eapply required_from_validated, S3);
    try (by eapply required_from_validated, S4);
    try done.
  - intros name a Ha.
    destruct (traverse_dict_ok_inv _ _ _ Ht _ _ Ha) as (x & _ & Hx).
    pose proof (validated_area_wellformed _ _ Hx) as Hwf.
    apply Hc, check_area_key_spec in Ha as [Hname Hph].
    split; [done|]. split; [done|].
    intros Hgen (Hio & Hto & Hmf). apply Hph.
    by rewrite Hio, Hto, Hmf.
  - rewrite Hout. clear Hout. induction Hall as [|x l Hx _ IH]; [constructor|].
    rewrite fmap_cons. constructor; [|done]. split; [done|apply strip_idemp].
Qed.

(** X3. Every report that [DDRReport.model_validate] returns is
    well-formed: its texts are non-empty, trimmed and no missing alias; no
    area name is blank and no area named general, in any spelling, is a
    placeholder; dampness, severity and confidence are in their
    vocabularies; the missing-information items are non-empty and
    trimmed. *)
Theorem validated_report_is_wellformed (m : gmap string value)
    (r : DDRReport) :
  DDRReportModel.model_validate m = Ok r → report_wellformed r.
Proof. apply validated_report_wellformed_aux. Qed.

(** ** Coercion of valid documents *)

Lemma required_from_normalize (o : option value) (c : string) :
  required_from o c → required_from (_normalize_missing_markers <$> o) c.
Proof.
  intros (s & -> & -> & Hc). exists (PyStr.strip s).
  split; [|by rewrite strip_idemp].
  cbn [fmap option_fmap option_map]. f_equal.
  destruct (normalize_str_cases s) as [[Hal _]|[_ ->]]; [|done].
  exfalso. destruct Hc as (Hne & _ & Hc).
  apply elem_of_MISSING_VALUE_ALIASES in Hal as [Hal|Hal]; [|done].
  by apply (proj1 (lower_empty_iff _)) in Hal.
Qed.

Lemma validated_report_is_wellformed_witness :
  DDRReportModel.model_validate
    (sample_document "Damp in the hall" "Rising Damp")
  = Ok (sample_report "Damp in the hall" "Rising Damp")
  ∧ report_wellformed (sample_report "Damp in the hall" "Rising Damp").
Proof.
  split; [vm_compute; reflexivity|].
  apply (validated_report_is_wellformed
           (sample_document "Damp in the hall" "Rising Damp")).
  vm_compute; reflexivity.
Defined.

Lemma backfilled_required (fields : list string) (m : gmap string value)
    (f c : string) :
  f ∈ fields → defaulted_from (m !! f) c →
  required_from
    ((_normalize_missing_markers <$>
        backfill fields (_normalize_missing_markers <$> m)) !! f) c.
Proof.
  intros Hf Hc. rewrite lookup_fmap, backfill_lookup, decide_True by done.
  rewrite lookup_fmap. destruct Hc as [[-> ->]|Hc].
  - exists NOT_AVAILABLE. split; [done|]. split; [done|].
    apply sentinel_validated.
  - apply required_from_normalize in Hc.
    destruct Hc as (s & Hs & Hc). rewrite Hs.
    cbn [default fmap option_fmap option_map].
    apply (required_from_normalize (Some (VStr s))). by exists s.
Qed.

Lemma required_defaulted (o : option value) (c : string) :
  required_from o c → defaulted_from o c.
Proof. by right. Qed.

Lemma backfilled_other (fields : list string) (m : gmap string value)
    (f c : string) :
  f ∈ fields → defaulted_from (m !! f) c →
  defaulted_from
    ((_normalize_missing_markers <$>
        backfill fields (_normalize_missing_markers <$> m)) !! f) c.
Proof. intros. by apply required_defaulted, backfilled_required. Qed.

(** An accepted area is accepted again, with the same result, after the
    coercer has normalized and backfilled it. *)
Lemma coerce_area_revalidates (x : value) (a : AreaObservation) :
  AreaObservationModel.model_validate x = Ok a →
  AreaObservationModel.model_validate
    (coerce_area (_normalize_missing_markers x)) = Ok a.
Proof.
  intros (m & -> & H1 & H2 & H3 & H4 & Hv & H5 & H6 & H7)
    %area_model_validate_spec.
  apply area_model_validate_spec. eexists. split; [reflexivity|].
  split_and!; try done;
    try (apply backfilled_required; [compute_done|by apply required_defaulted]);
    try (apply backfilled_other; [compute_done|done]).
Qed.

Lemma traverse_dict_fmap {A B} (f : A → result B) (g : A → A)
    (m : gmap string A) (r : gmap string B) :
  traverse_dict f m = Ok r →
  (∀ k x y, m !! k = Some x → f x = Ok y → f (g x) = Ok y) →
  traverse_dict f (g <$> m) = Ok r.
Proof.
  intros Hm Hg.
  destruct (traverse_dict_complete f (g <$> m)) as [r' Hr'].
  { intros k x'. rewrite lookup_fmap.
    destruct (m !! k) as [x|] eqn:Hk; [|done]. intros [= <-].
    destruct (traverse_dict_ok _ _ _ Hm _ _ Hk) as (y & Hy & _).
    exists y. by eapply Hg. }
  rewrite Hr'. f_equal. apply map_eq. intros k.
  destruct (m !! k) as [x|] eqn:Hk.
  - destruct (traverse_dict_ok _ _ _ Hm _ _ Hk) as (y & Hy & ->).
    destruct (traverse_dict_ok _ _ _ Hr' k (g x)) as (y' & Hy' & ->).
    { by rewrite lookup_fmap, Hk. }
    rewrite (Hg _ _ _ Hk Hy) in Hy'. by injection Hy' as <-.
  - destruct (r' !! k) as [y'|] eqn:Hy'.
    { destruct (traverse_dict_ok_inv _ _ _ Hr' _ _ Hy') as (x' & Hx' & _).
      by rewrite lookup_fmap, Hk in Hx'. }
    destruct (r !! k) as [y|] eqn:Hy; [|done].
    destruct (traverse_dict_ok_inv _ _ _ Hm _ _ Hy) as (x & Hx & _).
    by rewrite Hk in Hx.
Qed.

(** Areas that pass the validator hold no placeholder for the coercer to
    drop. *)
Lemma typed_no_placeholder (areas : gmap string value)
    (typed : gmap string AreaObservation) :
  traverse_dict AreaObservationModel.model_validate areas = Ok typed →
  (∀ key a, typed !! key = Some a →
            DDRReportModel.check_area_key key a = Ok tt) →
  drop_placeholder_general areas = areas.
Proof.
  intros Ht Hc. unfold drop_placeholder_general.
  destruct (areas !! "General") as [[| | | | | |g]|] eqn:Hg; try done.
  destruct (_ && _) eqn:Hp; [exfalso|done].
  apply andb_true_iff in Hp as [Hp H3]. apply andb_true_iff in Hp as [H1 H2].
  apply get_equals_true in H1, H2, H3.
  destruct (traverse_dict_ok _ _ _ Ht _ _ Hg) as (a & Ha & Hlook).
  apply Hc, check_area_key_spec in Hlook as [_ Hph]. apply Hph.
  apply area_model_validate_spec in Ha
    as (m & [= <-] & (s1 & E1 & -> & _) & (s2 & E2 & -> & _)
        & (s3 & E3 & -> & _) & _).
  rewrite H1 in E1. rewrite H2 in E2. rewrite H3 in E3.
  injection E1 as <-. injection E2 as <-. injection E3 as <-.
  by vm_compute.
Qed.

Lemma repair_missing_spec (texts : list string) :
  Forall (λ item, PyStr.strip item ≠ EmptyString) texts →
  ∃ texts',
    match texts with
    | [] => [VStr NOT_AVAILABLE]
    | _ => _normalize_missing_markers <$> (VStr <$> texts)
    end = VStr <$> texts'
    ∧ repair_missing (PyStr.strip <$> texts) = PyStr.strip <$> texts'
    ∧ Forall (λ item, PyStr.strip item ≠ EmptyString) texts'.
Proof.
  intros Hall. destruct texts as [|t ts].
  { exists [NOT_AVAILABLE]. split; [done|]. split; [done|].
    constructor; [by vm_compute|constructor]. }
  set (one := λ t, if bool_decide (PyStr.lower (PyStr.strip t) ∈ MISSING_ALIASES)
                   then NOT_AVAILABLE else PyStr.strip t).
  exists (one <$> (t :: ts)).
  change (repair_missing (PyStr.strip <$> t :: ts))
    with ((λ item, if bool_decide (PyStr.lower item ∈ MISSING_ALIASES)
                   then NOT_AVAILABLE else item) <$> (PyStr.strip <$> t :: ts)).
  generalize dependent (t :: ts). clear t ts. intros l Hall.
  induction Hall as [|x l Hx Hl (IH1 & IH2 & IH3)]; [done|].
  rewrite !fmap_cons. split_and!.
  - f_equal; [|done]. cbn [_normalize_missing_markers]. unfold one.
    by case_bool_decide.
  - f_equal; [|done]. unfold one. case_bool_decide; [done|].
    by rewrite strip_idemp.
  - constructor; [|done]. unfold one. case_bool_decide; [by vm_compute|].
    by rewrite strip_idemp.
Qed.

Lemma coerce_lookup_text (data : gmap string value) (k : string) :
  k ∈ [ "Property_Issue_Summary"; "Probable_Root_Cause";
        "Recommended_Actions"; "Risk_Implications"; "Additional_Notes" ] →
  _coerce_to_schema_shape data !! k
  = Some (match data !! k with
          | Some v => _normalize_missing_markers v
          | None => VStr NOT_AVAILABLE
          end).
Proof.
  rewrite !elem_of_cons, elem_of_nil. intros H. rewrite coerce_lookup.
  repeat (destruct H as [->|H];
          [rewrite !decide_False by done; by rewrite decide_True by compute_done|]).
  done.
Qed.

Lemma coerce_text_revalidates (d : gmap string value) (k c : string) :
  k ∈ [ "Property_Issue_Summary"; "Probable_Root_Cause";
        "Recommended_Actions"; "Risk_Implications"; "Additional_Notes" ] →
  required_from (d !! k) c →
  required_from (_coerce_to_schema_shape d !! k) c.
Proof.
  intros Hk Hc. rewrite (coerce_lookup_text _ _ Hk).
  apply required_from_normalize in Hc.
  destruct (d !! k) as [v|]; [done|]. by destruct Hc as (? & ? & _).
Qed.

Lemma coerce_severity_revalidates (d : gmap string value)
    (sev : SeverityAssessment) :
  DDRReportModel.severity_field d = Ok sev →
  DDRReportModel.severity_field (_coerce_to_schema_shape d) = Ok sev.
Proof.
  unfold DDRReportModel.severity_field. rewrite coerce_lookup_severity.
  destruct (d !! "Severity_Assessment") as [v|]; [|done].
  intros (m & -> & S1 & S1' & S2 & S3 & S3' & S4)%severity_model_validate_spec.
  apply severity_model_validate_spec. eexists. split; [reflexivity|].
  split_and!; try done;
    (apply backfilled_required; [compute_done|by apply required_defaulted]).
Qed.

Lemma coerce_areas_revalidate (d : gmap string value)
    (typed : gmap string AreaObservation) :
  DDRReportModel.areas_field d = Ok typed →
  DDRReportModel.areas_field (_coerce_to_schema_shape d) = Ok typed.
Proof.
  intros (areas & Hareas & Ht & Hc)%areas_field_spec.
  apply areas_field_spec. rewrite coerce_lookup_areas, Hareas.
  assert (traverse_dict AreaObservationModel.model_validate
            (coerce_area <$> (_normalize_missing_markers <$> areas))
          = Ok typed) as Ht'.
  { rewrite <- map_fmap_compose. apply traverse_dict_fmap; [done|].
    intros k x a _ Hx. by apply coerce_area_revalidates. }
  eexists. split; [reflexivity|].
  by rewrite (typed_no_placeholder _ _ Ht' Hc).
Qed.

Lemma coerce_missing_revalidates (d : gmap string value) (out : list string) :
  DDRReportModel.missing_info_field d = Ok out →
  DDRReportModel.missing_info_field (_coerce_to_schema_shape d)
  = Ok (repair_missing out).
Proof.
  intros (items & texts & Hd & -> & -> & Hall)%missing_info_field_spec.
  apply missing_info_field_spec. rewrite coerce_lookup_missing, Hd.
  destruct (repair_missing_spec texts Hall) as (texts' & H1 & H2 & H3).
  exists (VStr <$> texts'), texts'. split_and!; try done.
  f_equal. rewrite <- H1. by destruct texts.
Qed.

(** X5. Coercion keeps a valid document valid: when the validator accepts
    a document it also accepts the coerced document, and returns the same
    report but for the missing-information list, in which a missing alias
    has become the sentinel. *)
Theorem coerce_preserves_validity (d : gmap string value) (r : DDRReport) :
  DDRReportModel.model_validate d = Ok r →
  DDRReportModel.model_validate (_coerce_to_schema_shape d)
  = Ok (mkDDRReport
          (Property_Issue_Summary r) (Area_Wise_Observations r)
          (Probable_Root_Cause r) (Severity_Assessment r)
          (Recommended_Actions r) (Risk_Implications r) (Additional_Notes r)
          (repair_missing (Missing_or_Unclear_Information r))).
Proof.
  intros (H1 & H2 & H3 & H4 & H5 & H6 & H7 & H8)
    %model_validate_spec%validate_fields_spec.
  apply model_validate_spec, validate_fields_spec. cbn.
  split_and!;
    try (apply coerce_text_revalidates; [compute_done|done]).
  - by apply coerce_areas_revalidate.
  - by apply coerce_severity_revalidates.
  - by apply coerce_missing_revalidates.
Qed.

Lemma coerce_preserves_validity_witness :
  DDRReportModel.model_validate
    (_coerce_to_schema_shape
       (sample_document "Damp in the hall" "Rising Damp"))
  = Ok (sample_report "Damp in the hall" "Rising Damp").
Proof.
  apply (coerce_preserves_validity
           (sample_document "Damp in the hall" "Rising Damp")
           (sample_report "Damp in the hall" "Rising Damp")).
  vm_compute; reflexivity.
Defined.

(** ** Rejected vocabularies and area names *)

Lemma model_validate_raises (d : gmap string value) :
  (∃ r, DDRReportModel.model_validate d = Ok r)
  ∨ ∃ msg, DDRReportModel.model_validate d
           = Raise (Exn ValidationError msg None).
Proof.
  unfold DDRReportModel.model_validate.
  destruct (DDRReportModel.validate_fields d); [left|right]; by eexists.
Qed.

Lemma matches_label_strip (labels : list string) (s : string) :
  matches_label labels (PyStr.strip s) ↔ matches_label labels s.
Proof. unfold matches_label. by rewrite strip_idemp. Qed.

(** X4. A document whose [overall_severity] is a text outside the severity
    scale, or whose [Confidence_Level] is a text outside the confidence
    scale, is rejected with a [ValidationError]. *)
Theorem severity_vocabulary_enforced
    (d m : gmap string value) (s : string) :
  d !! "Severity_Assessment" = Some (VDict m) →
  (m !! "overall_severity" = Some (VStr s)
   ∧ ¬ matches_label SEVERITY_LABELS s)
  ∨ (m !! "Confidence_Level" = Some (VStr s)
     ∧ ¬ matches_label CONFIDENCE_LABELS s) →
  ∃ msg, DDRReportModel.model_validate d
         = Raise (Exn ValidationError msg None).
Proof.
  intros Hd Hbad. destruct (model_validate_raises d) as [[r Hr]|]; [|done].
  exfalso.
  apply model_validate_spec, validate_fields_spec in Hr
    as (_ & _ & _ & H4 & _).
  unfold DDRReportModel.severity_field in H4. rewrite Hd in H4.
  apply severity_model_validate_spec
    in H4 as (m' & [= <-] & S1 & S1' & _ & S3 & S3' & _).
  destruct Hbad as [[Hs Hbad]|[Hs Hbad]]; apply Hbad.
  - destruct S1 as (s' & E & Hc & _). rewrite Hs in E. injection E as <-.
    rewrite Hc in S1'. by apply matches_label_strip.
  - destruct S3 as (s' & E & Hc & _). rewrite Hs in E. injection E as <-.
    rewrite Hc in S3'. by apply matches_label_strip.
Qed.

Lemma severity_vocabulary_enforced_witness :
  ∃ msg, DDRReportModel.model_validate severe_document
         = Raise (Exn ValidationError msg None).
Proof.
  apply (severity_vocabulary_enforced severe_document
           {[ "overall_severity" := VStr "Severe";
              "reasoning" := VStr "Wide damp patches";
              "Confidence_Level" := VStr "High";
              "Confidence_Reasoning" := VStr "Thermal confirmation" ]}
           "Severe").
  - vm_compute; reflexivity.
  - left. split; [vm_compute; reflexivity|].
    rewrite matches_severity_label. vm_compute. discriminate.
Defined.

Lemma drop_placeholder_general_lookup_ne (areas : gmap string value)
    (k : string) :
  k ≠ "General" → drop_placeholder_general areas !! k = areas !! k.
Proof.
  intros Hk. unfold drop_placeholder_general.
  destruct (areas !! "General") as [[| | | | | |g]|]; try done.
  destruct (_ && _); [|done]. by rewrite lookup_delete_ne.
Qed.

Lemma normalize_dict_inv (v : value) (m : gmap string value) :
  _normalize_missing_markers v = VDict m →
  ∃ g, v = VDict g ∧ m = _normalize_missing_markers <$> g.
Proof.
  destruct v as [| | | |s| |g]; try done.
  - cbn. by case_bool_decide.
  - intros [= <-]. by exists g.
Qed.

Lemma backfilled_normalizes (g : gmap string value) (f : string) :
  f ∈ AREA_FIELDS →
  (_normalize_missing_markers <$>
     backfill AREA_FIELDS (_normalize_missing_markers <$> g)) !! f
  = Some (match g !! f with
          | Some x => _normalize_missing_markers x
          | None => VStr NOT_AVAILABLE
          end).
Proof.
  intros Hf. rewrite lookup_fmap, backfill_lookup, decide_True by done.
  rewrite lookup_fmap. destruct (g !! f) as [x|]; [|done].
  simpl. by rewrite normalize_idemp.
Qed.

(** The substantive fields of a coerced placeholder entry are the
    sentinel. *)
Lemma coerce_placeholder_entry (v : value) (f : string) :
  placeholder_entry v → f ∈ SUBSTANTIVE_FIELDS →
  ∃ m, coerce_area (_normalize_missing_markers v) = VDict m
       ∧ m !! f = Some (VStr NOT_AVAILABLE).
Proof.
  intros Hv Hf.
  assert (f ∈ AREA_FIELDS) as Hf'.
  { revert Hf. unfold SUBSTANTIVE_FIELDS, AREA_FIELDS.
    rewrite !elem_of_cons. tauto. }
  assert (sentinel_area !! f = Some (VStr NOT_AVAILABLE)) as Hs.
  { revert Hf. unfold SUBSTANTIVE_FIELDS. rewrite !elem_of_cons, elem_of_nil.
    intros [->|[->|[->|[]]]]; reflexivity. }
  destruct v as [| | | |s| |g];
    try (exists sentinel_area; split; [reflexivity|exact Hs]).
  - exists sentinel_area. split; [|exact Hs]. cbn. by case_bool_decide.
  - eexists. split; [reflexivity|]. rewrite backfilled_normalizes by done.
    destruct (Hv f Hf) as [->|(x & -> & Hx)]; [done|]. by rewrite Hx.
Qed.

(** X6. A document with a blank area name, or with a placeholder area
    named general in a spelling other than [General], is rejected by the
    validator also after the coercion: the coercer removes a placeholder
    area only under that exact name. *)
Theorem coerce_keeps_rejected_area_names
    (data areas : gmap string value) (name : string) (v : value) :
  data !! "Area_Wise_Observations" = Some (VDict areas) →
  areas !! name = Some v →
  PyStr.strip name = EmptyString
  ∨ (name ≠ "General" ∧ PyStr.lower (PyStr.strip name) = "general"
     ∧ placeholder_entry v) →
  ∃ msg, DDRReportModel.model_validate (_coerce_to_schema_shape data)
         = Raise (Exn ValidationError msg None).
Proof.
  intros Hdata Hname Hbad.
  destruct (model_validate_raises (_coerce_to_schema_shape data))
    as [[r Hr]|]; [|done].
  exfalso.
  apply model_validate_spec, validate_fields_spec in Hr as (_ & H2 & _).
  apply areas_field_spec in H2 as (areas' & Hareas' & Ht & Hc).
  rewrite coerce_lookup_areas, Hdata in Hareas'. injection Hareas' as <-.
  assert (name ≠ "General") as Hne.
  { destruct Hbad as [Hb|[? _]]; [|done]. by intros ->. }
  destruct (traverse_dict_ok _ _ _ Ht name
              (coerce_area (_normalize_missing_markers v)))
    as (a & Ha & Hlook).
  { rewrite drop_placeholder_general_lookup_ne by done.
    by rewrite !lookup_fmap, Hname. }
  apply Hc, check_area_key_spec in Hlook as [Hblank Hph].
  destruct Hbad as [Hb|(_ & Hgen & Hv)]; [done|]. apply Hph.
  apply area_model_validate_spec in Ha
    as (m & Hm & (s1 & E1 & -> & _) & (s2 & E2 & -> & _)
        & (s3 & E3 & -> & _) & _).
  destruct (coerce_placeholder_entry v "inspection_observation" Hv)
    as (m1 & Hm1 & F1); [compute_done|].
  destruct (coerce_placeholder_entry v "thermal_observation" Hv)
    as (m2 & Hm2 & F2); [compute_done|].
  destruct (coerce_placeholder_entry v "merged_finding" Hv)
    as (m3 & Hm3 & F3); [compute_done|].
  rewrite Hm in Hm1, Hm2, Hm3.
  injection Hm1 as <-. injection Hm2 as <-. injection Hm3 as <-.
  rewrite F1 in E1. rewrite F2 in E2. rewrite F3 in E3.
  injection E1 as <-. injection E2 as <-. injection E3 as <-.
  split; [done|]. by vm_compute.
Qed.

Lemma coerce_keeps_rejected_area_names_witness :
  ∃ msg, DDRReportModel.model_validate
           (_coerce_to_schema_shape lowercase_general_document)
         = Raise (Exn ValidationError msg None).
Proof.
  apply (coerce_keeps_rejected_area_names lowercase_general_document
           {[ "general" := VDict ∅ ]} "general" (VDict ∅)).
  - vm_compute; reflexivity.
  - vm_compute; reflexivity.
  - right. split; [discriminate|]. split; [vm_compute; reflexivity|].
    intros f _. left. reflexivity.
Defined.

(** X7. The areas of the coerced document: a name other than [General]
    is there exactly when the input has it, and [General] is there exactly
    when the input has it with a finding. *)
Theorem coerce_area_names (data areas : gmap string value) :
  data !! "Area_Wise_Observations" = Some (VDict areas) →
  ∃ areas',
    _coerce_to_schema_shape data !! "Area_Wise_Observations"
    = Some (VDict areas')
    ∧ (∀ name, name ≠ "General" →
               (is_Some (areas' !! name) ↔ is_Some (areas !! name)))
    ∧ (is_Some (areas' !! "General") ↔
       ∃ v, areas !! "General" = Some v ∧ ¬ placeholder_entry v).
Proof.
  intros Hdata. eexists. split; [by rewrite coerce_lookup_areas, Hdata|].
  split.
  - intros name Hne. rewrite drop_placeholder_general_lookup_ne by done.
    rewrite !lookup_fmap. destruct (areas !! name); cbn; split;
      intros [? ?]; by eexists.
  - unfold drop_placeholder_general. rewrite !lookup_fmap.
    destruct (areas !! "General") as [v|] eqn:Hv;
      cbn [fmap option_fmap option_map].
    2:{ rewrite ?lookup_fmap, ?Hv. cbn.
        split; [by intros [? ?]|by intros (? & ? & _)]. }
    assert (∀ f, f ∈ SUBSTANTIVE_FIELDS → f ∈ AREA_FIELDS) as Hsub.
    { intros f. unfold SUBSTANTIVE_FIELDS, AREA_FIELDS.
      rewrite !elem_of_cons. tauto. }
    assert ((∃ g, v = VDict g) ∨ ¬ (∃ g, v = VDict g)) as [[g ->]|Hnd].
    { destruct v; try (right; by intros [? ?]). left. by eexists. }
    + cbn [_normalize_missing_markers coerce_area].
      rewrite !backfilled_normalizes by (apply Hsub; compute_done).
      destruct (_ && _) eqn:Hp.
      * rewrite lookup_delete_eq. split; [by intros [? ?]|].
        intros (v & [= <-] & Hnot). destruct Hnot. intros f Hf.
        apply andb_true_iff in Hp as [Hp H3].
        apply andb_true_iff in Hp as [H1 H2].
        apply get_equals_true in H1, H2, H3.
        revert Hf. unfold SUBSTANTIVE_FIELDS.
        rewrite !elem_of_cons, elem_of_nil.
        intros [->|[->|[->|[]]]].
        -- unfold normalizes_to_sentinel.
           destruct (g !! "inspection_observation") as [x|]; [right|by left].
           exists x. split; [done|]. by injection H1.
        -- unfold normalizes_to_sentinel.
           destruct (g !! "thermal_observation") as [x|]; [right|by left].
           exists x. split; [done|]. by injection H2.
        -- unfold normalizes_to_sentinel.
           destruct (g !! "merged_finding") as [x|]; [right|by left].
           exists x. split; [done|]. by injection H3.
      * rewrite ?lookup_fmap, ?Hv. cbn [fmap option_fmap option_map].
        split; [intros _|by eexists]. exists (VDict g). split; [done|].
        intros Hph. apply not_true_iff_false in Hp. apply Hp.
        assert (∀ f, f ∈ SUBSTANTIVE_FIELDS →
                  get_equals
                    (Some match g !! f with
                          | Some x => _normalize_missing_markers x
                          | None => VStr NOT_AVAILABLE
                          end) NOT_AVAILABLE = true) as Hget.
        { intros f Hf. apply get_equals_true. f_equal.
          destruct (Hph f Hf) as [->|(x & -> & Hx)]; done. }
        rewrite !Hget by compute_done. done.
    + assert (coerce_area (_normalize_missing_markers v) = VDict sentinel_area)
        as ->.
      { destruct v as [| | | |s| |g]; try done.
        - cbn. by case_bool_decide.
        - destruct Hnd. by eexists. }
      assert (get_equals (sentinel_area !! "inspection_observation")
                NOT_AVAILABLE
              && get_equals (sentinel_area !! "thermal_observation")
                   NOT_AVAILABLE
              && get_equals (sentinel_area !! "merged_finding") NOT_AVAILABLE
              = true) as -> by reflexivity.
      rewrite lookup_delete_eq. split; [by intros [? ?]|].
      intros (v' & [= <-] & Hnot). destruct Hnot.
      destruct v; try done. destruct Hnd. by eexists.
Qed.

Lemma coerce_area_names_witness :
  ∃ areas',
    _coerce_to_schema_shape (sample_document "Damp in the hall" "Rising Damp")
      !! "Area_Wise_Observations" = Some (VDict areas')
    ∧ (∀ name, name ≠ "General" →
         (is_Some (areas' !! name)
          ↔ is_Some (({[ "Hall" := VDict (sample_area "Rising Damp") ]}
                       : gmap string value) !! name)))
    ∧ (is_Some (areas' !! "General") ↔
       ∃ v, ({[ "Hall" := VDict (sample_area "Rising Damp") ]}
              : gmap string value) !! "General" = Some v
            ∧ ¬ placeholder_entry v).
Proof.
  apply (coerce_area_names (sample_document "Damp in the hall" "Rising Damp")
           {[ "Hall" := VDict (sample_area "Rising Damp") ]}).
  vm_compute; reflexivity.
Defined.

(** ** The shape of normalized documents *)

(** X8. The normalizer keeps the shape of the document: the same paths
    exist, a list keeps its length, booleans and numbers are unchanged, and
    every text of the result is non-empty and trimmed. *)
Theorem normalize_keeps_shape (v : value) (p : list step) :
  (is_Some (at_path p (_normalize_missing_markers v))
   ↔ is_Some (at_path p v))
  ∧ (∀ l, at_path p v = Some (VList l) →
          ∃ l', at_path p (_normalize_missing_markers v) = Some (VList l')
                ∧ length l' = length l)
  ∧ (∀ x, at_path p v = Some x →
          match x with
          | VBool _ | VInt _ | VFloat _ =>
              at_path p (_normalize_missing_markers v) = Some x
          | _ => True
          end)
  ∧ (∀ s, at_path p (_normalize_missing_markers v) = Some (VStr s) →
          s ≠ EmptyString ∧ PyStr.strip s = s).
Proof.
  rewrite at_path_normalize. split_and!.
  - destruct (at_path p v); split; intros [? ?]; by eexists.
  - intros l ->. eexists. split; [reflexivity|]. by rewrite length_fmap.
  - intros x ->. by destruct x.
  - intros s. destruct (at_path p v) as [x|]; [|done]. intros [= Hx].
    destruct x as [| | | |s'| |]; try done.
    + injection Hx as <-. split; [done|by vm_compute].
    + destruct (normalize_str_cases s') as [[_ H]|[Hn H]];
        rewrite H in Hx; injection Hx as <-.
      * split; [done|by vm_compute].
      * split; [|apply strip_idemp]. intros Hs. apply Hn.
        unfold is_missing_alias. rewrite Hs. compute_done.
Qed.

(** ** Extraction from an extracted payload *)

Lemma rstrip_endswith (c : ascii) (s : string) :
  PyStr.endswith_char c s = true → PyStr.isspace c = false →
  PyStr.rstrip s = s.
Proof.
  intros Hs Hc. induction s as [|x s IH]; [done|].
  cbn [PyStr.endswith_char] in Hs. cbn [PyStr.rstrip]. destruct s as [|y s].
  - apply bool_decide_eq_true_1 in Hs as ->. cbn. by rewrite Hc.
  - by rewrite IH.
Qed.

Lemma strip_braced (s : string) :
  PyStr.startswith_char "{" s = true → PyStr.endswith_char "}" s = true →
  PyStr.strip s = s.
Proof.
  intros Hstart Hend. unfold PyStr.strip.
  rewrite (lstrip_clean s).
  - by apply (rstrip_endswith "}").
  - destruct s as [|c s]; [done|]. cbn in Hstart |- *.
    by apply bool_decide_eq_true_1 in Hstart as ->.
Qed.

(** X9. What [_extract_json_payload] returns starts with an opening and
    ends with a closing brace, and extracting from it again returns it
    unchanged. *)
Theorem extract_json_payload_idempotent (raw_text payload : string) :
  _extract_json_payload raw_text = Ok payload →
  PyStr.startswith_char "{" payload = true
  ∧ PyStr.endswith_char "}" payload = true
  ∧ _extract_json_payload payload = Ok payload.
Proof.
  intros [Hstart Hend]%extract_json_payload_braced.
  split; [done|]. split; [done|].
  unfold _extract_json_payload. rewrite strip_braced by done.
  by rewrite Hstart, Hend.
Qed.

Lemma extract_json_payload_idempotent_witness :
  PyStr.startswith_char "{" "{1} and {2}" = true
  ∧ PyStr.endswith_char "}" "{1} and {2}" = true
  ∧ _extract_json_payload "{1} and {2}" = Ok "{1} and {2}".
Proof.
  apply (extract_json_payload_idempotent "Here: {1} and {2} done"
           "{1} and {2}").
  vm_compute; reflexivity.
Defined.

(** ** Calls and failures of the engine *)

Section EngineExtras.

Context {World : Type}.
Variable requests_post : Request → World → result Response * World.
Variable getenv : string → option string.
Variable json_loads : string → gmap string value + string.
Variable py_str : value → string.
Variable DDR_PROMPT_TEMPLATE : string.

Local Abbreviation call := (_call_openrouter requests_post getenv py_str).
Local Abbreviation parse := (_parse_and_validate json_loads).
Local Abbreviation attempt :=
  (attempt_once requests_post getenv json_loads py_str).
Local Abbreviation generate :=
  (generate_ddr requests_post getenv json_loads py_str DDR_PROMPT_TEMPLATE).
Local Abbreviation prompt_of := (base_prompt DDR_PROMPT_TEMPLATE).

Lemma interpret_response_ok (response : Response) (text : string) :
  interpret_response py_str response = Ok text ↔
  (status_code response < 400)%Z
  ∧ (∃ data, json_body response = Some data
             ∧ assistant_content data = Some (VStr text))
  ∧ PyStr.strip text ≠ EmptyString.
Proof.
  unfold interpret_response.
  destruct (decide (status_code response = 429%Z)) as [H429|H429].
  { rewrite bool_decide_eq_true_2 by done. split; [done|]. intros [? _]. lia. }
  rewrite bool_decide_eq_false_2 by done.
  destruct (decide (status_code response = 401%Z)) as [H401|H401].
  { rewrite bool_decide_eq_true_2 by done. split; [done|]. intros [? _]. lia. }
  rewrite (bool_decide_eq_false_2 (status_code response = 401%Z)) by done.
  destruct (decide (status_code response = 403%Z)) as [H403|H403].
  { rewrite bool_decide_eq_true_2 by done. split; [done|]. intros [? _]. lia. }
  rewrite (bool_decide_eq_false_2 (status_code response = 403%Z)) by done.
  cbn [orb]. case_bool_decide as Hge.
  { split; [done|]. intros [? _]. lia. }
  destruct (json_body response) as [data|].
  2:{ split; [done|]. by intros (_ & (? & ? & _) & _). }
  destruct (assistant_content data) as [[| | | |s| |]|] eqn:Hc;
    try (split; [done|]; intros (_ & (d & [= <-] & E) & _); congruence).
  case_bool_decide as Hblank.
  - split; [done|]. intros (_ & (d & [= <-] & E) & Hne).
    rewrite Hc in E. by injection E as <-.
  - split.
    + intros [= <-]. split; [lia|]. split; [by eexists|done].
    + intros (_ & (d & [= <-] & E) & _). rewrite Hc in E. by injection E as <-.
Qed.

(** X10. When [_call_openrouter] returns a text, the text is not blank,
    the call was logged, the API key was set, the one request carried the
    key, the model and the prompt, and its response had a status below 400
    and the text at [choices[0].message.content]. *)
Theorem call_openrouter_returns_content
    (prompt text : string) (st st' : state World) :
  call prompt st = (Ok text, st') →
  PyStr.strip text ≠ EmptyString
  ∧ transport_calls st' = (transport_calls st ++ [prompt])%list
  ∧ ∃ key response,
      get_openrouter_api_key getenv = Ok key
      ∧ requests_post
          (mkRequest ("Bearer " +:+ key) (get_openrouter_model getenv) prompt)
          (world st) = (Ok response, world st')
      ∧ (status_code response < 400)%Z
      ∧ ∃ data, json_body response = Some data
                ∧ assistant_content data = Some (VStr text).
Proof.
  unfold _call_openrouter.
  destruct (get_openrouter_api_key getenv) as [key|e]; [|done].
  cbn [log_call world transport_calls].
  destruct (requests_post _ _) as [[response|exc] w] eqn:Hpost; [|done].
  intros [= Hr <-]. apply interpret_response_ok in Hr as (Hs & Hd & Hne).
  split; [done|]. split; [done|]. by exists key, response.
Qed.

(** X11. Without an API key [generate_ddr] raises the [RuntimeError] of
    the configuration reader in its first call of [_call_openrouter]: the
    world is untouched (no request was sent) and there is no second
    attempt. *)
Theorem generate_ddr_without_api_key
    (inspection_text thermal_text : string) (st : state World) :
  PyStr.strip (default EmptyString (getenv "OPENROUTER_API_KEY"))
  = EmptyString →
  generate inspection_text thermal_text st =
    (Raise (Exn RuntimeError
              "OPENROUTER_API_KEY is not set. Add it to your .env file before running the app."
              None),
     mkState (world st)
       (transport_calls st ++ [prompt_of inspection_text thermal_text])).
Proof.
  intros Hkey. rewrite generate_ddr_unfold.
  unfold attempt_once at 1, _call_openrouter, get_openrouter_api_key.
  by rewrite Hkey.
Qed.

Lemma attempt_once_ok (prompt : string) (st st1 : state World)
    (report : DDRReport) :
  attempt prompt st = (Ok report, st1) →
  ∃ raw, call prompt st = (Ok raw, st1) ∧ parse raw = Ok report.
Proof.
  unfold attempt_once. destruct (call prompt st) as [[raw|e0] st0]; [|done].
  intros [= Hp <-]. by exists raw.
Qed.

Lemma parse_and_validate_wellformed (raw : string) (report : DDRReport) :
  parse raw = Ok report → report_wellformed report.
Proof.
  unfold _parse_and_validate.
  intros (payload & _ & H)%rbind_ok. apply rbind_ok in H as (parsed & _ & H).
  by eapply validated_report_wellformed_aux.
Qed.

Lemma attempt_once_key_error (prompt : string) (st st1 : state World)
    (e : exn) :
  attempt prompt st = (Raise e, st1) → exn_cls e = RuntimeError →
  get_openrouter_api_key getenv = Raise e
  ∧ st1 = mkState (world st) (transport_calls st ++ [prompt])%list.
Proof.
  unfold attempt_once. destruct (call prompt st) as [[raw|e0] st0] eqn:Hc.
  - intros [= Hp _] Hcls. apply parse_and_validate_raises in Hp.
    destruct Hp as [H|[H|H]]; congruence.
  - intros [= <- <-] Hcls.
    destruct (get_openrouter_api_key getenv) as [key|e1] eqn:Hkey.
    + destruct (call_openrouter_raises _ _ _ _ _ _ _ _ Hkey Hc)
        as [H|[H|H]]; congruence.
    + unfold _call_openrouter in Hc. rewrite Hkey in Hc.
      by injection Hc as <- <-.
Qed.

Lemma attempt_once_without_key (prompt : string) (st : state World)
    (e : exn) :
  get_openrouter_api_key getenv = Raise e →
  attempt prompt st
  = (Raise e, mkState (world st) (transport_calls st ++ [prompt])%list).
Proof.
  intros Hkey. unfold attempt_once, _call_openrouter. by rewrite Hkey.
Qed.

(** A quota or authentication error of an attempt is the error of its
    transport call. *)
Lemma fatal_from_transport (prompt : string) (st st1 : state World)
    (e : exn) :
  attempt prompt st = (Raise e, st1) → fatal e = true →
  call prompt st = (Raise e, st1).
Proof.
  unfold attempt_once. destruct (call prompt st) as [[raw|e0] st0].
  - intros [= Hp _] Hf. apply parse_and_validate_raises in Hp.
    destruct (pipeline_failure_recoverable _ Hp). congruence.
  - by intros [= <- <-].
Qed.

Lemma fatal_not_runtime_error (e : exn) :
  fatal e = true →
  exn_cls e ≠ RuntimeError ∧ exn_cls e ≠ LLMGenerationError.
Proof.
  destruct e as [c msg cause]. cbn [exn_cls].
  by destruct c; intros H; try (by vm_compute in H).
Qed.

(** The failures of [generate_ddr], told apart by the class of what it
    raises. *)
Lemma generate_ddr_failure_by_class (inspection_text thermal_text : string)
    (st st' : state World) (e : exn) :
  generate inspection_text thermal_text st = (Raise e, st') →
  let p := prompt_of inspection_text thermal_text in
  (exn_cls e = RuntimeError →
   get_openrouter_api_key getenv = Raise e
   ∧ st' = mkState (world st) (transport_calls st ++ [p])%list)
  ∧ (fatal e = true →
     call p st = (Raise e, st')
     ∨ ∃ e1 st1,
         attempt p st = (Raise e1, st1) ∧ recoverable e1 = true
         ∧ call (p +:+ RETRY_SUFFIX) st1 = (Raise e, st'))
  ∧ (exn_cls e = LLMGenerationError →
     ∃ last,
       e = generation_failed (Some last) ∧ recoverable last = true
       ∧ transport_calls st'
         = (transport_calls st ++ [p; p +:+ RETRY_SUFFIX])%list).
Proof.
  intros Hg p. revert Hg. rewrite generate_ddr_unfold. cbv zeta. fold p.
  destruct (attempt p st) as [[report|e1] st1] eqn:H1; [done|].
  destruct (fatal e1) eqn:Hf1.
  { intros [= <- <-]. destruct (fatal_not_runtime_error _ Hf1).
    split_and!; [done| |done]. intros _. left.
    by apply fatal_from_transport. }
  destruct (recoverable e1) eqn:Hr1.
  2:{ intros [= <- <-]. split_and!.
      - intros Hc. eapply attempt_once_key_error; eassumption.
      - by rewrite Hf1.
      - intros Hc. destruct (generation_error_recoverable _ Hc). congruence. }
  pose proof (attempt_once_logs requests_post getenv json_loads py_str
                p st) as Hl1.
  rewrite H1 in Hl1. cbn [snd] in Hl1.
  pose proof (attempt_once_logs requests_post getenv json_loads py_str
                (p +:+ RETRY_SUFFIX) st1) as Hl2.
  destruct (attempt (p +:+ RETRY_SUFFIX) st1) as [[report|e2] st2] eqn:H2;
    [done|].
  cbn [snd] in Hl2. rewrite Hl1, <- app_assoc in Hl2.
  destruct (fatal e2) eqn:Hf2.
  { intros [= <- <-]. destruct (fatal_not_runtime_error _ Hf2).
    split_and!; [done| |done]. intros _. right. exists e1, st1.
    split; [done|]. split; [done|]. by apply fatal_from_transport. }
  destruct (recoverable e2) eqn:Hr2.
  { intros [= <- <-]. split_and!; [done|done|]. intros _. by exists e2. }
  intros [= <- <-]. split_and!.
  - intros Hc. exfalso.
    assert (get_openrouter_api_key getenv = Raise e2) as Hk
      by (eapply proj1, attempt_once_key_error; eassumption).
    erewrite attempt_once_without_key in H1 by exact Hk.
    injection H1 as <- _. congruence.
  - by rewrite Hf2.
  - intros Hc. destruct (generation_error_recoverable _ Hc). congruence.
Qed.

(** X12. What the class of a failure of [generate_ddr] tells. A
    [RuntimeError] itself is the error of the missing API key, raised in
    the first attempt with no request sent. A quota or authentication
    error is the error of the first transport call, or of the second after
    a recoverable first attempt. An [LLMGenerationError] itself is the
    final error after exactly two attempts, chaining the recoverable error
    of the second. *)
Theorem generate_ddr_failure_modes
    (inspection_text thermal_text : string) (st st' : state World) (e : exn) :
  generate inspection_text thermal_text st = (Raise e, st') →
  let p := prompt_of inspection_text thermal_text in
  (exn_cls e = RuntimeError →
   get_openrouter_api_key getenv = Raise e
   ∧ st' = mkState (world st) (transport_calls st ++ [p])%list)
  ∧ (fatal e = true →
     call p st = (Raise e, st')
     ∨ ∃ e1 st1,
         attempt p st = (Raise e1, st1) ∧ recoverable e1 = true
         ∧ call (p +:+ RETRY_SUFFIX) st1 = (Raise e, st'))
  ∧ (exn_cls e = LLMGenerationError →
     ∃ last,
       e = generation_failed (Some last) ∧ recoverable last = true
       ∧ transport_calls st'
         = (transport_calls st ++ [p; p +:+ RETRY_SUFFIX])%list).
Proof. apply generate_ddr_failure_by_class. Qed.

(** X13. Every report that [generate_ddr] returns is well-formed, whatever
    the service answered. *)
Theorem generate_ddr_returns_wellformed
    (inspection_text thermal_text : string) (st st' : state World)
    (report : DDRReport) :
  generate inspection_text thermal_text st = (Ok report, st') →
  report_wellformed report.
Proof.
  rewrite generate_ddr_unfold. cbv zeta.
  set (p := prompt_of inspection_text thermal_text).
  destruct (attempt p st) as [[r1|e1] st1] eqn:H1.
  { intros [= <- _]. apply attempt_once_ok in H1 as (raw & _ & Hp).
    by eapply parse_and_validate_wellformed. }
  destruct (fatal e1); [done|]. destruct (recoverable e1); [|done].
  destruct (attempt (p +:+ RETRY_SUFFIX) st1) as [[r2|e2] st2] eqn:H2.
  { intros [= <- _]. apply attempt_once_ok in H2 as (raw & _ & Hp).
    by eapply parse_and_validate_wellformed. }
  destruct (fatal e2); [done|]. by destruct (recoverable e2).
Qed.

(** X14. The configuration values: an API key that is returned is the
    trimmed, non-empty value of the variable, and the [RuntimeError] is
    raised only when that value is missing or blank; the model name is
    never empty, is trimmed, and is the default when the variable is
    blank. *)
Theorem config_values_trimmed_nonblank :
  (∀ key, get_openrouter_api_key getenv = Ok key →
          key ≠ EmptyString ∧ PyStr.strip key = key
          ∧ ∃ raw, getenv "OPENROUTER_API_KEY" = Some raw
                   ∧ key = PyStr.strip raw)
  ∧ (∀ e, get_openrouter_api_key getenv = Raise e →
          exn_cls e = RuntimeError
          ∧ PyStr.strip (default EmptyString (getenv "OPENROUTER_API_KEY"))
            = EmptyString)
  ∧ get_openrouter_model getenv ≠ EmptyString
  ∧ PyStr.strip (get_openrouter_model getenv) = get_openrouter_model getenv
  ∧ (PyStr.strip (default "openrouter/auto" (getenv "OPENROUTER_MODEL"))
     = EmptyString →
     get_openrouter_model getenv = "openrouter/auto").
Proof.
  unfold get_openrouter_api_key, get_openrouter_model. split_and!.
  - intros key. case_bool_decide as Hk; [done|]. intros [= <-].
    split; [done|]. split; [apply strip_idemp|].
    destruct (getenv "OPENROUTER_API_KEY") as [raw|]; [by exists raw|].
    by destruct Hk.
  - intros e. case_bool_decide; [|done]. by intros [= <-].
  - by case_bool_decide.
  - case_bool_decide; [done|apply strip_idemp].
  - intros H. by rewrite bool_decide_eq_true_2.
Qed.

End EngineExtras.

Lemma generate_ddr_returns_wellformed_witness :
  report_wellformed (sample_report "Damp in the hall" "Rising Damp").
Proof.
  apply (generate_ddr_returns_wellformed
           (scripted_post [Ok (chat_reply "{}")]) test_env
           (parse_as (sample_document "Damp in the hall" "Rising Damp"))
           blank_str "{inspection_text}|{thermal_text}" "roof" "wall"
           (mkState 0 []) (mkState 1 ["roof|wall"])).
  vm_compute; reflexivity.
Defined.

Lemma generate_ddr_failure_modes_witness :
  _call_openrouter (scripted_post [Ok (http_error 429)]) test_env blank_str
    "roof|wall" (mkState 0 [])
  = (Raise (Exn LLMQuotaExceededError
              "OpenRouter quota/rate limit exceeded (HTTP 429): Unknown OpenRouter error."
              None),
     mkState 1 ["roof|wall"]).
Proof.
  destruct (generate_ddr_failure_modes
              (scripted_post [Ok (http_error 429)]) test_env reject_json
              blank_str "{inspection_text}|{thermal_text}" "roof" "wall"
              (mkState 0 []) (mkState 1 ["roof|wall"])
              (Exn LLMQuotaExceededError
                 "OpenRouter quota/rate limit exceeded (HTTP 429): Unknown OpenRouter error."
                 None)
              ltac:(vm_compute; reflexivity))
    as (_ & Hfatal & _).
  destruct (Hfatal ltac:(vm_compute; reflexivity))
    as [H|(e1 & st1 & H1 & Hr & _)].
  - exact H.
  - vm_compute in H1. injection H1 as <- _. vm_compute in Hr.
    discriminate Hr.
Defined.

Lemma generate_ddr_without_api_key_witness :
  generate_ddr (scripted_post [Ok (chat_reply "{}")]) no_env reject_json
    blank_str "{inspection_text}|{thermal_text}" "roof" "wall" (mkState 0 [])
  = (Raise (Exn RuntimeError
              "OPENROUTER_API_KEY is not set. Add it to your .env file before running the app."
              None),
     mkState 0 ([] ++ [base_prompt "{inspection_text}|{thermal_text}"
                         "roof" "wall"])).
Proof.
  apply (generate_ddr_without_api_key
           (scripted_post [Ok (chat_reply "{}")]) no_env reject_json
           blank_str "{inspection_text}|{thermal_text}" "roof" "wall"
           (mkState 0 [])).
  reflexivity.
Defined.

Lemma call_openrouter_returns_content_witness :
  PyStr.strip "{}" ≠ EmptyString
  ∧ transport_calls (mkState 1 ["describe the damp"])
    = ([] ++ ["describe the damp"])%list.
Proof.
  destruct (call_openrouter_returns_content
              (scripted_post [Ok (chat_reply "{}")]) test_env blank_str
              "describe the damp" "{}" (mkState 0 [])
              (mkState 1 ["describe the damp"])
              ltac:(vm_compute; reflexivity)) as (H1 & H2 & _).
  exact (conj H1 H2).
Defined.

(** ** Squeezed runs *)

Lemma starts_clean_iff (s : string) :
  starts_clean s ↔ starts_in PyStr.isspace s = false.
Proof. by destruct s. Qed.

Section SubRuns.
Context (cls : ascii → bool) (repl : ascii).

Lemma sub_runs_squeezed (b : bool) (s : string) :
  cls repl = true →
  squeezed cls repl (PyText.sub_runs cls repl b s) = true
  ∧ (b = true → starts_in cls (PyText.sub_runs cls repl b s) = false).
Proof.
  intros Hrepl. revert b. induction s as [|c s IH]; intros b; [done|].
  cbn [PyText.sub_runs]. destruct (cls c) eqn:Hc.
  - destruct b.
    + apply IH.
    + split; [|done]. destruct (IH true) as [H1 H2].
      cbn [squeezed]. rewrite H1, (H2 eq_refl), bool_decide_eq_true_2 by done.
      by rewrite orb_true_r.
  - destruct (IH false) as [H1 _]. cbn [squeezed starts_in].
    rewrite Hc, H1. done.
Qed.

Lemma sub_runs_fixed (b : bool) (s : string) :
  squeezed cls repl s = true → (b = true → starts_in cls s = false) →
  PyText.sub_runs cls repl b s = s.
Proof.
  revert b. induction s as [|c s IH]; intros b; [done|].
  cbn [squeezed PyText.sub_runs starts_in].
  intros [Hc Hs]%andb_true_iff Hb.
  destruct (cls c) eqn:Hsp.
  - destruct b; [by specialize (Hb eq_refl)|].
    cbn [negb orb] in Hc. apply andb_true_iff in Hc as [Hc Hn].
    apply bool_decide_eq_true in Hc as ->. f_equal. apply IH; [done|].
    intros _. by apply negb_true_iff.
  - f_equal. by apply IH.
Qed.

Lemma squeezed_lstrip (s : string) :
  squeezed cls repl s = true → squeezed cls repl (PyStr.lstrip s) = true.
Proof.
  induction s as [|c s IH]; [done|]. cbn [PyStr.lstrip].
  destruct (PyStr.isspace c); [|done].
  cbn [squeezed]. intros [_ H]%andb_true_iff. by apply IH.
Qed.

Lemma starts_in_rstrip (s : string) :
  starts_in cls s = false → starts_in cls (PyStr.rstrip s) = false.
Proof.
  destruct s as [|c s]; [done|]. cbn [starts_in PyStr.rstrip]. intros Hc.
  destruct (PyStr.rstrip s); [by destruct (PyStr.isspace c)|done].
Qed.

Lemma squeezed_rstrip (s : string) :
  squeezed cls repl s = true → squeezed cls repl (PyStr.rstrip s) = true.
Proof.
  induction s as [|c s IH]; [done|]. cbn [squeezed PyStr.rstrip].
  intros [Hc Hs]%andb_true_iff. specialize (IH Hs).
  destruct (PyStr.rstrip s) as [|d r] eqn:Hr.
  - destruct (PyStr.isspace c) eqn:Hsp; [done|]. cbn [squeezed starts_in].
    apply orb_true_iff in Hc as [Hc|Hc]; [by rewrite Hc|].
    apply andb_true_iff in Hc as [-> _]. by rewrite orb_true_r.
  - cbn [squeezed] in IH |- *. rewrite IH, andb_true_r.
    apply orb_true_iff in Hc as [Hc|Hc]; [by rewrite Hc|].
    apply andb_true_iff in Hc as [-> Hn]. cbn [andb].
    apply negb_true_iff in Hn. apply starts_in_rstrip in Hn.
    rewrite Hr in Hn. rewrite Hn. by rewrite orb_true_r.
Qed.

Lemma squeezed_strip (s : string) :
  squeezed cls repl s = true → squeezed cls repl (PyStr.strip s) = true.
Proof. intros. by apply squeezed_rstrip, squeezed_lstrip. Qed.

Lemma visible_sub_runs (b : bool) (s : string) :
  (∀ c, cls c = true → PyStr.isspace c = true) →
  PyStr.isspace repl = true →
  visible (PyText.sub_runs cls repl b s) = visible s.
Proof.
  intros Hcls Hrepl. revert b. induction s as [|c s IH]; intros b; [done|].
  cbn [PyText.sub_runs visible]. destruct (cls c) eqn:Hc.
  - rewrite (Hcls c Hc). destruct b; [done|]. cbn [visible].
    rewrite Hrepl. apply IH.
  - cbn [visible]. by rewrite IH.
Qed.

End SubRuns.

Lemma trimmed_starts_clean (s : string) :
  PyStr.strip s = s → starts_in PyStr.isspace s = false.
Proof.
  intros <-. apply starts_in_rstrip, starts_clean_iff, lstrip_starts_clean.
Qed.

Lemma clean_whitespace_is_clean (text : string) :
  whitespace_clean (Merger.clean_whitespace text).
Proof.
  split; [apply strip_idemp|]. by apply squeezed_strip, sub_runs_squeezed.
Qed.

Lemma clean_whitespace_fixed (s : string) :
  whitespace_clean s → Merger.clean_whitespace s = s.
Proof.
  intros [Ht Hr]. unfold Merger.clean_whitespace.
  by rewrite sub_runs_fixed by done.
Qed.

Lemma visible_lstrip (s : string) : visible (PyStr.lstrip s) = visible s.
Proof.
  induction s as [|c s IH]; [done|]. cbn [PyStr.lstrip visible].
  destruct (PyStr.isspace c) eqn:Hc; [done|]. cbn. by rewrite Hc.
Qed.

Lemma visible_rstrip (s : string) : visible (PyStr.rstrip s) = visible s.
Proof.
  induction s as [|c s IH]; [done|]. cbn [PyStr.rstrip visible].
  rewrite <- IH. destruct (PyStr.rstrip s) as [|d r].
  - by destruct (PyStr.isspace c) eqn:Hc; cbn; rewrite ?Hc.
  - cbn [visible]. done.
Qed.

Lemma visible_strip (s : string) : visible (PyStr.strip s) = visible s.
Proof. unfold PyStr.strip. by rewrite visible_rstrip, visible_lstrip. Qed.

(** X15. [clean_whitespace] returns a text that is trimmed and
    single-spaced, with the same visible characters as its input. *)
Theorem clean_whitespace_output (text : string) :
  whitespace_clean (Merger.clean_whitespace text)
  ∧ visible (Merger.clean_whitespace text) = visible text.
Proof.
  split; [apply clean_whitespace_is_clean|].
  unfold Merger.clean_whitespace. by rewrite visible_strip, visible_sub_runs.
Qed.

(** X16. The texts [clean_whitespace] leaves alone are exactly the clean
    ones; so a second pass changes nothing. *)
Theorem clean_whitespace_fixed_points (text : string) :
  (Merger.clean_whitespace text = text ↔ whitespace_clean text)
  ∧ Merger.clean_whitespace (Merger.clean_whitespace text)
    = Merger.clean_whitespace text.
Proof.
  split; [split|].
  - intros <-. apply clean_whitespace_is_clean.
  - apply clean_whitespace_fixed.
  - apply clean_whitespace_fixed, clean_whitespace_is_clean.
Qed.

(** ** Sentences *)

Lemma split_after_end_cons (sk pe : bool) (s : string) :
  ∃ h t, Merger.split_after_end sk pe s = h :: t.
Proof.
  revert sk pe. induction s as [|c s IH]; intros sk pe; [by eexists _, _|].
  cbn [Merger.split_after_end].
  destruct (PyStr.isspace c && sk); [apply IH|].
  destruct (PyStr.isspace c && pe); [by eexists _, _|].
  destruct (IH false (Merger.is_sentence_end c)) as (h & t & ->).
  by eexists _, _.
Qed.

Lemma visible_split_after_end (sk pe : bool) (s : string) :
  concat (visible <$> Merger.split_after_end sk pe s) = visible s.
Proof.
  revert sk pe. induction s as [|c s IH]; intros sk pe; [done|].
  cbn [Merger.split_after_end visible].
  destruct (PyStr.isspace c) eqn:Hc; cbn [andb].
  - destruct sk; [apply IH|]. destruct pe.
    + rewrite fmap_cons. cbn [concat visible app]. apply IH.
    + specialize (IH false (Merger.is_sentence_end c)).
      destruct (split_after_end_cons false (Merger.is_sentence_end c) s)
        as (h & t & Hs). rewrite Hs in IH |- *.
      rewrite fmap_cons in IH |- *. cbn [concat visible] in IH |- *.
      by rewrite Hc.
  - specialize (IH false (Merger.is_sentence_end c)).
    destruct (split_after_end_cons false (Merger.is_sentence_end c) s)
      as (h & t & Hs). rewrite Hs in IH |- *.
    rewrite fmap_cons in IH |- *. cbn [concat visible] in IH |- *.
    rewrite Hc. cbn [app]. by rewrite IH.
Qed.

Lemma visible_empty (s : string) : s = EmptyString → visible s = [].
Proof. by intros ->. Qed.

Lemma nonempty_true (s : string) :
  PyText.nonempty s ↔ s ≠ EmptyString.
Proof.
  unfold PyText.nonempty. case_bool_decide; cbn; [tauto|done].
Qed.

Lemma visible_filter_strip (l : list string) :
  concat (visible <$> filter (λ segment, PyText.nonempty segment)
                        (PyStr.strip <$> l))
  = concat (visible <$> l).
Proof.
  induction l as [|x l IH]; [done|]. rewrite fmap_cons, filter_cons.
  case_decide as Hx; rewrite nonempty_true in Hx.
  - rewrite !fmap_cons. cbn [concat]. by rewrite IH, visible_strip.
  - apply dec_stable in Hx. rewrite fmap_cons. cbn [concat].
    rewrite IH, <- (visible_strip x), Hx. done.
Qed.

Lemma split_sentences_visible (text : string) :
  concat (visible <$> Merger.split_sentences text) = visible text.
Proof.
  unfold Merger.split_sentences. case_bool_decide as Hb.
  - by rewrite <- (visible_strip text), Hb.
  - by rewrite visible_filter_strip, visible_split_after_end.
Qed.

Lemma split_sentences_trimmed (text : string) :
  Forall (λ segment, segment ≠ EmptyString ∧ PyStr.strip segment = segment)
         (Merger.split_sentences text).
Proof.
  unfold Merger.split_sentences. case_bool_decide; [done|].
  apply Forall_forall. intros x [Hn Hx]%list_elem_of_filter.
  apply list_elem_of_fmap in Hx as (y & -> & _). split.
  - by apply nonempty_true.
  - apply strip_idemp.
Qed.

Lemma but_last_nil {A} (P : A → Prop) : but_last P [].
Proof. exists [], []. split_and!; [done|done|cbn; lia]. Qed.

Lemma but_last_single {A} (P : A → Prop) (x : A) : but_last P [x].
Proof. exists [], [x]. split_and!; [done|done|cbn; lia]. Qed.

Lemma but_last_cons {A} (P : A → Prop) (x : A) (l : list A) :
  P x → but_last P l → but_last P (x :: l).
Proof.
  intros Hx (init & tail & -> & Hi & Ht). exists (x :: init), tail.
  split_and!; [done| |done]. by constructor.
Qed.

Lemma but_last_init {A} (P : A → Prop) (l init : list A) (x : A) :
  but_last P l → l = (init ++ [x])%list → Forall P init.
Proof.
  intros (i & t & -> & Hi & Ht) Heq.
  destruct t as [|y [|z t]]; [| |cbn in Ht; lia].
  - rewrite app_nil_r in Heq. subst i. by apply Forall_app in Hi as [? _].
  - apply app_inj_tail in Heq as [-> _]. done.
Qed.

Lemma is_sentence_end_not_space (c : ascii) :
  Merger.is_sentence_end c = true → PyStr.isspace c = false.
Proof.
  unfold Merger.is_sentence_end. rewrite !orb_true_iff.
  intros [[H|H]|H]; apply bool_decide_eq_true in H; by subst c.
Qed.

Lemma ends_sentence_cons (c : ascii) (s : string) :
  ends_sentence s = true → ends_sentence (String c s) = true.
Proof. by destruct s. Qed.

Lemma split_after_end_ends (sk pe : bool) (s : string) :
  match Merger.split_after_end sk pe s with
  | h :: t =>
      (t ≠ [] → (h = EmptyString ∧ pe = true) ∨ ends_sentence h = true)
      ∧ but_last (λ x, ends_sentence x = true) t
  | [] => False
  end.
Proof.
  revert sk pe. induction s as [|c s IH]; intros sk pe.
  { split; [done|]. apply but_last_nil. }
  cbn [Merger.split_after_end].
  destruct (PyStr.isspace c && sk) eqn:H1.
  { specialize (IH true false).
    destruct (Merger.split_after_end true false s) as [|h t]; [done|].
    destruct IH as [Hh Ht]. split; [|done]. intros Hne.
    destruct (Hh Hne) as [[_ [=]]|]. by right. }
  destruct (PyStr.isspace c && pe) eqn:H2.
  { specialize (IH true false).
    destruct (Merger.split_after_end true false s) as [|h t]; [done|].
    destruct IH as [Hh Ht]. apply andb_true_iff in H2 as [_ ->]. split.
    { intros _. by left. }
    destruct t as [|y t]; [apply but_last_single|].
    apply but_last_cons; [|done]. by destruct Hh as [[_ [=]]|]. }
  specialize (IH false (Merger.is_sentence_end c)).
  destruct (Merger.split_after_end false (Merger.is_sentence_end c) s)
    as [|h t]; [done|].
  destruct IH as [Hh Ht]. split; [|done]. intros Hne. right.
  destruct (Hh Hne) as [[-> He]|He]; [done|by apply ends_sentence_cons].
Qed.

Lemma ends_sentence_rstrip (s : string) :
  ends_sentence s = true → PyStr.rstrip s = s.
Proof.
  induction s as [|c s IH]; [done|]. cbn [ends_sentence PyStr.rstrip].
  destruct s as [|d s].
  - intros H%is_sentence_end_not_space. cbn. by rewrite H.
  - intros H. rewrite (IH H). done.
Qed.

Lemma ends_sentence_lstrip (s : string) :
  ends_sentence s = true → ends_sentence (PyStr.lstrip s) = true.
Proof.
  induction s as [|c s IH]; [done|]. cbn [PyStr.lstrip].
  destruct (PyStr.isspace c) eqn:Hc; [|done].
  destruct s as [|d s]; [|exact IH].
  cbn. intros H%is_sentence_end_not_space. congruence.
Qed.

Lemma ends_sentence_strip (s : string) :
  ends_sentence s = true → ends_sentence (PyStr.strip s) = true.
Proof.
  intros H%ends_sentence_lstrip. unfold PyStr.strip.
  by rewrite ends_sentence_rstrip.
Qed.

Lemma but_last_filter_strip (l : list string) :
  but_last (λ x, ends_sentence x = true) l →
  but_last (λ x, ends_sentence x = true)
    (filter (λ segment, PyText.nonempty segment) (PyStr.strip <$> l)).
Proof.
  intros (init & tail & -> & Hi & Ht).
  exists (PyStr.strip <$> init),
    (filter (λ segment, PyText.nonempty segment) (PyStr.strip <$> tail)).
  rewrite fmap_app, filter_app. split_and!.
  - f_equal. induction Hi as [|x init Hx Hi IH]; [done|].
    rewrite fmap_cons, filter_cons, decide_True, IH; [done|].
    apply nonempty_true. apply ends_sentence_strip in Hx.
    by destruct (PyStr.strip x).
  - apply Forall_fmap. eapply Forall_impl; [exact Hi|].
    intros x. apply ends_sentence_strip.
  - destruct tail as [|x [|y tail]]; [cbn; lia| |cbn in Ht; lia].
    rewrite fmap_cons, filter_cons. case_decide; cbn; lia.
Qed.

Lemma split_sentences_but_last (text : string) :
  but_last (λ x, ends_sentence x = true) (Merger.split_sentences text).
Proof.
  unfold Merger.split_sentences. case_bool_decide.
  { apply but_last_nil. }
  apply but_last_filter_strip.
  pose proof (split_after_end_ends false false text) as H'.
  destruct (Merger.split_after_end false false text) as [|h t]; [done|].
  destruct H' as [Hh Ht]. destruct t as [|y t]; [apply but_last_single|].
  apply but_last_cons; [|done]. by destruct Hh as [[_ [=]]|].
Qed.

(** X17. Every segment of [split_sentences] is non-empty and trimmed, and
    every segment but the last ends in a full stop, an exclamation or a
    question mark. *)
Theorem split_sentences_segments (text : string) (init : list string)
    (final : string) :
  Merger.split_sentences text = (init ++ [final])%list →
  Forall (λ segment, segment ≠ EmptyString ∧ PyStr.strip segment = segment
                     ∧ ends_sentence segment = true) init
  ∧ final ≠ EmptyString ∧ PyStr.strip final = final.
Proof.
  intros Heq. pose proof (split_sentences_trimmed text) as Ht.
  pose proof (but_last_init _ _ _ _ (split_sentences_but_last text) Heq) as He.
  rewrite Heq in Ht. apply Forall_app in Ht as [Hi Hf].
  apply (proj1 (Forall_singleton _ _)) in Hf. split; [|exact Hf].
  apply Forall_forall. intros x Hx.
  rewrite Forall_forall in Hi, He. destruct (Hi x Hx) as [H1 H2].
  specialize (He x Hx). done.
Qed.

Lemma split_sentences_segments_witness :
  Merger.split_sentences "Damp wall.  Stain on  ceiling! ok"
  = (["Damp wall."; "Stain on  ceiling!"] ++ ["ok"])%list
  ∧ Forall (λ segment, segment ≠ EmptyString ∧ PyStr.strip segment = segment
                     ∧ ends_sentence segment = true)
      ["Damp wall."; "Stain on  ceiling!"].
Proof.
  split; [reflexivity|].
  apply (split_sentences_segments "Damp wall.  Stain on  ceiling! ok"
           ["Damp wall."; "Stain on  ceiling!"] "ok").
  reflexivity.
Defined.

(** X18. [split_sentences] drops white space only: the visible
    characters of the segments, in order, are those of the text. *)
Theorem split_sentences_keeps_visible (text : string) :
  concat (visible <$> Merger.split_sentences text) = visible text.
Proof. apply split_sentences_visible. Qed.

(** ** Duplicate filtering *)

Lemma keep_first_spec (seen : gset string) (l : list string) :
  sublist (Merger.keep_first seen l) l
  ∧ NoDup (PyStr.lower <$> Merger.keep_first seen l)
  ∧ (∀ x, x ∈ Merger.keep_first seen l → PyStr.lower x ∉ seen)
  ∧ (∀ x, x ∈ l → PyStr.lower x ∈ seen
          ∨ PyStr.lower x ∈ PyStr.lower <$> Merger.keep_first seen l).
Proof.
  revert seen. induction l as [|s l IH]; intros seen.
  { split_and!; [done|constructor|by intros ? ?%elem_of_nil
                 |by intros ? ?%elem_of_nil]. }
  cbn [Merger.keep_first]. case_bool_decide as Hs.
  - destruct (IH seen) as (H1 & H2 & H3 & H4). split_and!; auto.
    + by apply sublist_cons.
    + intros x [->|Hx]%elem_of_cons; [by left|by apply H4].
  - destruct (IH ({[PyStr.lower s]} ∪ seen)) as (H1 & H2 & H3 & H4).
    split_and!.
    + by apply sublist_skip.
    + rewrite fmap_cons. constructor; [|done].
      intros (y & Hy & Hin)%list_elem_of_fmap. apply (H3 y Hin).
      rewrite <- Hy. apply elem_of_union_l. by apply elem_of_singleton.
    + intros x [->|Hx]%elem_of_cons; [done|].
      intros Hin. by apply (H3 x Hx), elem_of_union_r.
    + intros x [->|Hx]%elem_of_cons.
      * right. rewrite fmap_cons. by left.
      * destruct (H4 x Hx) as [Hin|Hin].
        -- apply elem_of_union in Hin as [->%elem_of_singleton|Hin];
             [|by left]. right. rewrite fmap_cons. by left.
        -- right. rewrite fmap_cons. by right.
Qed.

Lemma keep_first_fixed (seen : gset string) (l : list string) :
  NoDup (PyStr.lower <$> l) → (∀ x, x ∈ l → PyStr.lower x ∉ seen) →
  Merger.keep_first seen l = l.
Proof.
  revert seen. induction l as [|s l IH]; intros seen; [done|].
  rewrite fmap_cons. intros [Hs Hnd]%NoDup_cons Hseen.
  cbn [Merger.keep_first].
  rewrite bool_decide_eq_false_2 by (apply Hseen; by left).
  f_equal. apply IH; [done|]. intros x Hx.
  apply not_elem_of_union. split; [|apply Hseen; by right].
  rewrite elem_of_singleton. intros Heq. apply Hs. rewrite <- Heq.
  by apply list_elem_of_fmap_2.
Qed.

(** X19. [remove_repeated_sentences] joins with blanks a sub-list of the
    sentences of the text, in their order, in which no two sentences are
    equal up to case and every sentence of the text has its equal up to
    case. *)
Theorem remove_repeated_sentences_unique (text : string) :
  ∃ unique,
    Merger.remove_repeated_sentences text = PyText.join " " unique
    ∧ sublist unique (Merger.split_sentences text)
    ∧ NoDup (PyStr.lower <$> unique)
    ∧ ∀ sentence, sentence ∈ Merger.split_sentences text →
        PyStr.lower sentence ∈ PyStr.lower <$> unique.
Proof.
  exists (Merger.keep_first ∅ (Merger.split_sentences text)).
  destruct (keep_first_spec ∅ (Merger.split_sentences text))
    as (H1 & H2 & _ & H4).
  split_and!; [done|done|done|]. intros s Hs.
  destruct (H4 s Hs) as [Hin|Hin]; [|done]. by apply elem_of_empty in Hin.
Qed.

(** ** Cleaning of extracted text *)

Lemma all_chars_sub_runs (Q cls : ascii → bool) (repl : ascii) (b : bool)
    (s : string) :
  Q repl = true → all_chars Q s = true →
  all_chars Q (PyText.sub_runs cls repl b s) = true.
Proof.
  intros Hrepl. revert b. induction s as [|c s IH]; intros b; [done|].
  cbn [all_chars PyText.sub_runs]. intros [Hc Hs]%andb_true_iff.
  destruct (cls c).
  - destruct b; [by apply IH|]. cbn [all_chars]. by rewrite Hrepl, IH.
  - cbn [all_chars]. by rewrite Hc, IH.
Qed.

Lemma all_chars_lstrip (Q : ascii → bool) (s : string) :
  all_chars Q s = true → all_chars Q (PyStr.lstrip s) = true.
Proof.
  induction s as [|c s IH]; [done|]. cbn [PyStr.lstrip].
  destruct (PyStr.isspace c); [|done].
  cbn [all_chars]. intros [_ H]%andb_true_iff. by apply IH.
Qed.

Lemma all_chars_rstrip (Q : ascii → bool) (s : string) :
  all_chars Q s = true → all_chars Q (PyStr.rstrip s) = true.
Proof.
  induction s as [|c s IH]; [done|]. cbn [all_chars PyStr.rstrip].
  intros [Hc Hs]%andb_true_iff. specialize (IH Hs).
  destruct (PyStr.rstrip s) as [|d r].
  - destruct (PyStr.isspace c); [done|]. cbn. by rewrite Hc.
  - cbn [all_chars] in IH |- *. by rewrite Hc, IH.
Qed.

Lemma all_chars_strip (Q : ascii → bool) (s : string) :
  all_chars Q s = true → all_chars Q (PyStr.strip s) = true.
Proof. intros. by apply all_chars_rstrip, all_chars_lstrip. Qed.

Lemma replace_nul_free (s : string) :
  all_chars not_nul (Parser.replace_nul s) = true.
Proof.
  induction s as [|c s IH]; [done|]. cbn [Parser.replace_nul all_chars].
  rewrite IH, andb_true_r. unfold not_nul.
  destruct (bool_decide (c = Parser.NUL)) eqn:Hc; [done|by rewrite Hc].
Qed.

Lemma replace_nul_fixed (s : string) :
  all_chars not_nul s = true → Parser.replace_nul s = s.
Proof.
  induction s as [|c s IH]; [done|]. cbn [Parser.replace_nul all_chars].
  intros [Hc Hs]%andb_true_iff. rewrite (IH Hs). unfold not_nul in Hc.
  apply negb_true_iff in Hc. by rewrite Hc.
Qed.

(** A pass over one class keeps the runs of another class squeezed, when
    its replacement is outside that class. *)
Lemma starts_in_sub_runs (cls cls' : ascii → bool) (repl : ascii)
    (s : string) :
  cls' repl = false → starts_in cls' s = false →
  starts_in cls' (PyText.sub_runs cls repl false s) = false.
Proof.
  intros Hrepl. destruct s as [|c s]; [done|].
  cbn [starts_in PyText.sub_runs]. by destruct (cls c).
Qed.

Lemma squeezed_sub_runs (cls cls' : ascii → bool) (repl repl' : ascii)
    (b : bool) (s : string) :
  cls' repl = false → squeezed cls' repl' s = true →
  squeezed cls' repl' (PyText.sub_runs cls repl b s) = true.
Proof.
  intros Hrepl. revert b. induction s as [|c s IH]; intros b; [done|].
  cbn [squeezed PyText.sub_runs]. intros [Hc Hs]%andb_true_iff.
  destruct (cls c) eqn:Hcls.
  - destruct b; [by apply IH|]. cbn [squeezed]. by rewrite Hrepl, IH.
  - cbn [squeezed]. rewrite IH, andb_true_r by done.
    apply orb_true_iff in Hc as [Hc|Hc]; [by rewrite Hc|].
    apply andb_true_iff in Hc as [-> Hn]. cbn [andb].
    apply negb_true_iff in Hn.
    by rewrite starts_in_sub_runs, orb_true_r.
Qed.

Lemma clean_text_tidy (text : string) : text_tidy (Parser._clean_text text).
Proof.
  unfold Parser._clean_text. split_and!.
  - apply strip_idemp.
  - apply all_chars_strip. do 2 (apply all_chars_sub_runs; [done|]).
    apply replace_nul_free.
  - apply squeezed_strip, squeezed_sub_runs; [done|].
    by apply sub_runs_squeezed.
  - by apply squeezed_strip, sub_runs_squeezed.
Qed.

Lemma clean_text_fixed (s : string) : text_tidy s → Parser._clean_text s = s.
Proof.
  intros (Ht & Hn & Hb & Hl). unfold Parser._clean_text.
  rewrite replace_nul_fixed by done.
  rewrite (sub_runs_fixed Parser.is_blank) by done.
  by rewrite (sub_runs_fixed Parser.is_newline) by done.
Qed.

Lemma visible_replace_nul (s : string) :
  visible (Parser.replace_nul s)
  = filter (λ c, c ≠ Parser.NUL) (visible s).
Proof.
  induction s as [|c s IH]; [done|]. cbn [Parser.replace_nul visible].
  case_bool_decide as Hc.
  - subst c. cbn. done.
  - destruct (PyStr.isspace c); [done|].
    by rewrite filter_cons_True, IH by done.
Qed.

Lemma is_blank_space (c : ascii) :
  Parser.is_blank c = true → PyStr.isspace c = true.
Proof.
  intros [Hc|Hc]%orb_true_iff; apply bool_decide_eq_true in Hc; by subst c.
Qed.

Lemma is_newline_space (c : ascii) :
  Parser.is_newline c = true → PyStr.isspace c = true.
Proof. intros Hc. apply bool_decide_eq_true in Hc. by subst c. Qed.

Lemma visible_clean_text (text : string) :
  visible (Parser._clean_text text)
  = filter (λ c, c ≠ Parser.NUL) (visible text).
Proof.
  unfold Parser._clean_text. rewrite visible_strip.
  rewrite (visible_sub_runs Parser.is_newline)
    by (done || apply is_newline_space).
  rewrite (visible_sub_runs Parser.is_blank)
    by (done || apply is_blank_space).
  apply visible_replace_nul.
Qed.

(** X24. [_clean_text] returns a tidy text (trimmed, no NUL, no tab, no
    two blanks and no two line feeds in a row) whose visible characters are
    those of the input other than NUL. *)
Theorem clean_text_output (text : string) :
  text_tidy (Parser._clean_text text)
  ∧ visible (Parser._clean_text text)
    = filter (λ c, c ≠ Parser.NUL) (visible text).
Proof. split; [apply clean_text_tidy|apply visible_clean_text]. Qed.

(** X25. The texts [_clean_text] leaves alone are exactly the tidy ones;
    so a second cleaning changes nothing. *)
Theorem clean_text_fixed_points (text : string) :
  (Parser._clean_text text = text ↔ text_tidy text)
  ∧ Parser._clean_text (Parser._clean_text text) = Parser._clean_text text.
Proof.
  split; [split|].
  - intros <-. apply clean_text_tidy.
  - apply clean_text_fixed.
  - apply clean_text_fixed, clean_text_tidy.
Qed.

(** ** Extraction with the OCR fallback *)

Lemma join_pages_tidy (pages : list string) :
  text_tidy (Parser.join_pages pages).
Proof. apply clean_text_tidy. Qed.

Lemma extract_with_tidy (pages : result (list string)) (t : string) :
  Parser._extract_with_pdfplumber pages = Ok t → text_tidy t.
Proof.
  destruct pages as [p|e]; [|done]. cbn. intros [= <-]. apply join_pages_tidy.
Qed.

Lemma ocr_with_tidy (pages : result (list string)) (t : string) :
  Parser._extract_with_ocr pages = Ok t → text_tidy t.
Proof.
  destruct pages as [p|e]; [|done]. cbn. intros [= <-]. apply join_pages_tidy.
Qed.

Lemma empty_tidy : text_tidy EmptyString.
Proof. by split_and!. Qed.

Lemma extract_text_tidy (native_pages ocr_pages : result (list string)) :
  text_tidy (Parser.extract_text_from_pdf native_pages ocr_pages).
Proof.
  unfold Parser.extract_text_from_pdf.
  assert (text_tidy
            match Parser._extract_with_pdfplumber native_pages with
            | Ok t => t
            | Raise _ => EmptyString
            end) as Hn.
  { destruct (Parser._extract_with_pdfplumber native_pages) eqn:H;
      [by eapply extract_with_tidy|apply empty_tidy]. }
  case_bool_decide; [done|].
  destruct (Parser._extract_with_ocr ocr_pages); [apply clean_text_tidy|done].
Qed.

Lemma strip_newline_cons (t : string) :
  PyStr.strip (String Parser.LF t) = PyStr.strip t.
Proof. done. Qed.

Lemma extract_text_ocr_only (native_pages : result (list string))
    (pages : list string) :
  match native_pages with
  | Ok p => Parser.join_pages p = EmptyString
  | Raise _ => True
  end →
  Parser.extract_text_from_pdf native_pages (Ok pages)
  = Parser.join_pages pages.
Proof.
  intros Hn. unfold Parser.extract_text_from_pdf.
  assert (match Parser._extract_with_pdfplumber native_pages with
          | Ok t => t
          | Raise _ => EmptyString
          end = EmptyString) as ->.
  { by destruct native_pages. }
  rewrite bool_decide_eq_false_2 by (cbn; lia).
  cbn [Parser._extract_with_ocr rbind].
  rewrite append_empty_l.
  change (String Parser.LF EmptyString +:+ Parser.join_pages pages)
    with (String Parser.LF (Parser.join_pages pages)).
  rewrite strip_newline_cons.
  destruct (join_pages_tidy pages) as [Hs _]. rewrite Hs.
  apply clean_text_fixed, join_pages_tidy.
Qed.

(** X26. What [extract_text_from_pdf] returns is tidy in every branch
    (the native text, the empty text, or the cleaned merge with the OCR
    text): cleaning it again changes nothing. *)
Theorem extract_text_from_pdf_tidy
    (native_pages ocr_pages : result (list string)) :
  text_tidy (Parser.extract_text_from_pdf native_pages ocr_pages)
  ∧ Parser._clean_text (Parser.extract_text_from_pdf native_pages ocr_pages)
    = Parser.extract_text_from_pdf native_pages ocr_pages.
Proof.
  split; [apply extract_text_tidy|].
  apply clean_text_fixed, extract_text_tidy.
Qed.

(** X27. When the native extraction fails or finds no text, what
    [extract_text_from_pdf] returns is the text of the OCR pass as it is. *)
Theorem extract_text_from_pdf_ocr_only
    (native_pages : result (list string)) (pages : list string) :
  match native_pages with
  | Ok p => Parser.join_pages p = EmptyString
  | Raise _ => True
  end →
  Parser.extract_text_from_pdf native_pages (Ok pages)
  = Parser.join_pages pages.
Proof. apply extract_text_ocr_only. Qed.

(** ** Ends of texts *)

Lemma ends_in_cons (cls : ascii → bool) (c : ascii) (s : string) :
  s ≠ EmptyString → ends_in cls (String c s) = ends_in cls s.
Proof. by destruct s. Qed.

Lemma rstrip_fixed_iff (s : string) :
  PyStr.rstrip s = s ↔ ends_in PyStr.isspace s = false.
Proof.
  induction s as [|c s IH]; [by split|]. cbn [PyStr.rstrip].
  destruct s as [|d s].
  - cbn. by destruct (PyStr.isspace c); split.
  - rewrite ends_in_cons by done. rewrite <- IH.
    destruct (PyStr.rstrip (String d s)) as [|e r] eqn:Hr.
    + split; [by destruct (PyStr.isspace c)|done].
    + split; [by intros [= -> ->]|by intros ->].
Qed.

Lemma extract_text_from_pdf_ocr_only_witness :
  Parser.extract_text_from_pdf (Raise (Exn Exception "not a PDF" None))
    (Ok ["  Damp  wall "; ""; "Roof ok"])
  = Parser.join_pages ["  Damp  wall "; ""; "Roof ok"].
Proof.
  apply (extract_text_from_pdf_ocr_only (Raise (Exn Exception "not a PDF" None))
           ["  Damp  wall "; ""; "Roof ok"]).
  exact I.
Defined.

Lemma lstrip_fixed_iff (s : string) :
  PyStr.lstrip s = s ↔ starts_in PyStr.isspace s = false.
Proof.
  destruct s as [|c s]; [by split|]. cbn [PyStr.lstrip starts_in].
  destruct (PyStr.isspace c) eqn:Hc; [|by split]. split; [|done].
  intros Heq. pose proof (lstrip_starts_clean s) as Hs.
  rewrite Heq in Hs. cbn in Hs. congruence.
Qed.

Lemma strip_fixed_iff (s : string) :
  PyStr.strip s = s
  ↔ starts_in PyStr.isspace s = false ∧ ends_in PyStr.isspace s = false.
Proof.
  split.
  - intros Hs. split; [by apply trimmed_starts_clean|].
    apply rstrip_fixed_iff. rewrite <- Hs at 1. unfold PyStr.strip.
    by rewrite rstrip_idemp.
  - intros [H1 H2]. unfold PyStr.strip.
    rewrite (proj2 (lstrip_fixed_iff s) H1). by apply rstrip_fixed_iff.
Qed.

Lemma append_nonempty_l (a b : string) :
  a ≠ EmptyString → a +:+ b ≠ EmptyString.
Proof. by destruct a. Qed.

Lemma starts_in_append (cls : ascii → bool) (a b : string) :
  a ≠ EmptyString → starts_in cls (a +:+ b) = starts_in cls a.
Proof. by destruct a. Qed.

Lemma ends_in_append (cls : ascii → bool) (a b : string) :
  b ≠ EmptyString → ends_in cls (a +:+ b) = ends_in cls b.
Proof.
  intros Hb. induction a as [|c a IH]; [done|].
  rewrite append_cons, ends_in_cons; [done|].
  destruct a; [done|by rewrite append_cons].
Qed.

(** ** Pieces hold no cut *)

Lemma unsplit_weaken (pe : bool) (s : string) :
  unsplit pe s = true → unsplit false s = true.
Proof.
  destruct s as [|c s]; [done|]. cbn [unsplit].
  intros [_ H]%andb_true_iff. done.
Qed.

Lemma unsplit_lstrip (s : string) :
  unsplit false s = true → unsplit false (PyStr.lstrip s) = true.
Proof.
  induction s as [|c s IH]; [done|]. cbn [PyStr.lstrip].
  destruct (PyStr.isspace c); [|done]. cbn [unsplit andb negb].
  intros H%unsplit_weaken. by apply IH.
Qed.

Lemma unsplit_rstrip (pe : bool) (s : string) :
  unsplit pe s = true → unsplit pe (PyStr.rstrip s) = true.
Proof.
  revert pe. induction s as [|c s IH]; intros pe; [done|].
  cbn [unsplit PyStr.rstrip]. intros [Hc Hs]%andb_true_iff.
  specialize (IH _ Hs). destruct (PyStr.rstrip s) as [|d r].
  - destruct (PyStr.isspace c) eqn:Hsp; [done|]. cbn [unsplit].
    by rewrite Hsp, Hc.
  - cbn [unsplit] in IH |- *. by rewrite Hc, IH.
Qed.

Lemma unsplit_strip (s : string) :
  unsplit false s = true → unsplit false (PyStr.strip s) = true.
Proof. intros. by apply unsplit_rstrip, unsplit_lstrip. Qed.

Lemma split_after_end_unsplit (sk pe : bool) (s : string) :
  match Merger.split_after_end sk pe s with
  | h :: t => unsplit (pe && negb sk) h = true
              ∧ Forall (λ x, unsplit false x = true) t
  | [] => False
  end.
Proof.
  revert sk pe. induction s as [|c s IH]; intros sk pe; [by split|].
  cbn [Merger.split_after_end].
  destruct (PyStr.isspace c && sk) eqn:H1.
  { apply andb_true_iff in H1 as [_ ->]. specialize (IH true false).
    destruct (Merger.split_after_end true false s) as [|h t]; [done|].
    destruct IH as [Hh Ht]. split; [|done]. by destruct pe. }
  destruct (PyStr.isspace c && pe) eqn:H2.
  { specialize (IH true false).
    destruct (Merger.split_after_end true false s) as [|h t]; [done|].
    destruct IH as [Hh Ht]. split; [done|]. constructor; [|done].
    by apply unsplit_weaken in Hh. }
  specialize (IH false (Merger.is_sentence_end c)).
  destruct (Merger.split_after_end false (Merger.is_sentence_end c) s)
    as [|h t]; [done|].
  destruct IH as [Hh Ht]. split; [|done]. cbn [unsplit].
  rewrite andb_true_r in Hh. rewrite Hh, andb_true_r.
  apply negb_true_iff. destruct pe, sk, (PyStr.isspace c); done.
Qed.

Lemma split_sentences_like (text : string) :
  Forall sentence_like (Merger.split_sentences text).
Proof.
  pose proof (split_sentences_trimmed text) as Ht.
  apply Forall_forall. intros x Hx. rewrite Forall_forall in Ht.
  destruct (Ht x Hx) as [H1 H2]. split_and!; [done|done|].
  unfold Merger.split_sentences in Hx. case_bool_decide; [by inv Hx|].
  apply list_elem_of_filter in Hx as [_ Hx].
  apply list_elem_of_fmap in Hx as (y & -> & Hy).
  apply unsplit_strip.
  pose proof (split_after_end_unsplit false false text) as Hu.
  destruct (Merger.split_after_end false false text) as [|h t]; [done|].
  destruct Hu as [Hh Hl]. apply elem_of_cons in Hy as [->|Hy]; [done|].
  rewrite Forall_forall in Hl. by apply Hl.
Qed.

(** ** Splitting a join *)

Lemma cons_head_empty (l : list string) :
  l ≠ [] → cons_head EmptyString l = l.
Proof. by destruct l. Qed.

Lemma split_after_end_append (pe : bool) (x y : string) :
  unsplit pe x = true →
  Merger.split_after_end false pe (x +:+ y)
  = cons_head x (Merger.split_after_end false (last_end pe x) y).
Proof.
  revert pe. induction x as [|c x IH]; intros pe.
  { intros _. cbn [last_end]. rewrite append_empty_l.
    destruct (split_after_end_cons false pe y) as (h & t & ->). done. }
  cbn [unsplit last_end]. intros [Hc Hx]%andb_true_iff.
  rewrite append_cons. cbn [Merger.split_after_end].
  rewrite andb_false_r. rewrite andb_comm.
  apply negb_true_iff in Hc. rewrite Hc. rewrite (IH _ Hx).
  destruct (split_after_end_cons false
              (last_end (Merger.is_sentence_end c) x) y) as (h & t & ->).
  done.
Qed.

Lemma split_after_end_skip_clean (s : string) :
  starts_in PyStr.isspace s = false →
  Merger.split_after_end true false s = Merger.split_after_end false false s.
Proof.
  destruct s as [|c s]; [done|]. cbn [starts_in Merger.split_after_end].
  by intros ->.
Qed.

Lemma ends_sentence_last_end (pe : bool) (x : string) :
  ends_sentence x = true → last_end pe x = true.
Proof.
  revert pe. induction x as [|c x IH]; intros pe; [done|].
  cbn [ends_sentence last_end]. destruct x as [|d x]; [done|]. apply IH.
Qed.

Lemma join_cons (sep x y : string) (l : list string) :
  PyText.join sep (x :: y :: l) = x +:+ sep +:+ PyText.join sep (y :: l).
Proof. done. Qed.

Lemma join_starts (x : string) (l : list string) :
  x ≠ EmptyString →
  starts_in PyStr.isspace (PyText.join " " (x :: l))
  = starts_in PyStr.isspace x.
Proof.
  intros Hx. destruct l as [|y l]; [done|].
  rewrite join_cons. by apply starts_in_append.
Qed.

Lemma but_last_cons_inv {A} (P : A → Prop) (x y : A) (l : list A) :
  but_last P (x :: y :: l) → P x ∧ but_last P (y :: l).
Proof.
  intros (init & tail & Heq & Hi & Ht). destruct init as [|i init].
  - cbn in Heq. subst tail. cbn in Ht. lia.
  - cbn in Heq. injection Heq as -> Heq. apply Forall_cons in Hi as [Hi Hr].
    split; [done|]. by exists init, tail.
Qed.

Lemma split_join (l : list string) :
  l ≠ [] → Forall sentence_like l →
  but_last (λ x, ends_sentence x = true) l →
  Merger.split_after_end false false (PyText.join " " l) = l.
Proof.
  induction l as [|x l IH]; [done|]. intros _ Hl Hb.
  apply Forall_cons in Hl as [(Hne & Hs & Hu) Hl].
  destruct l as [|y l].
  { cbn [PyText.join]. rewrite <- (append_empty_r x) at 1.
    rewrite split_after_end_append by done. cbn. by rewrite append_empty_r. }
  apply but_last_cons_inv in Hb as [He Hb]. rewrite join_cons.
  rewrite split_after_end_append by done.
  rewrite (ends_sentence_last_end _ _ He).
  change (" " +:+ PyText.join " " (y :: l))
    with (String " " (PyText.join " " (y :: l))).
  cbn [Merger.split_after_end]. change (PyStr.isspace " ") with true.
  cbn [andb cons_head]. rewrite append_empty_r. f_equal.
  rewrite split_after_end_skip_clean; [by apply IH|].
  pose proof Hl as Hy. apply Forall_cons in Hy as [(Hy1 & Hy2 & _) _].
  rewrite join_starts by done. by apply trimmed_starts_clean.
Qed.

Lemma visible_append (a b : string) :
  visible (a +:+ b) = (visible a ++ visible b)%list.
Proof.
  induction a as [|c a IH]; [done|]. rewrite append_cons. cbn [visible].
  destruct (PyStr.isspace c); [done|]. by rewrite IH.
Qed.

Lemma visible_nonempty (x : string) :
  x ≠ EmptyString → PyStr.strip x = x → visible x ≠ [].
Proof.
  intros Hx Hs%trimmed_starts_clean. destruct x as [|c x]; [done|].
  cbn in Hs |- *. by rewrite Hs.
Qed.

Lemma join_not_blank (x : string) (l : list string) :
  x ≠ EmptyString → PyStr.strip x = x →
  PyStr.strip (PyText.join " " (x :: l)) ≠ EmptyString.
Proof.
  intros Hx Hs Hj. apply (visible_nonempty x Hx Hs).
  apply (f_equal visible) in Hj. rewrite visible_strip in Hj.
  destruct l as [|y l]; [done|]. rewrite join_cons, visible_append in Hj.
  by apply app_eq_nil in Hj as [-> _].
Qed.

Lemma fmap_strip_fixed (l : list string) :
  Forall sentence_like l →
  filter (λ segment, PyText.nonempty segment) (PyStr.strip <$> l) = l.
Proof.
  induction 1 as [|x l (Hx & Hs & _) Hl IH]; [done|].
  rewrite fmap_cons, Hs, filter_cons_True, IH; [done|].
  by apply nonempty_true.
Qed.

Lemma split_sentences_join (l : list string) :
  Forall sentence_like l → but_last (λ x, ends_sentence x = true) l →
  Merger.split_sentences (PyText.join " " l) = l.
Proof.
  intros Hl Hb. destruct l as [|x l]; [done|].
  unfold Merger.split_sentences.
  pose proof Hl as Hx. apply Forall_cons in Hx as [(Hx1 & Hx2 & _) _].
  rewrite bool_decide_eq_false_2 by by apply join_not_blank.
  rewrite split_join by done. by apply fmap_strip_fixed.
Qed.

Lemma but_last_sublist {A} (P : A → Prop) (k l : list A) :
  sublist k l → but_last P l → but_last P k.
Proof.
  intros Hk (init & tail & -> & Hi & Ht).
  apply sublist_app_r in Hk as (k1 & k2 & -> & H1 & H2).
  exists k1, k2. split_and!; [done| |].
  - apply Forall_forall. intros x Hx. rewrite Forall_forall in Hi.
    apply Hi. by apply (sublist_subseteq _ _ H1).
  - apply sublist_length in H2. lia.
Qed.

Lemma keep_first_like (text : string) :
  Forall sentence_like (Merger.keep_first ∅ (Merger.split_sentences text))
  ∧ but_last (λ x, ends_sentence x = true)
      (Merger.keep_first ∅ (Merger.split_sentences text)).
Proof.
  destruct (keep_first_spec ∅ (Merger.split_sentences text)) as (Hs & _).
  split.
  - apply Forall_forall. intros x Hx.
    pose proof (split_sentences_like text) as Hl.
    rewrite Forall_forall in Hl. by apply Hl, (sublist_subseteq _ _ Hs).
  - eapply but_last_sublist; [exact Hs|apply split_sentences_but_last].
Qed.

Lemma split_remove_repeated (text : string) :
  Merger.split_sentences (Merger.remove_repeated_sentences text)
  = Merger.keep_first ∅ (Merger.split_sentences text).
Proof.
  destruct (keep_first_like text). by apply split_sentences_join.
Qed.

Lemma remove_repeated_idemp (text : string) :
  Merger.remove_repeated_sentences (Merger.remove_repeated_sentences text)
  = Merger.remove_repeated_sentences text.
Proof.
  unfold Merger.remove_repeated_sentences at 1.
  rewrite split_remove_repeated.
  rewrite keep_first_fixed; [done| |].
  - apply keep_first_spec.
  - intros x _. apply not_elem_of_empty.
Qed.

(** X20. The sentences of what [remove_repeated_sentences] returns are the
    sentences it kept: no two of them are equal up to case, and a second
    pass changes nothing. *)
Theorem remove_repeated_sentences_round_trip (text : string) :
  Merger.split_sentences (Merger.remove_repeated_sentences text)
  = Merger.keep_first ∅ (Merger.split_sentences text)
  ∧ NoDup (PyStr.lower
             <$> Merger.split_sentences
                   (Merger.remove_repeated_sentences text))
  ∧ Merger.remove_repeated_sentences (Merger.remove_repeated_sentences text)
    = Merger.remove_repeated_sentences text.
Proof.
  split_and!.
  - apply split_remove_repeated.
  - rewrite split_remove_repeated. apply keep_first_spec.
  - apply remove_repeated_idemp.
Qed.

(** ** Clean text stays clean *)

Lemma squeezed_app_end (cls : ascii → bool) (repl : ascii) (x y : string) :
  squeezed cls repl x = true → squeezed cls repl y = true →
  ends_in cls x = false → squeezed cls repl (x +:+ y) = true.
Proof.
  induction x as [|c x IH]; [done|]. rewrite append_cons.
  cbn [squeezed]. intros [Hc Hx]%andb_true_iff Hy He.
  destruct x as [|d x].
  - rewrite append_empty_l, Hy, andb_true_r. cbn in He. by rewrite He.
  - rewrite IH, andb_true_r by done. by rewrite append_cons.
Qed.

Lemma split_after_end_head_starts (cls : ascii → bool) (pe : bool)
    (s : string) :
  starts_in cls s = false →
  match Merger.split_after_end false pe s with
  | h :: _ => starts_in cls h = false
  | [] => True
  end.
Proof.
  destruct s as [|c s]; [done|]. cbn [starts_in Merger.split_after_end].
  intros Hc. rewrite andb_false_r.
  destruct (PyStr.isspace c && pe); [done|].
  by destruct (split_after_end_cons false (Merger.is_sentence_end c) s)
    as (h & t & ->).
Qed.

Lemma split_after_end_squeezed (cls : ascii → bool) (repl : ascii)
    (sk pe : bool) (s : string) :
  squeezed cls repl s = true →
  Forall (λ x, squeezed cls repl x = true) (Merger.split_after_end sk pe s).
Proof.
  revert sk pe. induction s as [|c s IH]; intros sk pe.
  { intros _. by repeat constructor. }
  cbn [squeezed Merger.split_after_end]. intros [Hc Hs]%andb_true_iff.
  destruct (PyStr.isspace c && sk); [by apply IH|].
  destruct (PyStr.isspace c && pe); [constructor; [done|by apply IH]|].
  specialize (IH false (Merger.is_sentence_end c) Hs).
  pose proof (split_after_end_head_starts cls (Merger.is_sentence_end c) s)
    as Hh.
  destruct (split_after_end_cons false (Merger.is_sentence_end c) s)
    as (h & t & Heq). rewrite Heq in IH, Hh |- *.
  apply Forall_cons in IH as [IH1 IH2]. constructor; [|done].
  cbn [squeezed]. rewrite IH1, andb_true_r.
  apply orb_true_iff in Hc as [Hc|Hc]; [by rewrite Hc|].
  apply andb_true_iff in Hc as [-> Hn]. apply negb_true_iff in Hn.
  rewrite (Hh Hn). by rewrite orb_true_r.
Qed.

Lemma split_sentences_squeezed (text : string) :
  squeezed PyStr.isspace " " text = true →
  Forall (λ x, squeezed PyStr.isspace " " x = true)
         (Merger.split_sentences text).
Proof.
  intros Hs. unfold Merger.split_sentences. case_bool_decide; [done|].
  apply Forall_forall. intros x [_ Hx]%list_elem_of_filter.
  apply list_elem_of_fmap in Hx as (y & -> & Hy). apply squeezed_strip.
  pose proof (split_after_end_squeezed PyStr.isspace " " false false text Hs)
    as Hl.
  rewrite Forall_forall in Hl. by apply Hl.
Qed.

Lemma join_clean (l : list string) :
  Forall (λ x, x ≠ EmptyString ∧ whitespace_clean x) l →
  whitespace_clean (PyText.join " " l).
Proof.
  induction 1 as [|x l (Hx & Ht & Hs) Hl IH]; [done|].
  destruct l as [|y l]; [done|]. rewrite join_cons.
  apply Forall_cons in Hl as [(Hy & Hyt & Hys) Hl].
  destruct IH as [IHt IHs].
  apply strip_fixed_iff in Ht as [Ht1 Ht2].
  assert (PyText.join " " (y :: l) ≠ EmptyString) as Hj.
  { destruct l; [done|]. rewrite join_cons. by apply append_nonempty_l. }
  change (" " +:+ PyText.join " " (y :: l))
    with (String " " (PyText.join " " (y :: l))).
  split.
  - apply strip_fixed_iff. split.
    + by rewrite starts_in_append.
    + rewrite ends_in_append by done. rewrite ends_in_cons by done.
      by apply strip_fixed_iff in IHt as [_ ?].
  - apply squeezed_app_end; [done| |done]. cbn [squeezed].
    rewrite IHs, andb_true_r.
    apply trimmed_starts_clean in IHt. rewrite IHt. done.
Qed.

Lemma remove_repeated_clean (text : string) :
  whitespace_clean text →
  whitespace_clean (Merger.remove_repeated_sentences text).
Proof.
  intros [_ Hs]. apply join_clean.
  destruct (keep_first_spec ∅ (Merger.split_sentences text)) as (Hsub & _).
  apply Forall_forall. intros x Hx%(sublist_subseteq _ _ Hsub).
  pose proof (split_sentences_trimmed text) as Ht.
  pose proof (split_sentences_squeezed text Hs) as Hq.
  rewrite Forall_forall in Ht, Hq. destruct (Ht x Hx) as [H1 H2].
  split; [done|]. split; [done|]. by apply Hq.
Qed.

Section SubWord.
Context (abbr r : string) (Hr : clean_word r).

Lemma sub_word_nonempty (pw : bool) (s : string) :
  Merger.sub_word abbr r 0 pw s = EmptyString → s = EmptyString.
Proof using Hr.
  destruct s as [|c s]; [done|]. cbn [Merger.sub_word].
  destruct Hr as [Hne _].
  destruct (negb pw && Merger.matches_word abbr (String c s)); [|done].
  intros H. by destruct r.
Qed.

Lemma sub_word_clean (s : string) (k : nat) (pw : bool) :
  squeezed PyStr.isspace " " s = true →
  squeezed PyStr.isspace " " (Merger.sub_word abbr r k pw s) = true
  ∧ (k = 0%nat →
     starts_in PyStr.isspace (Merger.sub_word abbr r k pw s) = true →
     starts_in PyStr.isspace s = true)
  ∧ (ends_in PyStr.isspace (Merger.sub_word abbr r k pw s) = true →
     ends_in PyStr.isspace s = true).
Proof using Hr.
  destruct Hr as (Hne & Ht & Hq).
  apply strip_fixed_iff in Ht as [Ht1 Ht2].
  revert k pw. induction s as [|c s IH]; intros k pw; [done|].
  cbn [squeezed]. intros [Hc Hs]%andb_true_iff.
  cbn [Merger.sub_word]. destruct k as [|k].
  - destruct (negb pw && Merger.matches_word abbr (String c s)).
    + destruct (IH (String.length abbr - 1)%nat (Merger.is_word_char c) Hs)
        as (IH1 & _ & IH3).
      split_and!.
      * by apply squeezed_app_end.
      * intros _. rewrite starts_in_append by done. congruence.
      * destruct (Merger.sub_word abbr r (String.length abbr - 1)
                    (Merger.is_word_char c) s) as [|d x] eqn:Hx.
        { rewrite append_empty_r. congruence. }
        rewrite ends_in_append by done. intros He%IH3.
        rewrite ends_in_cons; [done|]. by destruct s.
    + destruct (IH 0%nat (Merger.is_word_char c) Hs) as (IH1 & IH2 & IH3).
      split_and!.
      * cbn [squeezed]. rewrite IH1, andb_true_r.
        apply orb_true_iff in Hc as [Hc|Hc]; [by rewrite Hc|].
        apply andb_true_iff in Hc as [-> Hn]. apply negb_true_iff in Hn.
        destruct (starts_in PyStr.isspace
                    (Merger.sub_word abbr r 0 (Merger.is_word_char c) s))
          eqn:Hst; [|by rewrite orb_true_r].
        rewrite (IH2 eq_refl eq_refl) in Hn. done.
      * done.
      * destruct (Merger.sub_word abbr r 0 (Merger.is_word_char c) s)
          as [|d x] eqn:Hx.
        { apply sub_word_nonempty in Hx as ->. done. }
        rewrite ends_in_cons by done. intros He%IH3.
        rewrite ends_in_cons; [done|]. by destruct s.
  - destruct (IH k (Merger.is_word_char c) Hs) as (IH1 & _ & IH3).
    split_and!; [done|done|]. intros He%IH3.
    rewrite ends_in_cons; [done|]. by destruct s.
Qed.

Lemma sub_word_whitespace_clean (s : string) :
  whitespace_clean s →
  whitespace_clean (Merger.sub_word abbr r 0 false s).
Proof using Hr.
  intros [Ht Hs]. apply strip_fixed_iff in Ht as [Ht1 Ht2].
  destruct (sub_word_clean s 0 false Hs) as (H1 & H2 & H3).
  split; [|done]. apply strip_fixed_iff. split.
  - destruct (starts_in _ (Merger.sub_word _ _ _ _ _)) eqn:E; [|done].
    rewrite (H2 eq_refl eq_refl) in Ht1. done.
  - destruct (ends_in _ (Merger.sub_word _ _ _ _ _)) eqn:E; [|done].
    rewrite (H3 eq_refl) in Ht2. done.
Qed.

End SubWord.

Lemma area_names_clean_words :
  Forall (λ p, clean_word p.2) Merger.AREA_NORMALIZATION_MAP.
Proof. repeat constructor; done. Qed.

Lemma normalize_area_names_clean (text : string) :
  whitespace_clean text → whitespace_clean (Merger.normalize_area_names text).
Proof.
  unfold Merger.normalize_area_names.
  generalize area_names_clean_words.
  generalize Merger.AREA_NORMALIZATION_MAP. intros l Hl. revert text.
  induction Hl as [|[p r] l Hr Hl IH]; intros text Ht; [done|].
  cbn [foldl]. apply IH. by apply sub_word_whitespace_clean.
Qed.

Lemma normalize_pipeline_eq (text : string) :
  Merger._normalize_pipeline text
    [ Merger.clean_whitespace; Merger.normalize_area_names;
      Merger.remove_repeated_sentences; Merger.clean_whitespace ]
  = Merger.remove_repeated_sentences
      (Merger.normalize_area_names (Merger.clean_whitespace text)).
Proof.
  cbn [Merger._normalize_pipeline foldl]. apply clean_whitespace_fixed.
  apply remove_repeated_clean, normalize_area_names_clean,
    clean_whitespace_is_clean.
Qed.

Lemma normalize_pipeline_clean (text : string) :
  let output :=
    Merger._normalize_pipeline text
      [ Merger.clean_whitespace; Merger.normalize_area_names;
        Merger.remove_repeated_sentences; Merger.clean_whitespace ] in
  whitespace_clean output
  ∧ NoDup (PyStr.lower <$> Merger.split_sentences output).
Proof.
  cbv zeta. rewrite normalize_pipeline_eq. split.
  - apply remove_repeated_clean, normalize_area_names_clean,
      clean_whitespace_is_clean.
  - rewrite split_remove_repeated. apply keep_first_spec.
Qed.

(** X22. Both texts that [preprocess_reports] returns are clean (trimmed,
    single-spaced), and no two of their sentences are equal up to case. *)
Theorem preprocess_reports_output (inspection_text thermal_text : string) :
  let '(inspection, thermal) :=
    Merger.preprocess_reports inspection_text thermal_text in
  (whitespace_clean inspection
   ∧ NoDup (PyStr.lower <$> Merger.split_sentences inspection))
  ∧ (whitespace_clean thermal
     ∧ NoDup (PyStr.lower <$> Merger.split_sentences thermal)).
Proof.
  unfold Merger.preprocess_reports. split; apply normalize_pipeline_clean.
Qed.

(** X23. In the pipeline of [preprocess_reports] the last whitespace
    cleanup finds nothing to do: the text is already clean after the
    duplicate filter. *)
Theorem preprocess_reports_last_pass (inspection_text thermal_text : string) :
  Merger.preprocess_reports inspection_text thermal_text
  = ( Merger.remove_repeated_sentences
        (Merger.normalize_area_names
           (Merger.clean_whitespace inspection_text)),
      Merger.remove_repeated_sentences
        (Merger.normalize_area_names
           (Merger.clean_whitespace thermal_text)) ).
Proof.
  unfold Merger.preprocess_reports. by rewrite !normalize_pipeline_eq.
Qed.

(** ** Texts that reach the engine *)

Lemma strip_empty_iff (s : string) :
  PyStr.strip s = EmptyString ↔ visible s = [].
Proof.
  split.
  - intros H. by rewrite <- visible_strip, H.
  - intros H. unfold PyStr.strip.
    assert (PyStr.lstrip s = EmptyString) as ->; [|done].
    induction s as [|c s IH]; [done|]. cbn [visible PyStr.lstrip] in H |- *.
    destruct (PyStr.isspace c); [by apply IH|done].
Qed.

Lemma clean_whitespace_nonempty (text : string) :
  PyStr.strip text ≠ EmptyString → Merger.clean_whitespace text ≠ EmptyString.
Proof.
  rewrite strip_empty_iff. intros Hv Hc. apply Hv.
  unfold Merger.clean_whitespace in Hc. apply (f_equal visible) in Hc.
  by rewrite visible_strip, visible_sub_runs in Hc.
Qed.

Lemma normalize_area_names_nonempty (text : string) :
  text ≠ EmptyString → Merger.normalize_area_names text ≠ EmptyString.
Proof.
  unfold Merger.normalize_area_names.
  generalize area_names_clean_words.
  generalize Merger.AREA_NORMALIZATION_MAP. intros l Hl. revert text.
  induction Hl as [|[p r] l Hr Hl IH]; intros text Ht; [done|].
  cbn [foldl]. apply IH. intros H.
  by apply (sub_word_nonempty p r Hr) in H.
Qed.

(** X21. [normalize_area_names] keeps a clean text clean, and a clean text
    that is not empty stays not empty: the expansions hold single blanks
    only and none at their ends. *)
Theorem normalize_area_names_keeps_clean (text : string) :
  whitespace_clean text →
  whitespace_clean (Merger.normalize_area_names text)
  ∧ (text ≠ EmptyString → Merger.normalize_area_names text ≠ EmptyString).
Proof.
  intros Hc. split; [by apply normalize_area_names_clean|].
  apply normalize_area_names_nonempty.
Qed.

Lemma normalize_area_names_keeps_clean_witness :
  Merger.normalize_area_names "Damp in LR and the kit." 
  = "Damp in living room and the kitchen."
  ∧ whitespace_clean (Merger.normalize_area_names "Damp in LR and the kit.").
Proof.
  split; [vm_compute; reflexivity|].
  apply (normalize_area_names_keeps_clean "Damp in LR and the kit.").
  split; vm_compute; reflexivity.
Defined.

Lemma remove_repeated_nonempty (text : string) :
  PyStr.strip text ≠ EmptyString →
  Merger.remove_repeated_sentences text ≠ EmptyString.
Proof.
  intros Hs. unfold Merger.remove_repeated_sentences.
  pose proof (split_sentences_visible text) as Hv.
  pose proof (split_sentences_like text) as Hl.
  destruct (Merger.split_sentences text) as [|x l].
  { cbn in Hv. symmetry in Hv. by apply strip_empty_iff in Hv. }
  cbn [Merger.keep_first].
  rewrite bool_decide_eq_false_2 by apply not_elem_of_empty.
  apply Forall_cons in Hl as [(Hx & _) _].
  destruct (Merger.keep_first _ l); [done|].
  rewrite join_cons. by apply append_nonempty_l.
Qed.

Lemma clean_nonempty_not_blank (s : string) :
  whitespace_clean s → s ≠ EmptyString → PyStr.strip s ≠ EmptyString.
Proof. intros [-> _]. done. Qed.

Lemma normalize_pipeline_nonempty (text : string) :
  PyStr.strip text ≠ EmptyString →
  Merger._normalize_pipeline text
    [ Merger.clean_whitespace; Merger.normalize_area_names;
      Merger.remove_repeated_sentences; Merger.clean_whitespace ]
  ≠ EmptyString.
Proof.
  intros Hs. rewrite normalize_pipeline_eq.
  apply remove_repeated_nonempty, clean_nonempty_not_blank.
  - apply normalize_area_names_clean, clean_whitespace_is_clean.
  - by apply normalize_area_names_nonempty, clean_whitespace_nonempty.
Qed.

(** ** The endpoint *)

Section EndpointProperties.

Context {World : Type}.
Variable requests_post : Request → World → result Response * World.
Variable getenv : string → option string.
Variable json_loads : string → gmap string value + string.
Variable py_str : value → string.
Variable DDR_PROMPT_TEMPLATE : string.
Variable _save_upload : UploadFile → string → World → result unit * World.
Variable native_pages : string → World → result (list string).
Variable ocr_pages : string → World → result (list string).
Variable generate_docx : DDRReport → World → result string * World.
Variable upload_path : string → string.
Variable path_name : string → string.

Local Abbreviation generate :=
  (generate_ddr requests_post getenv json_loads py_str DDR_PROMPT_TEMPLATE).
Local Abbreviation prompt_of := (base_prompt DDR_PROMPT_TEMPLATE).
Local Abbreviation texts := (report_texts native_pages ocr_pages).
Local Abbreviation endpoint :=
  (generate_ddr_endpoint requests_post getenv json_loads py_str
     DDR_PROMPT_TEMPLATE _save_upload native_pages ocr_pages generate_docx
     upload_path path_name).

Lemma text_or_sentinel_not_blank (text : string) :
  PyStr.strip (text_or_sentinel text) ≠ EmptyString.
Proof. unfold text_or_sentinel. by case_bool_decide. Qed.

Lemma report_texts_clean (inspection_path thermal_path : string) (w : World) :
  let '(inspection, thermal) := texts inspection_path thermal_path w in
  (inspection ≠ EmptyString ∧ whitespace_clean inspection
   ∧ NoDup (PyStr.lower <$> Merger.split_sentences inspection))
  ∧ (thermal ≠ EmptyString ∧ whitespace_clean thermal
     ∧ NoDup (PyStr.lower <$> Merger.split_sentences thermal)).
Proof.
  unfold report_texts, Merger.preprocess_reports.
  split; (split; [apply normalize_pipeline_nonempty, text_or_sentinel_not_blank
                 |apply normalize_pipeline_clean]).
Qed.

Lemma to_http_exception_code (exc : exn) :
  ∃ code, to_http_exception exc
          = HTTPException code
              (if bool_decide (code = 500%Z)
               then "Failed to generate DDR report: " +:+ exn_msg exc
               else exn_msg exc)
        ∧ code ∈ [429%Z; 401%Z; 502%Z; 500%Z].
Proof.
  unfold to_http_exception.
  repeat case_match;
    [exists 429%Z|exists 401%Z|exists 502%Z|exists 500%Z];
    (split; [reflexivity|compute_done]).
Qed.

Lemma to_http_exception_not_400 (exc : exn) (detail : string) :
  to_http_exception exc ≠ HTTPException 400 detail.
Proof.
  destruct (to_http_exception_code exc) as (code & -> & Hc).
  intros [= -> _]. revert Hc. compute_done.
Qed.

Lemma endpoint_bad_request_aux (inspection_file thermal_file : UploadFile)
    (st : state World) :
  let bad := negb (is_pdf_name (filename inspection_file)
                   && is_pdf_name (filename thermal_file)) in
  ((∃ detail, (endpoint inspection_file thermal_file st).1
              = HTTPException 400 detail) ↔ bad = true)
  ∧ (bad = true → (endpoint inspection_file thermal_file st).2 = st).
Proof.
  cbv zeta. unfold generate_ddr_endpoint.
  destruct (is_pdf_name (filename inspection_file)); cbn [negb andb].
  2:{ split; [|done]. split; [done|]. intros _. by eexists. }
  destruct (is_pdf_name (filename thermal_file)); cbn [negb andb].
  2:{ split; [|done]. split; [done|]. intros _. by eexists. }
  split; [|done]. split; [|done]. intros [detail H]. exfalso. revert H.
  destruct (_save_upload inspection_file _ _) as [[[]|exc] w1]; cbn [fst].
  2:{ apply to_http_exception_not_400. }
  destruct (_save_upload thermal_file _ _) as [[[]|exc] w2]; cbn [fst].
  2:{ apply to_http_exception_not_400. }
  destruct (report_texts _ _ _ _ _) as [a b].
  destruct (generate_ddr _ _ _ _ _ _ _ _) as [[report|exc] st1]; cbn [fst].
  2:{ apply to_http_exception_not_400. }
  destruct (generate_docx _ _) as [[path|exc] w3]; cbn [fst]; [done|].
  apply to_http_exception_not_400.
Qed.

(** X28. The endpoint answers 400 exactly when one of the two file names
    does not end in [.pdf] (whatever the case of its letters), and then
    nothing was saved and no request was sent. *)
Theorem endpoint_bad_request (inspection_file thermal_file : UploadFile)
    (st : state World) :
  let bad := negb (is_pdf_name (filename inspection_file)
                   && is_pdf_name (filename thermal_file)) in
  ((∃ detail, (endpoint inspection_file thermal_file st).1
              = HTTPException 400 detail) ↔ bad = true)
  ∧ (bad = true → (endpoint inspection_file thermal_file st).2 = st).
Proof. apply endpoint_bad_request_aux. Qed.

Lemma key_error_message (e : exn) :
  get_openrouter_api_key getenv = Raise e →
  to_http_exception e
  = HTTPException 500
      "Failed to generate DDR report: OPENROUTER_API_KEY is not set. Add it to your .env file before running the app.".
Proof.
  unfold get_openrouter_api_key. case_bool_decide; [|done].
  by intros [= <-].
Qed.

Lemma generation_failed_to_http (last : exn) :
  to_http_exception (generation_failed (Some last))
  = HTTPException 502
      ("Failed to generate a valid DDR JSON response: " +:+ exn_msg last).
Proof. done. Qed.

(** X29. When both uploads are PDF files and are saved, a failure of
    [generate_ddr] is answered through the [except] clauses: a
    [RuntimeError] itself (the missing API key) with 500 and no request
    sent, a quota error with 429, an authentication error with 401, and an
    [LLMGenerationError] itself (two failed attempts) with 502 and the
    message of the last error. *)
Theorem endpoint_engine_failure
    (inspection_file thermal_file : UploadFile) (st st' : state World)
    (w1 w2 : World) (e : exn) :
  let inspection_path :=
    upload_path ("inspection_" +:+ filename inspection_file) in
  let thermal_path := upload_path ("thermal_" +:+ filename thermal_file) in
  let p := prompt_of (texts inspection_path thermal_path w2).1
                     (texts inspection_path thermal_path w2).2 in
  is_pdf_name (filename inspection_file) = true →
  is_pdf_name (filename thermal_file) = true →
  _save_upload inspection_file inspection_path (world st) = (Ok (), w1) →
  _save_upload thermal_file thermal_path w1 = (Ok (), w2) →
  generate (texts inspection_path thermal_path w2).1
           (texts inspection_path thermal_path w2).2
           (mkState w2 (transport_calls st)) = (Raise e, st') →
  endpoint inspection_file thermal_file st = (to_http_exception e, st')
  ∧ (exn_cls e = RuntimeError →
     endpoint inspection_file thermal_file st
     = (HTTPException 500
          "Failed to generate DDR report: OPENROUTER_API_KEY is not set. Add it to your .env file before running the app.",
        mkState w2 (transport_calls st ++ [p])%list))
  ∧ (exn_cls e = LLMQuotaExceededError →
     endpoint inspection_file thermal_file st
     = (HTTPException 429 (exn_msg e), st'))
  ∧ (exn_cls e = LLMAuthError →
     endpoint inspection_file thermal_file st
     = (HTTPException 401 (exn_msg e), st'))
  ∧ (exn_cls e = LLMGenerationError →
     ∃ last,
       endpoint inspection_file thermal_file st
       = (HTTPException 502
            ("Failed to generate a valid DDR JSON response: "
             +:+ exn_msg last), st')
       ∧ recoverable last = true
       ∧ transport_calls st'
         = (transport_calls st ++ [p; p +:+ RETRY_SUFFIX])%list).
Proof.
  intros inspection_path thermal_path p Hi Ht Hs1 Hs2 Hg.
  assert (endpoint inspection_file thermal_file st
          = (to_http_exception e, st')) as ->.
  { unfold generate_ddr_endpoint. rewrite Hi, Ht. cbn [negb].
    fold inspection_path thermal_path. rewrite Hs1, Hs2.
    destruct (texts inspection_path thermal_path w2) as [a b] eqn:Htexts.
    cbn [fst snd] in Hg. by rewrite Hg. }
  pose proof Hg as Hmodes. eapply generate_ddr_failure_by_class in Hmodes.
  cbv zeta in Hmodes. destruct Hmodes as (Hrun & _ & Hgen).
  split_and!; [done| | | |].
  - intros Hc. destruct (Hrun Hc) as [Hk ->].
    apply key_error_message in Hk. by rewrite Hk.
  - destruct e as [c msg cause]. cbn [exn_cls]. by intros ->.
  - destruct e as [c msg cause]. cbn [exn_cls]. by intros ->.
  - intros Hc. destruct (Hgen Hc) as (last & -> & Hr & Hl).
    exists last. by rewrite generation_failed_to_http.
Qed.

(** X30. The prompts the endpoint sends: none, one, or one and its retry;
    they are built from two texts that are non-empty and clean, with no
    sentence repeated up to case. *)
Theorem endpoint_prompts (inspection_file thermal_file : UploadFile)
    (st : state World) :
  let inspection_path :=
    upload_path ("inspection_" +:+ filename inspection_file) in
  let thermal_path := upload_path ("thermal_" +:+ filename thermal_file) in
  let log := transport_calls (endpoint inspection_file thermal_file st).2 in
  ∃ w,
    let '(inspection, thermal) := texts inspection_path thermal_path w in
    let p := prompt_of inspection thermal in
    (inspection ≠ EmptyString ∧ whitespace_clean inspection
     ∧ NoDup (PyStr.lower <$> Merger.split_sentences inspection))
    ∧ (thermal ≠ EmptyString ∧ whitespace_clean thermal
       ∧ NoDup (PyStr.lower <$> Merger.split_sentences thermal))
    ∧ (log = transport_calls st
       ∨ log = (transport_calls st ++ [p])%list
       ∨ log = (transport_calls st ++ [p; p +:+ RETRY_SUFFIX])%list).
Proof.
  intros inspection_path thermal_path log. subst log.
  assert (∀ w : World,
    transport_calls (endpoint inspection_file thermal_file st).2
    = transport_calls st →
      let '(inspection, thermal) := texts inspection_path thermal_path w in
      let p := prompt_of inspection thermal in
      (inspection ≠ EmptyString ∧ whitespace_clean inspection
       ∧ NoDup (PyStr.lower <$> Merger.split_sentences inspection))
      ∧ (thermal ≠ EmptyString ∧ whitespace_clean thermal
         ∧ NoDup (PyStr.lower <$> Merger.split_sentences thermal))
      ∧ (transport_calls (endpoint inspection_file thermal_file st).2
         = transport_calls st
         ∨ transport_calls (endpoint inspection_file thermal_file st).2
           = (transport_calls st ++ [p])%list
         ∨ transport_calls (endpoint inspection_file thermal_file st).2
           = (transport_calls st ++ [p; p +:+ RETRY_SUFFIX])%list))
    as Hquiet.
  { intros w Hlog.
    pose proof (report_texts_clean inspection_path thermal_path w) as Hc.
    destruct (texts inspection_path thermal_path w) as [a b].
    destruct Hc as [Ha Hb]. split; [done|]. split; [done|]. by left. }
  unfold generate_ddr_endpoint in Hquiet |- *.
  fold inspection_path thermal_path in Hquiet |- *.
  destruct (is_pdf_name (filename inspection_file)); cbn [negb] in *;
    [|by exists (world st); apply Hquiet].
  destruct (is_pdf_name (filename thermal_file)); cbn [negb] in *;
    [|by exists (world st); apply Hquiet].
  destruct (_save_upload inspection_file _ _) as [[[]|exc] w1];
    [|by exists (world st); apply Hquiet].
  destruct (_save_upload thermal_file _ _) as [[[]|exc] w2];
    [|by exists (world st); apply Hquiet].
  clear Hquiet. exists w2.
  pose proof (report_texts_clean inspection_path thermal_path w2) as Hc.
  destruct (texts inspection_path thermal_path w2) as [a b].
  destruct Hc as [Ha Hb]. split; [done|]. split; [done|]. right.
  pose proof (generate_ddr_calls requests_post getenv json_loads py_str
                DDR_PROMPT_TEMPLATE a b (mkState w2 (transport_calls st)))
    as Hlog.
  cbv zeta in Hlog. cbn [transport_calls] in Hlog.
  destruct (generate a b _) as [[report|exc] st1]; cbn [snd] in Hlog |- *;
    [|done].
  by destruct (generate_docx report (world st1)) as [[path|exc] w3].
Qed.

End EndpointProperties.

Lemma endpoint_engine_failure_witness :
  generate_ddr_endpoint (scripted_post [Ok (http_error 429)]) test_env
    reject_json blank_str "{inspection_text}|{thermal_text}" save_ok
    (pages_of ["Damp  wall. damp wall."]) (pages_of []) docx_ok same_path
    same_path (mkUploadFile "inspection.pdf" "%PDF")
    (mkUploadFile "Thermal.PDF" "%PDF") (mkState 0 [])
  = (HTTPException 429
       "OpenRouter quota/rate limit exceeded (HTTP 429): Unknown OpenRouter error.",
     mkState 1 ["Damp wall.|Damp wall."]).
Proof.
  destruct (endpoint_engine_failure (scripted_post [Ok (http_error 429)])
              test_env reject_json blank_str
              "{inspection_text}|{thermal_text}" save_ok
              (pages_of ["Damp  wall. damp wall."]) (pages_of []) docx_ok
              same_path same_path
              (mkUploadFile "inspection.pdf" "%PDF")
              (mkUploadFile "Thermal.PDF" "%PDF")
              (mkState 0 []) (mkState 1 ["Damp wall.|Damp wall."]) 0 0
              (Exn LLMQuotaExceededError
                 "OpenRouter quota/rate limit exceeded (HTTP 429): Unknown OpenRouter error."
                 None)
              ltac:(vm_compute; reflexivity) ltac:(vm_compute; reflexivity)
              ltac:(vm_compute; reflexivity) ltac:(vm_compute; reflexivity)
              ltac:(vm_compute; reflexivity))
    as (_ & _ & Hquota & _).
  exact (Hquota eq_refl).
Defined.
